(** * MaxTrace: the blueprint-detection job lifecycle

    A shallow embedding of the four Lambda handlers of the backend
    ([upload_handler.py], [inference_handler.py], [status_handler.py],
    [results_handler.py]) and of the aggregation done by the SageMaker
    inference script ([ml-model/deployment/inference.py]).

    Modelling conventions.
    - Python values that come from a JSON request are values of [jvalue];
      Python's truthiness, [dict.get], [str.split] and [>] are defined on it,
      raising the exception Python raises on an ill-typed operand.
    - The documents kept in the bucket (metadata.json, status.json,
      results.json) are records; [json.dumps]/[json.loads] on them is the
      identity.
    - Python floats are exact rationals ([Q]); [round(x, 2)] is rounding to
      the nearest hundredth, ties to even.
    - The handlers run in a small state-and-exception monad [M] over a
      [World]: the bucket, the number of endpoint calls made so far, the log
      of [time.sleep] arguments, the log of [put_object] calls and the
      counters of the clock and of the uuid generator.
    - The object store is the reliable key-value store the design assumes:
      [put_object] always stores, [get_object] raises [NoSuchKey] exactly on
      a missing key.  Everything outside the repository (the endpoint, the
      clock, uuid4, URL signing, [str()] of a non-string) is a field of
      [Env]. *)

From Stdlib Require Import ZArith QArith Qround String Ascii List Bool Lia Lqa.
From stdpp Require Import gmap strings list fin_maps sorting pretty.

Set Warnings "-register-all".

Local Open Scope string_scope.
Local Open Scope Z_scope.

(* ===================================================================== *)
(** ** Python strings *)
(* ===================================================================== *)

Module PyStr.

(** [needle in hay] *)
Fixpoint contains (needle hay : string) : bool :=
  String.prefix needle hay ||
  match hay with
  | EmptyString => false
  | String _ rest => contains needle rest
  end.

(** [s.endswith(suffix)] *)
Definition endswith (s suffix : string) : bool :=
  String.prefix (String.rev suffix) (String.rev s).

Definition lower_ascii (c : ascii) : ascii :=
  let n := nat_of_ascii c in
  if ((65 <=? n) && (n <=? 90))%nat then ascii_of_nat (n + 32) else c.

(** [s.lower()], on the ASCII letters *)
Fixpoint lower (s : string) : string :=
  match s with
  | EmptyString => EmptyString
  | String c rest => String (lower_ascii c) (lower rest)
  end.

(** [s.split(sep)[-1]] for a one-character separator: what follows the
    last separator, the whole string when there is none. *)
Fixpoint split_last_aux (sep : ascii) (s acc : string) : string :=
  match s with
  | EmptyString => String.rev acc
  | String c rest =>
      if Ascii.eqb c sep then split_last_aux sep rest EmptyString
      else split_last_aux sep rest (String c acc)
  end.

Definition split_last (sep : ascii) (s : string) : string :=
  split_last_aux sep s EmptyString.

(** [s[:n]] *)
Definition take (n : nat) (s : string) : string := String.substring 0 n s.

End PyStr.

(* ===================================================================== *)
(** ** Python numbers *)
(* ===================================================================== *)

Module PyNum.

(** Nearest integer, ties to even. *)
Definition round_half_even (q : Q) : Z :=
  let f := Qfloor q in
  match Qcompare (q - inject_Z f) (1 # 2) with
  | Lt => f
  | Gt => f + 1
  | Eq => if Z.even f then f else f + 1
  end.

(** [round(x, 2)] *)
Definition round2 (q : Q) : Q :=
  Qred (inject_Z (round_half_even (q * 100)) / 100).

(** [int(x)]: truncation toward zero *)
Definition int (q : Q) : Z := Z.quot (Qnum q) (Zpos (Qden q)).

(** [sum(xs)]: starts at 0 and adds from the left *)
Definition sum (xs : list Q) : Q := fold_left Qplus xs 0%Q.

End PyNum.

(* ===================================================================== *)
(** ** JSON values and the Python operations used on them *)
(* ===================================================================== *)

Inductive jvalue : Type :=
| JNull
| JBool (b : bool)
| JInt (z : Z)
| JFloat (q : Q)
| JStr (s : string)
| JArr (items : list jvalue)
| JObj (fields : list (string * jvalue)).

(** Exceptions: the classes the handlers tell apart, and [str(e)]. *)
Inductive exn_class : Type :=
| ModelError          (* sagemaker-runtime: the model rejected the input *)
| NoSuchKey           (* s3: missing key *)
| ClientError         (* any other botocore ClientError *)
| ValueError
| TypeError
| AttributeError
| OtherException.

Record exn : Type := Exn { exn_cls : exn_class; exn_msg : string }.

Definition is_ModelError (e : exn) : bool :=
  match exn_cls e with ModelError => true | _ => false end.

Definition is_NoSuchKey (e : exn) : bool :=
  match exn_cls e with NoSuchKey => true | _ => false end.

(** [ModelError] and [NoSuchKey] are subclasses of botocore's ClientError. *)
Definition is_ClientError (e : exn) : bool :=
  match exn_cls e with
  | ModelError | NoSuchKey | ClientError => true
  | _ => false
  end.

Inductive result (A : Type) : Type :=
| Ok (a : A)
| Raise (e : exn).
Arguments Ok {A} a.
Arguments Raise {A} e.

Module Py.

(** [bool(v)] *)
Definition truthy (v : jvalue) : bool :=
  match v with
  | JNull => false
  | JBool b => b
  | JInt z => negb (z =? 0)
  | JFloat q => negb (Qeq_bool q 0)
  | JStr s => negb (String.eqb s "")
  | JArr items => match items with [] => false | _ => true end
  | JObj fields => match fields with [] => false | _ => true end
  end.

(** [type(v).__name__] *)
Definition type_name (v : jvalue) : string :=
  match v with
  | JNull => "NoneType"
  | JBool _ => "bool"
  | JInt _ => "int"
  | JFloat _ => "float"
  | JStr _ => "str"
  | JArr _ => "list"
  | JObj _ => "dict"
  end.

Definition no_attribute (v : jvalue) (attr : string) : exn :=
  Exn AttributeError
      ("'" +:+ type_name v +:+ "' object has no attribute '" +:+ attr +:+ "'").

Fixpoint assoc (k : string) (fields : list (string * jvalue)) : option jvalue :=
  match fields with
  | [] => None
  | (k', v) :: rest => if String.eqb k k' then Some v else assoc k rest
  end.

(** [d.get(k, default)]; [d.get(k)] is [get_default d k JNull]. *)
Definition get_default (d : jvalue) (k : string) (default : jvalue)
  : result jvalue :=
  match d with
  | JObj fields =>
      Ok (match assoc k fields with Some v => v | None => default end)
  | _ => Raise (no_attribute d "get")
  end.

Definition get (d : jvalue) (k : string) : result jvalue :=
  get_default d k JNull.

(** [v not in allowed] for a list of strings *)
Definition not_in (v : jvalue) (allowed : list string) : bool :=
  match v with
  | JStr s => negb (existsb (String.eqb s) allowed)
  | _ => true
  end.

(** [v > bound] for an int bound *)
Definition gt_int (v : jvalue) (bound : Z) : result bool :=
  match v with
  | JInt z => Ok (bound <? z)
  | JFloat q => Ok (match Qcompare (inject_Z bound) q with Lt => true | _ => false end)
  | JBool b => Ok (bound <? (if b then 1 else 0))
  | _ => Raise (Exn TypeError
                  ("'>' not supported between instances of '" +:+
                   type_name v +:+ "' and 'int'"))
  end.

(** [v.split('.')[-1]] *)
Definition split_dot_last (v : jvalue) : result string :=
  match v with
  | JStr s => Ok (PyStr.split_last "."%char s)
  | _ => Raise (no_attribute v "split")
  end.

End Py.

(* ===================================================================== *)
(** ** The documents of a job and the messages exchanged *)
(* ===================================================================== *)

Module BoundingBox.
Record t : Type := Make { x : Z; y : Z; width : Z; height : Z }.
End BoundingBox.

Module Dimensions.
Record t : Type := Make { width : Z; height : Z }.
End Dimensions.

(** One detection, as [predict_fn] emits it.  The coordinator reads only
    ['class'], with [.get('class', 'unknown')]: the label may be absent. *)
Module Detection.
Record t : Type := Make {
  roomId : Z;
  boundingBox : BoundingBox.t;
  confidence : Q;
  class : option string;
  area : Z
}.
End Detection.

(** The parsed response of the endpoint.  Every field is read with
    [.get(key, default)], so every field may be absent. *)
Module InferenceResult.
Record t : Type := Make {
  detections : option (list Detection.t);
  dimensions : option Dimensions.t;
  totalRooms : option Z;
  avgConfidence : option Q
}.
End InferenceResult.

Module Payload.
Record t : Type := Make { s3_uri : string; confidence : jvalue }.
End Payload.

Module Metadata.
Record t : Type := Make {
  blueprintId : string;
  sessionId : jvalue;
  fileName : jvalue;
  uploadedAt : string;
  fileSize : jvalue;
  format : string;
  s3Key : option string
}.
End Metadata.

Module Status.
Record t : Type := Make {
  blueprintId : jvalue;
  status : string;
  stage : string;
  progress : Z;
  estimatedTimeRemaining : Z;
  message : string;
  updatedAt : option string
}.
End Status.

Module Statistics.
Record t : Type := Make {
  totalDetections : Z;
  totalRooms : Z;
  avgConfidence : Q;
  elementCounts : list (string * Z);
  processingSteps : list string
}.
End Statistics.

Module Results.
Record t : Type := Make {
  blueprintId : jvalue;
  modelVersion : string;
  processingTime : Q;
  detectedAt : string;
  detections : list Detection.t;
  statistics : Statistics.t;
  dimensions : option Dimensions.t
}.
End Results.

Inductive Document : Type :=
| DocMetadata (m : Metadata.t)
| DocStatus (s : Status.t)
| DocResults (r : Results.t).

(** [doc.get('s3Key')] on a stored document *)
Definition doc_s3Key (d : Document) : option string :=
  match d with
  | DocMetadata m => Metadata.s3Key m
  | _ => None
  end.

(** The API Gateway event.  [body] is the request text: absent, parsed by
    [json.loads] to a value, or rejected by [json.loads] with an exception. *)
Inductive EventBody : Type :=
| BodyAbsent
| BodyJson (j : jvalue)
| BodyMalformed (e : exn).

Inductive PathParameters : Type :=
| PathAbsent
| PathNull
| PathDict (fields : list (string * string)).

Module Event.
Record t : Type := Make { body : EventBody; pathParameters : PathParameters }.
End Event.

Inductive ResponseBody : Type :=
| ErrorBody (error : string) (details : option string)
| UploadBody (blueprintId uploadUrl s3Key message : string)
| InferenceBody (message : string) (blueprintId : jvalue) (results : Results.t)
| DocumentBody (d : Document).

Module Response.
Record t : Type := Make {
  statusCode : Z;
  headers : list (string * string);
  body : ResponseBody
}.
End Response.

(** [json.loads(event.get('body', '{}'))] *)
Definition json_loads_body (event : Event.t) : result jvalue :=
  match Event.body event with
  | BodyAbsent => Ok (JObj [])
  | BodyJson j => Ok j
  | BodyMalformed e => Raise e
  end.

Definition cors_headers : list (string * string) :=
  [ ("Access-Control-Allow-Origin", "*");
    ("Access-Control-Allow-Headers", "Content-Type");
    ("Access-Control-Allow-Methods", "OPTIONS,POST,GET") ].

Definition respond (code : Z) (b : ResponseBody) : Response.t :=
  Response.Make code cors_headers b.

(* ===================================================================== *)
(** ** The world, the environment and the monad of the handlers *)
(* ===================================================================== *)

Record World : Type := MkWorld {
  objects : gmap string Document;        (* the bucket *)
  put_log : list (string * Document);    (* every put_object, oldest first *)
  endpoint_calls : nat;                  (* invoke_endpoint calls so far *)
  sleep_log : list Q;                    (* every time.sleep, oldest first *)
  clock : nat;                           (* clock readings so far *)
  uuids : nat                            (* uuid4 draws so far *)
}.

Record Env : Type := MkEnv {
  (** the n-th call of the endpoint, response body already parsed *)
  invoke_endpoint : nat -> string -> Payload.t -> result InferenceResult.t;
  (** [datetime.utcnow().isoformat()] at the n-th clock reading *)
  utcnow_isoformat : nat -> string;
  (** [time.time()] at the n-th clock reading *)
  time_time : nat -> Q;
  (** [uuid.uuid4().hex] of the n-th draw *)
  uuid4_hex : nat -> string;
  (** bucket, key, content type, lifetime in seconds *)
  generate_presigned_url : string -> string -> jvalue -> Z -> string;
  (** [str(v)] of a value that is not a string *)
  py_repr : jvalue -> string
}.

Record Config : Type := MkConfig {
  BUCKET_NAME : string;
  SAGEMAKER_ENDPOINT : string;
  MODEL_VERSION : string;
  MAX_RETRIES : Z;
  RETRY_DELAY : Q
}.

Definition default_config : Config :=
  {| BUCKET_NAME := "innergy-blueprints-dev";
     SAGEMAKER_ENDPOINT := "yolov5-blueprint-detector";
     MODEL_VERSION := "yolov5-v1.0";
     MAX_RETRIES := 3;
     RETRY_DELAY := 1%Q |}.

Definition M (A : Type) : Type := World -> result A * World.

Definition ret {A} (a : A) : M A := fun w => (Ok a, w).

Definition raise {A} (e : exn) : M A := fun w => (Raise e, w).

Definition bind {A B} (c : M A) (k : A -> M B) : M B :=
  fun w =>
    match c w with
    | (Ok a, w') => k a w'
    | (Raise e, w') => (Raise e, w')
    end.

(** [try: c except Exception as e: h e] *)
Definition try_except {A} (c : M A) (h : exn -> M A) : M A :=
  fun w =>
    match c w with
    | (Ok a, w') => (Ok a, w')
    | (Raise e, w') => h e w'
    end.

Definition lift {A} (r : result A) : M A := fun w => (r, w).

Notation "x <- c ;; k" := (bind c (fun x => k))
  (at level 100, c at next level, right associativity).
Notation "c ;;; k" := (bind c (fun _ => k))
  (at level 100, right associativity).

Section Runtime.
Context (E : Env).

(** [f"{v}"] *)
Definition py_str (v : jvalue) : string :=
  match v with
  | JStr s => s
  | _ => py_repr E v
  end.

(** [datetime.utcnow().isoformat() + 'Z'] *)
Definition utcnow_Z : M string :=
  fun w =>
    (Ok (utcnow_isoformat E (clock w) +:+ "Z"),
     MkWorld (objects w) (put_log w) (endpoint_calls w) (sleep_log w)
             (S (clock w)) (uuids w)).

Definition now : M Q :=
  fun w =>
    (Ok (time_time E (clock w)),
     MkWorld (objects w) (put_log w) (endpoint_calls w) (sleep_log w)
             (S (clock w)) (uuids w)).

Definition uuid4 : M string :=
  fun w =>
    (Ok (uuid4_hex E (uuids w)),
     MkWorld (objects w) (put_log w) (endpoint_calls w) (sleep_log w)
             (clock w) (S (uuids w))).

Definition sleep (delay : Q) : M unit :=
  fun w =>
    (Ok tt,
     MkWorld (objects w) (put_log w) (endpoint_calls w)
             (sleep_log w ++ [delay]) (clock w) (uuids w)).

(** [sagemaker_client.invoke_endpoint(...)] and the parsing of its body *)
Definition sagemaker_invoke (endpoint_name : string) (payload : Payload.t)
  : M InferenceResult.t :=
  fun w =>
    (invoke_endpoint E (endpoint_calls w) endpoint_name payload,
     MkWorld (objects w) (put_log w) (S (endpoint_calls w)) (sleep_log w)
             (clock w) (uuids w)).

End Runtime.

(** *** The bucket *)
Module s3_client.

Definition no_such_key : exn :=
  Exn NoSuchKey
      "An error occurred (NoSuchKey) when calling the GetObject operation: The specified key does not exist.".

Definition put_object (key : string) (doc : Document) : M unit :=
  fun w =>
    (Ok tt,
     MkWorld (<[key := doc]> (objects w)) (put_log w ++ [(key, doc)])
             (endpoint_calls w) (sleep_log w) (clock w) (uuids w)).

Definition get_object (key : string) : M Document :=
  fun w =>
    match objects w !! key with
    | Some doc => (Ok doc, w)
    | None => (Raise no_such_key, w)
    end.

Definition key_le (k1 k2 : string) : Prop := String.leb k1 k2 = true.

#[global] Instance key_le_dec k1 k2 : Decision (key_le k1 k2).
Proof. unfold key_le. apply _. Defined.

(** The keys of the bucket in the order S3 lists them. *)
Definition sorted_keys (m : gmap string Document) : list string :=
  merge_sort key_le (map fst (map_to_list m)).

(** [list_objects_v2(Prefix=prefix, MaxKeys=max_keys)]: the ['Key'] of
    each listed object, at most [max_keys] of them. *)
Definition list_objects_v2 (prefix : string) (max_keys : nat)
  : M (list string) :=
  fun w =>
    (Ok (firstn max_keys
           (List.filter (String.prefix prefix) (sorted_keys (objects w)))),
     w).

End s3_client.

(* ===================================================================== *)
(** ** backend/functions/inference_handler.py *)
(* ===================================================================== *)

Module inference_handler.
Section handler.
Context (E : Env) (C : Config).

(** The test on [str(e)] that decides whether a failure is retried. *)
Definition is_retryable (error_msg : string) : bool :=
  PyStr.contains "ServiceUnavailable" error_msg ||
  PyStr.contains "ThrottlingException" error_msg ||
  PyStr.contains "InternalFailure" error_msg ||
  PyStr.contains "timeout" (PyStr.lower error_msg).

(** [RETRY_DELAY * (2 ** attempt)] *)
Definition backoff_delay (attempt : nat) : Q :=
  (RETRY_DELAY C * inject_Z (2 ^ Z.of_nat attempt))%Q.

(** The body of [for attempt in range(max_retries)], entered at [attempt]
    with [remaining] iterations left.  Leaving the loop without a
    [return] makes the function return [None]. *)
Fixpoint retry_loop (endpoint_name : string) (payload : Payload.t)
    (max_retries : Z) (remaining attempt : nat)
  : M (option InferenceResult.t) :=
  match remaining with
  | O => ret None
  | S remaining' =>
      try_except
        (result <- sagemaker_invoke E endpoint_name payload ;;
         ret (Some result))
        (fun e =>
           if is_ModelError e then raise e
           else if (Z.of_nat attempt <? max_retries - 1)
                   && is_retryable (exn_msg e)
           then sleep (backoff_delay attempt) ;;;
                retry_loop endpoint_name payload max_retries
                           remaining' (S attempt)
           else raise e)
  end.

Definition invoke_sagemaker_with_retry (endpoint_name : string)
    (payload : Payload.t) (max_retries : Z)
  : M (option InferenceResult.t) :=
  retry_loop endpoint_name payload max_retries (Z.to_nat max_retries) O.

Definition metadata_key (session_id blueprint_id : jvalue) : string :=
  "uploads/" +:+ py_str E session_id +:+ "/" +:+ py_str E blueprint_id
    +:+ "/metadata.json".

Definition status_key (session_id blueprint_id : jvalue) : string :=
  "uploads/" +:+ py_str E session_id +:+ "/" +:+ py_str E blueprint_id
    +:+ "/status.json".

Definition results_key (session_id blueprint_id : jvalue) : string :=
  "uploads/" +:+ py_str E session_id +:+ "/" +:+ py_str E blueprint_id
    +:+ "/results.json".

(** The five status documents of the run. *)
Definition status_preprocessing (blueprint_id : jvalue) (now_ : string) :=
  Status.Make blueprint_id "processing" "preprocessing" 25 15
              "Preparing image for inference..." (Some now_).

Definition status_inference (blueprint_id : jvalue) (now_ : string) :=
  Status.Make blueprint_id "processing" "inference" 50 10
              "Running AI model inference..." (Some now_).

Definition status_postprocess (blueprint_id : jvalue) (now_ : string) :=
  Status.Make blueprint_id "processing" "postprocess" 75 5
              "Finalizing detection results..." (Some now_).

Definition status_complete (blueprint_id : jvalue) (now_ : string) :=
  Status.Make blueprint_id "completed" "complete" 100 0
              "Processing completed successfully" (Some now_).

Definition status_failed (blueprint_id : jvalue) (msg now_ : string) :=
  Status.Make blueprint_id "failed" "failed" 0 0 msg (Some now_).

(** [class_counts[k] = class_counts.get(k, 0) + 1] on a dict that keeps
    insertion order *)
Fixpoint count_class (k : string) (class_counts : list (string * Z))
  : list (string * Z) :=
  match class_counts with
  | [] => [(k, 1)]
  | (k', n) :: rest =>
      if String.eqb k k' then (k', n + 1) :: rest
      else (k', n) :: count_class k rest
  end.

Definition element_class (detection : Detection.t) : string :=
  match Detection.class detection with
  | Some c => c
  | None => "unknown"
  end.

Definition class_counts_of (detections : list Detection.t)
  : list (string * Z) :=
  fold_left (fun counts d => count_class (element_class d) counts)
            detections [].

Definition or_default {A} (o : option A) (d : A) : A :=
  match o with Some a => a | None => d end.

Definition format_results (blueprint_id : jvalue) (processing_time : Q)
    (detected_at : string) (result : InferenceResult.t) : Results.t :=
  let detections := or_default (InferenceResult.detections result) [] in
  Results.Make
    blueprint_id
    (MODEL_VERSION C)
    (PyNum.round2 processing_time)
    detected_at
    detections
    (Statistics.Make
       (Z.of_nat (length detections))
       (or_default (InferenceResult.totalRooms result) 0)
       (PyNum.round2 (or_default (InferenceResult.avgConfidence result) 0%Q))
       (class_counts_of detections)
       ["upload"; "inference"; "postprocess"])
    (InferenceResult.dimensions result).

Definition missing_fields : Response.t :=
  respond 400 (ErrorBody "Missing required fields: blueprintId, sessionId" None).

Definition metadata_not_found : Response.t :=
  respond 404 (ErrorBody "Blueprint metadata not found" None).

Definition internal_error (e : exn) : Response.t :=
  respond 500 (ErrorBody "Internal server error" (Some (exn_msg e))).

(** What steps 1-2 hand over to the inference step. *)
Record prepared : Type := Prepared {
  p_blueprint_id : jvalue;
  p_session_id : jvalue;
  p_payload : Payload.t;
  p_start_time : Q
}.

(** Lines 76-153: parse the request, resolve the artifact from the
    metadata, build the payload, write the [preprocessing] status.
    [inl r]: the handler returns [r] here. *)
Definition resolve_and_preprocess (event : Event.t)
  : M (Response.t + prepared) :=
  body <- lift (json_loads_body event) ;;
  blueprint_id <- lift (Py.get body "blueprintId") ;;
  session_id <- lift (Py.get body "sessionId") ;;
  confidence <- lift (Py.get_default body "confidence" (JFloat (1 # 2))) ;;
  if negb (Py.truthy blueprint_id && Py.truthy session_id)
  then ret (inl missing_fields)
  else
    found <- try_except
               (metadata <- s3_client.get_object
                              (metadata_key session_id blueprint_id) ;;
                match doc_s3Key metadata with
                | Some s3_key =>
                    if negb (String.eqb s3_key "") then ret (Some s3_key)
                    else raise (Exn ValueError "S3 key not found in metadata")
                | None =>
                    raise (Exn ValueError "S3 key not found in metadata")
                end)
               (fun e => if is_NoSuchKey e then ret None else raise e) ;;
    match found with
    | None => ret (inl metadata_not_found)
    | Some s3_key =>
        let s3_uri := "s3://" +:+ BUCKET_NAME C +:+ "/" +:+ s3_key in
        let payload := Payload.Make s3_uri confidence in
        start_time <- now E ;;
        updated_at <- utcnow_Z E ;;
        s3_client.put_object (status_key session_id blueprint_id)
          (DocStatus (status_preprocessing blueprint_id updated_at)) ;;;
        ret (inr (Prepared blueprint_id session_id payload start_time))
    end.

Definition none_has_no_get : exn :=
  Exn AttributeError "'NoneType' object has no attribute 'get'".

(** Lines 155-319: the inner [try] and its two handlers. *)
Definition infer_and_persist (p : prepared) : M Response.t :=
  let blueprint_id := p_blueprint_id p in
  let status_key := status_key (p_session_id p) blueprint_id in
  try_except
    (updated_at <- utcnow_Z E ;;
     s3_client.put_object status_key
       (DocStatus (status_inference blueprint_id updated_at)) ;;;
     result <- invoke_sagemaker_with_retry (SAGEMAKER_ENDPOINT C)
                 (p_payload p) (MAX_RETRIES C) ;;
     updated_at <- utcnow_Z E ;;
     s3_client.put_object status_key
       (DocStatus (status_postprocess blueprint_id updated_at)) ;;;
     end_time <- now E ;;
     let processing_time := (end_time - p_start_time p)%Q in
     result <- match result with
               | Some r => ret r
               | None => raise none_has_no_get
               end ;;
     detected_at <- utcnow_Z E ;;
     let formatted_results :=
       format_results blueprint_id processing_time detected_at result in
     s3_client.put_object (results_key (p_session_id p) blueprint_id)
       (DocResults formatted_results) ;;;
     updated_at <- utcnow_Z E ;;
     s3_client.put_object status_key
       (DocStatus (status_complete blueprint_id updated_at)) ;;;
     ret (respond 200 (InferenceBody "Inference completed successfully"
                                     blueprint_id formatted_results)))
    (fun e =>
       if is_ModelError e then
         updated_at <- utcnow_Z E ;;
         s3_client.put_object status_key
           (DocStatus (status_failed blueprint_id
                         ("Model inference failed: " +:+ exn_msg e)
                         updated_at)) ;;;
         ret (respond 500 (ErrorBody "Model inference failed"
                                     (Some (exn_msg e))))
       else
         updated_at <- utcnow_Z E ;;
         s3_client.put_object status_key
           (DocStatus (status_failed blueprint_id
                         ("Failed to invoke SageMaker endpoint: " +:+ exn_msg e)
                         updated_at)) ;;;
         ret (respond 500 (ErrorBody "Failed to invoke SageMaker endpoint"
                                     (Some (exn_msg e))))).

Definition lambda_handler (event : Event.t) : M Response.t :=
  try_except
    (r <- resolve_and_preprocess event ;;
     match r with
     | inl response => ret response
     | inr p => infer_and_persist p
     end)
    (fun e => ret (internal_error e)).

End handler.
End inference_handler.

(* ===================================================================== *)
(** ** backend/functions/upload_handler.py *)
(* ===================================================================== *)

Module upload_handler.
Section handler.
Context (E : Env) (C : Config).

Definition allowed_types : list string :=
  ["image/png"; "image/jpeg"; "image/jpg"; "application/pdf"].

Definition max_size : Z := 10 * 1024 * 1024.

Definition missing_fields : Response.t :=
  respond 400
    (ErrorBody "Missing required fields: fileName, fileType, fileSize, sessionId"
               None).

Definition invalid_file_type : Response.t :=
  respond 400
    (ErrorBody "Invalid file type. Only PNG, JPG, and PDF are allowed." None).

Definition file_too_large : Response.t :=
  respond 400 (ErrorBody "File size exceeds 10MB limit." None).

Definition status_upload (blueprint_id : string) (now_ : string) : Status.t :=
  Status.Make (JStr blueprint_id) "processing" "upload" 10 20
              "Blueprint uploaded, preparing for processing..." (Some now_).

Definition lambda_handler (event : Event.t) : M Response.t :=
  try_except
    (body <- lift (json_loads_body event) ;;
     file_name <- lift (Py.get body "fileName") ;;
     file_type <- lift (Py.get body "fileType") ;;
     file_size <- lift (Py.get body "fileSize") ;;
     session_id <- lift (Py.get body "sessionId") ;;
     if negb (Py.truthy file_name && Py.truthy file_type
              && Py.truthy file_size && Py.truthy session_id)
     then ret missing_fields
     else if Py.not_in file_type allowed_types
     then ret invalid_file_type
     else
       too_large <- lift (Py.gt_int file_size max_size) ;;
       if (too_large : bool) then ret file_too_large
       else
         hex <- uuid4 E ;;
         let blueprint_id := "blueprint-" +:+ PyStr.take 12 hex in
         file_extension <- lift (Py.split_dot_last file_name) ;;
         let s3_key := "uploads/" +:+ py_str E session_id +:+ "/"
                         +:+ blueprint_id +:+ "/original." +:+ file_extension in
         let presigned_url :=
           generate_presigned_url E (BUCKET_NAME C) s3_key file_type 300 in
         uploaded_at <- utcnow_Z E ;;
         let metadata :=
           Metadata.Make blueprint_id session_id file_name
                         uploaded_at file_size file_extension (Some s3_key) in
         let metadata_key := "uploads/" +:+ py_str E session_id +:+ "/"
                               +:+ blueprint_id +:+ "/metadata.json" in
         s3_client.put_object metadata_key (DocMetadata metadata) ;;;
         let status_key := "uploads/" +:+ py_str E session_id +:+ "/"
                             +:+ blueprint_id +:+ "/status.json" in
         updated_at <- utcnow_Z E ;;
         s3_client.put_object status_key
           (DocStatus (status_upload blueprint_id updated_at)) ;;;
         ret (respond 200
                (UploadBody blueprint_id presigned_url s3_key
                            "Presigned URL generated successfully")))
    (fun e =>
       if is_ClientError e
       then ret (respond 500 (ErrorBody "Failed to generate upload URL"
                                        (Some (exn_msg e))))
       else ret (respond 500 (ErrorBody "Internal server error"
                                        (Some (exn_msg e))))).

End handler.
End upload_handler.

(* ===================================================================== *)
(** ** backend/functions/status_handler.py, results_handler.py *)
(* ===================================================================== *)

(** [event.get('pathParameters', {}).get('blueprintId')] *)
Definition path_blueprint_id (event : Event.t) : result (option string) :=
  match Event.pathParameters event with
  | PathAbsent => Ok None
  | PathNull => Raise (Py.no_attribute JNull "get")
  | PathDict fields =>
      Ok (snd <$> List.find (fun kv => String.eqb "blueprintId" (fst kv)) fields)
  end.

(** The first listed key that contains the id and ends with the suffix:
    the [for obj in response.get('Contents', [])] loop with its [break]. *)
Definition find_key (blueprint_id suffix : string) (contents : list string)
  : option string :=
  List.find (fun key => PyStr.contains blueprint_id key
                        && PyStr.endswith key suffix) contents.

Definition missing_blueprint_id : Response.t :=
  respond 400 (ErrorBody "Missing blueprintId parameter" None).

Module status_handler.

Definition synthesized_complete (blueprint_id : string) : Status.t :=
  Status.Make (JStr blueprint_id) "completed" "complete" 100 0
              "Processing completed successfully" None.

Definition not_found : Response.t :=
  respond 404 (ErrorBody "Blueprint not found or processing not started" None).

Definition status_not_found : Response.t :=
  respond 404 (ErrorBody "Status not found for this blueprint ID" None).

Definition lookup (blueprint_id : string) : M Response.t :=
  try_except
    (contents <- s3_client.list_objects_v2 "uploads/" 100 ;;
     match find_key blueprint_id "status.json" contents with
     | None =>
         match find_key blueprint_id "results.json" contents with
         | Some _ =>
             ret (respond 200
                    (DocumentBody (DocStatus (synthesized_complete blueprint_id))))
         | None => ret not_found
         end
     | Some status_key =>
         status <- s3_client.get_object status_key ;;
         ret (respond 200 (DocumentBody status))
     end)
    (fun e => if is_NoSuchKey e then ret status_not_found else raise e).

Definition lambda_handler (event : Event.t) : M Response.t :=
  try_except
    (blueprint_id <- lift (path_blueprint_id event) ;;
     match blueprint_id with
     | None => ret missing_blueprint_id
     | Some blueprint_id =>
         if String.eqb blueprint_id "" then ret missing_blueprint_id
         else lookup blueprint_id
     end)
    (fun e => ret (respond 500 (ErrorBody "Internal server error"
                                          (Some (exn_msg e))))).

End status_handler.

Module results_handler.

Definition not_found : Response.t :=
  respond 404 (ErrorBody "Results not found for this blueprint ID" None).

Definition lookup (blueprint_id : string) : M Response.t :=
  try_except
    (contents <- s3_client.list_objects_v2 "uploads/" 100 ;;
     match find_key blueprint_id "results.json" contents with
     | None => ret not_found
     | Some results_key =>
         results <- s3_client.get_object results_key ;;
         ret (respond 200 (DocumentBody results))
     end)
    (fun e => if is_NoSuchKey e then ret not_found else raise e).

Definition lambda_handler (event : Event.t) : M Response.t :=
  try_except
    (blueprint_id <- lift (path_blueprint_id event) ;;
     match blueprint_id with
     | None => ret missing_blueprint_id
     | Some blueprint_id =>
         if String.eqb blueprint_id "" then ret missing_blueprint_id
         else lookup blueprint_id
     end)
    (fun e => ret (respond 500 (ErrorBody "Internal server error"
                                          (Some (exn_msg e))))).

End results_handler.

(* ===================================================================== *)
(** ** ml-model/deployment/inference.py *)
(* ===================================================================== *)

Module inference.

(** One row of [results.pandas().xyxy[0]]. *)
Record Row : Type := MkRow {
  xmin : Q; ymin : Q; xmax : Q; ymax : Q;
  confidence : Q;
  name : string
}.

Record Image : Type := MkImage { size : Z * Z; pixels : string }.

(** The loaded YOLOv5 model: its mutable threshold and its forward pass. *)
Record Model : Type := MkModel {
  conf : jvalue;
  forward : jvalue -> Image -> list Row
}.

(** What [input_fn] hands to [predict_fn]: a dict in which each of the
    three keys may be present. *)
Record InputData : Type := MkInput {
  i_confidence : option jvalue;
  i_s3_uri : option string;
  i_image_bytes : option string
}.

(** The request the coordinator sends, after [input_fn]. *)
Definition input_of_payload (p : Payload.t) : InputData :=
  MkInput (Some (Payload.confidence p)) (Some (Payload.s3_uri p)) None.

(** Downloading and decoding the image (boto3 and PIL). *)
Record Loader : Type := MkLoader {
  image_from_s3 : string -> result Image;
  image_from_bytes : string -> result Image
}.

Definition detection_of_row (already : nat) (row : Row) : Detection.t :=
  Detection.Make
    (Z.of_nat already + 1)
    (BoundingBox.Make
       (PyNum.int (xmin row))
       (PyNum.int (ymin row))
       (PyNum.int (xmax row - xmin row))
       (PyNum.int (ymax row - ymin row)))
    (confidence row)
    (Some (name row))
    (PyNum.int ((xmax row - xmin row) * (ymax row - ymin row))).

(** The loop over [predictions.iterrows()] *)
Definition detections_of (rows : list Row) : list Detection.t :=
  fold_left
    (fun detections row =>
       (detections ++ [detection_of_row (length detections) row])%list)
    rows [].

(** [sum(d['confidence'] for d in detections) / len(detections)
     if detections else 0] *)
Definition avg_confidence (detections : list Detection.t) : Q :=
  match detections with
  | [] => 0%Q
  | _ => (PyNum.sum (map Detection.confidence detections)
          / inject_Z (Z.of_nat (length detections)))%Q
  end.

Definition format_output (detections : list Detection.t) (image : Image)
  : InferenceResult.t :=
  InferenceResult.Make
    (Some detections)
    (Some (Dimensions.Make (fst (size image)) (snd (size image))))
    (Some (Z.of_nat (length detections)))
    (Some (avg_confidence detections)).

(** [predict_fn]: the prediction, and the model with the threshold the
    call left in it. *)
Definition predict_fn (L : Loader) (input_data : InputData) (model : Model)
  : result InferenceResult.t * Model :=
  let model :=
    match i_confidence input_data with
    | Some c => MkModel c (forward model)
    | None => model
    end in
  let image :=
    match i_s3_uri input_data, i_image_bytes input_data with
    | Some uri, _ => image_from_s3 L uri
    | None, Some bytes => image_from_bytes L bytes
    | None, None =>
        Raise (Exn ValueError
                   "Input must contain either 's3_uri' or 'image_bytes'")
    end in
  match image with
  | Raise e => (Raise e, model)
  | Ok image =>
      let predictions := forward model (conf model) image in
      (Ok (format_output (detections_of predictions) image), model)
  end.

(** The endpoint of the environment is this script: each response it
    returns is what [predict_fn] computes for the request on the model as
    some earlier request left it. *)
Definition serves (E : Env) (L : Loader) : Prop :=
  forall n endpoint_name payload r,
    invoke_endpoint E n endpoint_name payload = Ok r ->
    exists model,
      fst (predict_fn L (input_of_payload payload) model) = Ok r.

End inference.

(* ===================================================================== *)
(** ** Concrete environments, used to run the handlers *)
(* ===================================================================== *)

Module Demo.

Definition repr (v : jvalue) : string :=
  match v with
  | JNull => "None"
  | JBool true => "True"
  | JBool false => "False"
  | JInt z => pretty z
  | _ => "<object>"
  end.

Definition env (endpoint : nat -> result InferenceResult.t) : Env :=
  {| invoke_endpoint := fun n _ _ => endpoint n;
     utcnow_isoformat := fun n => "2024-01-01T00:00:0" +:+ pretty n;
     time_time := fun n => inject_Z (Z.of_nat n);
     uuid4_hex := fun _ => "0123456789abcdef0123456789abcdef";
     generate_presigned_url :=
       fun bucket key _ _ => "https://" +:+ bucket +:+ "/" +:+ key;
     py_repr := repr |}.

Definition empty_world : World := MkWorld ∅ [] 0 [] 0 0.

Definition model_error : exn :=
  Exn ModelError "An error occurred (ModelError) when calling the InvokeEndpoint operation".

Definition throttled : exn :=
  Exn ClientError "An error occurred (ThrottlingException) when calling the InvokeEndpoint operation".

Definition rows : list inference.Row :=
  [ inference.MkRow 10 10 110 60 (9 # 10) "wall";
    inference.MkRow 0 0 50 20 (8 # 10) "wall";
    inference.MkRow 5 5 25 45 (6 # 10) "door" ].

Definition image : inference.Image := inference.MkImage (640, 480) "".

Definition model : inference.Model :=
  inference.MkModel (JFloat (1 # 2)) (fun _ _ => rows).

Definition loader : inference.Loader :=
  inference.MkLoader (fun _ => Ok image) (fun _ => Ok image).

(** An endpoint that runs [predict_fn] on the three-row model. *)
Definition serving_env : Env :=
  {| invoke_endpoint :=
       fun _ _ payload =>
         fst (inference.predict_fn loader (inference.input_of_payload payload) model);
     utcnow_isoformat := fun n => "2024-01-01T00:00:0" +:+ pretty n;
     time_time := fun n => inject_Z (Z.of_nat n);
     uuid4_hex := fun _ => "0123456789abcdef0123456789abcdef";
     generate_presigned_url :=
       fun bucket key _ _ => "https://" +:+ bucket +:+ "/" +:+ key;
     py_repr := repr |}.

Definition failing_env : Env := env (fun _ => Raise model_error).

(** Throttled once, then rejected by the model. *)
Definition throttled_then_rejected_env : Env :=
  env (fun n => match n with O => Raise throttled | _ => Raise model_error end).

Definition access_denied : exn :=
  Exn ClientError "An error occurred (AccessDeniedException) when calling the InvokeEndpoint operation".

(** What the endpoint answers for the three-row picture. *)
Definition answer : InferenceResult.t :=
  inference.format_output (inference.detections_of rows) image.

(** Throttled twice, then an answer. *)
Definition flaky_env : Env :=
  env (fun n => match n with
                | O | S O => Raise throttled
                | _ => Ok answer
                end).

(** Throttled once, then refused. *)
Definition denied_env : Env :=
  env (fun n => match n with O => Raise throttled | _ => Raise access_denied end).

(** A configuration that allows no attempt. *)
Definition no_attempt_config : Config :=
  {| BUCKET_NAME := "innergy-blueprints-dev";
     SAGEMAKER_ENDPOINT := "yolov5-blueprint-detector";
     MODEL_VERSION := "yolov5-v1.0";
     MAX_RETRIES := 0;
     RETRY_DELAY := 1%Q |}.

Definition payload : Payload.t :=
  Payload.Make "s3://innergy-blueprints-dev/uploads/s1/blueprint-0123456789ab/original.png"
               (JFloat (1 # 2)).

Definition throttling_env : Env := env (fun _ => Raise throttled).

Definition upload_request (file_size : jvalue) : Event.t :=
  Event.Make
    (BodyJson (JObj [ ("fileName", JStr "plan.png");
                      ("fileType", JStr "image/png");
                      ("fileSize", file_size);
                      ("sessionId", JStr "s1") ]))
    PathAbsent.

Definition blueprint_id : string := "blueprint-0123456789ab".

Definition run_request : Event.t :=
  Event.Make
    (BodyJson (JObj [ ("blueprintId", JStr blueprint_id);
                      ("sessionId", JStr "s1") ]))
    PathAbsent.

Definition query (id : string) : Event.t :=
  Event.Make BodyAbsent (PathDict [("blueprintId", id)]).

(** The world after the intake of [plan.png]. *)
Definition uploaded (E : Env) : World :=
  snd (upload_handler.lambda_handler E default_config
         (upload_request (JInt 1024)) empty_world).

(** The response of a handler run. *)
Definition response_of (run : result Response.t * World) : Response.t :=
  match fst run with
  | Ok r => r
  | Raise e => respond 500 (ErrorBody (exn_msg e) None)
  end.

(** The world after the intake and a successful run. *)
Definition completed : World :=
  snd (inference_handler.lambda_handler serving_env default_config
         run_request (uploaded serving_env)).


(** The same job, with a metadata document that names no artifact. *)
Definition uploaded_without_s3Key : World :=
  snd (s3_client.put_object
         "uploads/s1/blueprint-0123456789ab/metadata.json"
         (DocMetadata
            (Metadata.Make blueprint_id (JStr "s1") (JStr "plan.png")
                           "2024-01-01T00:00:00Z" (JInt 1024) "png" None))
         (uploaded serving_env)).

End Demo.

(* ===================================================================== *)
(** ** Vocabulary of the statements *)
(* ===================================================================== *)

Section Vocabulary.
Context (E : Env) (C : Config).

(** The outcome of the [i]-th attempt of an invocation that starts in
    world [w]. *)
Definition attempt_outcome (w : World) (endpoint_name : string)
    (payload : Payload.t) (i : nat) : result InferenceResult.t :=
  invoke_endpoint E (endpoint_calls w + i) endpoint_name payload.

(** A transient failure: not a [ModelError], and a message the invoker
    recognises as retryable. *)
Definition transient (o : result InferenceResult.t) : bool :=
  match o with
  | Raise e => negb (is_ModelError e)
               && inference_handler.is_retryable (exn_msg e)
  | Ok _ => false
  end.

Definition after_attempts (w : World) (calls : nat) (delays : list Q)
  : World :=
  MkWorld (objects w) (put_log w) (endpoint_calls w + calls)
          (sleep_log w ++ delays) (clock w) (uuids w).

(** The world after one reading of the clock, and what
    [datetime.utcnow().isoformat() + 'Z'] reads in a world. *)
Definition tick (w : World) : World :=
  MkWorld (objects w) (put_log w) (endpoint_calls w) (sleep_log w)
          (S (clock w)) (uuids w).

Definition stamp (w : World) : string := utcnow_isoformat E (clock w) +:+ "Z".

(** The world after a [put_object]. *)
Definition put (key : string) (doc : Document) (w : World) : World :=
  MkWorld (<[key := doc]> (objects w)) (put_log w ++ [(key, doc)])
          (endpoint_calls w) (sleep_log w) (clock w) (uuids w).

(** The world after steps 1-2 have succeeded with [p]. *)
Definition preprocessed (p : inference_handler.prepared) (w : World) : World :=
  put (inference_handler.status_key E (inference_handler.p_session_id p)
                                    (inference_handler.p_blueprint_id p))
      (DocStatus (inference_handler.status_preprocessing
                    (inference_handler.p_blueprint_id p) (stamp (tick w))))
      (tick (tick w)).

End Vocabulary.

(** The keys a status or results query gets to see: the first page, of at
    most 100 keys, of the listing under [uploads/]. *)
Definition listed (w : World) : list string :=
  firstn 100 (List.filter (String.prefix "uploads/")
                          (s3_client.sorted_keys (objects w))).

(** The scan of a query finds a document of job [blueprint_id]: a listed
    key contains the identifier and ends with the suffix of the document. *)
Definition found (w : World) (blueprint_id suffix : string) : Prop :=
  exists key, In key (listed w)
              /\ PyStr.contains blueprint_id key = true
              /\ PyStr.endswith key suffix = true.

(** [body.get(k)] on the parsed body of a request. *)
Definition request_field (event : Event.t) (k : string) : result jvalue :=
  match json_loads_body event with
  | Ok body => Py.get body k
  | Raise e => Raise e
  end.

(** A Status document in a terminal state. *)
Definition terminal_status (st : Status.t) : Prop :=
  (Status.status st = "completed" /\ Status.stage st = "complete"
   /\ Status.progress st = 100)
  \/ (Status.status st = "failed" /\ Status.stage st = "failed"
      /\ Status.progress st = 0).

(** What was put since the log was [before]. *)
Definition written_since (before : World) (after : World)
  : list (string * Document) :=
  skipn (length (put_log before)) (put_log after).

(** The Status documents among some writes, each as the key it was put
    under and its [progress]. *)
Definition status_writes (log : list (string * Document))
  : list (string * Z) :=
  flat_map (fun kd => match snd kd with
                      | DocStatus st => [(fst kd, Status.progress st)]
                      | _ => []
                      end) log.

Definition is_results (d : Document) : bool :=
  match d with DocResults _ => true | _ => false end.

Definition is_metadata (d : Document) : bool :=
  match d with DocMetadata _ => true | _ => false end.

(** The bucket holds a document of job [blueprint_id] under a key with
    the given suffix. *)
Definition has_document (w : World) (blueprint_id suffix : string) : Prop :=
  exists key, is_Some (objects w !! key)
              /\ PyStr.contains blueprint_id key = true
              /\ PyStr.endswith key suffix = true.


(** The first page of the listing is the whole listing. *)
Definition listed_whole (w : World) : Prop :=
  (length (List.filter (String.prefix "uploads/")
                       (s3_client.sorted_keys (objects w))) <= 100)%nat.

(** The bucket holds, under [uploads/], a document of job [blueprint_id]
    with the given suffix. *)
Definition stored (w : World) (blueprint_id suffix : string) : Prop :=
  exists key, is_Some (objects w !! key)
              /\ String.prefix "uploads/" key = true
              /\ PyStr.contains blueprint_id key = true
              /\ PyStr.endswith key suffix = true.

(** The world after one draw of [uuid4]. *)
Definition drawn (w : World) : World :=
  MkWorld (objects w) (put_log w) (endpoint_calls w) (sleep_log w)
          (clock w) (S (uuids w)).

(** [class_counts.get(c, 0)] *)
Definition counted (class_counts : list (string * Z)) (c : string) : Z :=
  match List.find (fun kn => String.eqb c (fst kn)) class_counts with
  | Some kn => snd kn
  | None => 0
  end.

(** The sum of the values of a dict of counts. *)
Definition total_counted (class_counts : list (string * Z)) : Z :=
  fold_right Z.add 0 (map snd class_counts).

(** A query by job identifier alone. *)
Definition query_by_id (event : Event.t) (blueprint_id : string) : Prop :=
  path_blueprint_id event = Ok (Some blueprint_id) /\ blueprint_id <> "".

(* ===================================================================== *)
(** ** The retrying invoker *)
(* ===================================================================== *)

Section RetryingInvoker.
Context (E : Env) (C : Config).
Context (endpoint_name : string) (payload : Payload.t) (max_retries : Z).

Let loop := inference_handler.retry_loop E C endpoint_name payload max_retries.
Let delay := inference_handler.backoff_delay C.

Lemma retry_loop_S remaining attempt w :
  loop (S remaining) attempt w =
  match invoke_endpoint E (endpoint_calls w) endpoint_name payload with
  | Ok r => (Ok (Some r), after_attempts w 1 [])
  | Raise e =>
      if is_ModelError e then (Raise e, after_attempts w 1 [])
      else if (Z.of_nat attempt <? max_retries - 1)
              && inference_handler.is_retryable (exn_msg e)
      then loop remaining (S attempt) (after_attempts w 1 [delay attempt])
      else (Raise e, after_attempts w 1 [])
  end.
Proof.
  unfold loop, after_attempts. cbn [inference_handler.retry_loop].
  unfold try_except, bind, sagemaker_invoke, ret, raise, sleep. cbn.
  rewrite app_nil_r, Nat.add_1_r.
  destruct (invoke_endpoint E (endpoint_calls w) endpoint_name payload) as [r|e];
    [reflexivity|].
  destruct (is_ModelError e); [reflexivity|].
  destruct (_ && _); reflexivity.
Qed.

(** [k] transient failures in a row, each with attempts to spare, are
    each followed by its delay and by the next iteration. *)
Lemma retry_loop_transient k : forall remaining attempt w,
  (forall i, (i < k)%nat ->
     transient (attempt_outcome E w endpoint_name payload i) = true) ->
  Z.of_nat (attempt + k) < max_retries ->
  (k <= remaining)%nat ->
  loop remaining attempt w =
  loop (remaining - k) (attempt + k)
       (after_attempts w k (map delay (seq attempt k))).
Proof.
  induction k as [|k IH]; intros remaining attempt w Hfail Hmax Hrem.
  - rewrite Nat.sub_0_r, Nat.add_0_r. unfold after_attempts. cbn.
    rewrite Nat.add_0_r, app_nil_r. by destruct w.
  - destruct remaining as [|remaining]; [lia|].
    rewrite retry_loop_S.
    pose proof (Hfail O ltac:(lia)) as H0.
    unfold attempt_outcome, transient in H0. rewrite Nat.add_0_r in H0.
    destruct (invoke_endpoint E (endpoint_calls w) endpoint_name payload)
      as [r|e]; [discriminate|].
    apply andb_true_iff in H0 as [Hnm Hretry].
    apply negb_true_iff in Hnm. rewrite Hnm, Hretry.
    replace (Z.of_nat attempt <? max_retries - 1) with true
      by (symmetry; apply Z.ltb_lt; lia).
    cbn [andb]. rewrite IH.
    + replace (S remaining - S k)%nat with (remaining - k)%nat by lia.
      replace (attempt + S k)%nat with (S attempt + k)%nat by lia.
      f_equal. unfold after_attempts. cbn.
      f_equal; [lia|]. by rewrite <- app_assoc.
    + intros i Hi. specialize (Hfail (S i) ltac:(lia)).
      unfold attempt_outcome in *. cbn.
      by replace (endpoint_calls w + 1 + i)%nat
        with (endpoint_calls w + S i)%nat by lia.
    + lia.
    + lia.
Qed.

(** The loop makes at most [remaining] calls and touches nothing but the
    call counter and the sleep log. *)
Lemma retry_loop_frame remaining : forall attempt w,
  exists calls delays,
    (calls <= remaining)%nat /\
    snd (loop remaining attempt w) = after_attempts w calls delays.
Proof.
  induction remaining as [|remaining IH]; intros attempt w.
  - exists O, []. split; [lia|]. unfold after_attempts. cbn.
    rewrite Nat.add_0_r, app_nil_r. by destruct w.
  - rewrite retry_loop_S.
    destruct (invoke_endpoint E (endpoint_calls w) endpoint_name payload)
      as [r|e].
    { exists 1%nat, []. split; [lia|done]. }
    destruct (is_ModelError e).
    { exists 1%nat, []. split; [lia|done]. }
    destruct (_ && _).
    2:{ exists 1%nat, []. split; [lia|done]. }
    destruct (IH (S attempt) (after_attempts w 1 [delay attempt]))
      as (calls & delays & Hle & Heq).
    exists (S calls), (delay attempt :: delays). split; [lia|].
    rewrite Heq. unfold after_attempts. cbn.
    f_equal; [lia|]. by rewrite <- app_assoc.
Qed.

End RetryingInvoker.

(** C1. A terminal failure ([ModelError]) is propagated at once: when the
    attempt numbered [k] (0-indexed; the earlier ones were transient
    failures) is rejected by the model, the invoker raises that very
    error, having made [k + 1] attempts and slept only the [k] delays that
    preceded it.  No attempt and no delay follows the rejection, whatever
    [max_retries] still allows; for [k = 0] the invoker makes exactly one
    attempt and does not sleep. *)
Theorem terminal_failure_not_retried
    (E : Env) (C : Config) (endpoint_name : string) (payload : Payload.t)
    (max_retries : Z) (w : World) (k : nat) (e : exn) :
  Z.of_nat k < max_retries ->
  (forall i, (i < k)%nat ->
     transient (attempt_outcome E w endpoint_name payload i) = true) ->
  attempt_outcome E w endpoint_name payload k = Raise e ->
  is_ModelError e = true ->
  inference_handler.invoke_sagemaker_with_retry E C endpoint_name payload
    max_retries w
  = (Raise e,
     after_attempts w (k + 1)
       (map (fun i => (RETRY_DELAY C * inject_Z (2 ^ Z.of_nat i))%Q) (seq 0 k))).
Proof.
  intros Hk Hfail Hout Hmodel.
  unfold inference_handler.invoke_sagemaker_with_retry.
  rewrite (retry_loop_transient E C endpoint_name payload max_retries k);
    [|assumption|lia|lia].
  destruct (Z.to_nat max_retries - k)%nat as [|remaining] eqn:Hrem; [lia|].
  rewrite retry_loop_S.
  unfold attempt_outcome in Hout. cbn [after_attempts endpoint_calls].
  rewrite Hout, Hmodel.
  unfold after_attempts. cbn.
  rewrite app_nil_r, Nat.add_assoc. reflexivity.
Qed.

Lemma terminal_failure_not_retried_witness :
  inference_handler.invoke_sagemaker_with_retry
    Demo.throttled_then_rejected_env default_config
    "yolov5-blueprint-detector" Demo.payload 3 Demo.empty_world
  = (Raise Demo.model_error, MkWorld ∅ [] 2 [1%Q] 0 0).
Proof.
  rewrite (terminal_failure_not_retried Demo.throttled_then_rejected_env
             default_config "yolov5-blueprint-detector" Demo.payload 3
             Demo.empty_world 1 Demo.model_error).
  - reflexivity.
  - lia.
  - intros i Hi. assert (i = O) as -> by lia. reflexivity.
  - reflexivity.
  - reflexivity.
Defined.

(** C2. Transient failures are retried with exponential backoff.  The
    invoker never makes more than [max_retries] attempts.  If the first
    [k] attempts fail transiently and attempts remain ([k < max_retries]),
    then the invoker sleeps exactly [RETRY_DELAY * 2^i] after the failure
    of attempt [i], for each [i < k], and makes attempt [k]; and when
    attempt [k] is the last one allowed ([k = max_retries - 1]) and fails
    too, that failure is raised to the caller after [max_retries] attempts
    and those [k] delays. *)
Theorem transient_failures_backoff
    (E : Env) (C : Config) (endpoint_name : string) (payload : Payload.t)
    (max_retries : Z) (w : World) :
  let run := inference_handler.invoke_sagemaker_with_retry E C endpoint_name
               payload max_retries w in
  (endpoint_calls (snd run) <= endpoint_calls w + Z.to_nat max_retries)%nat
  /\ forall k : nat,
       Z.of_nat k < max_retries ->
       (forall i, (i < k)%nat ->
          transient (attempt_outcome E w endpoint_name payload i) = true) ->
       let delays :=
         map (fun i => (RETRY_DELAY C * inject_Z (2 ^ Z.of_nat i))%Q) (seq 0 k) in
       (exists later, sleep_log (snd run) = (sleep_log w ++ delays ++ later)%list)
       /\ (endpoint_calls w + k < endpoint_calls (snd run))%nat
       /\ (forall e,
             Z.of_nat k = max_retries - 1 ->
             attempt_outcome E w endpoint_name payload k = Raise e ->
             run = (Raise e, after_attempts w (Z.to_nat max_retries) delays)).
Proof.
  intros run. subst run.
  unfold inference_handler.invoke_sagemaker_with_retry.
  split.
  { destruct (retry_loop_frame E C endpoint_name payload max_retries
                (Z.to_nat max_retries) O w) as (calls & later & Hcalls & Hw).
    rewrite Hw. unfold after_attempts. cbn. lia. }
  intros k Hk Hfail. cbv zeta.
  set (delays := map (fun i => (RETRY_DELAY C * inject_Z (2 ^ Z.of_nat i))%Q)
                     (seq 0 k)).
  rewrite (retry_loop_transient E C endpoint_name payload max_retries k);
    [|assumption|lia|lia].
  destruct (Z.to_nat max_retries - k)%nat as [|remaining] eqn:Hrem; [lia|].
  change (map (inference_handler.backoff_delay C) (seq 0 k)) with delays.
  set (w' := after_attempts w k delays).
  destruct (retry_loop_frame E C endpoint_name payload max_retries
              (S remaining) (0 + k) w') as (calls & later & Hcalls & Hw).
  assert (Hone : (1 <= calls)%nat).
  { revert Hw. rewrite retry_loop_S.
    destruct (invoke_endpoint E (endpoint_calls w') endpoint_name payload)
      as [r|e].
    - unfold after_attempts. cbn. intros [= Hc _]. lia.
    - destruct (is_ModelError e).
      { unfold after_attempts. cbn. intros [= Hc _]. lia. }
      destruct (_ && _).
      + destruct (retry_loop_frame E C endpoint_name payload max_retries
                    remaining (S (0 + k))
                    (after_attempts w' 1 [inference_handler.backoff_delay C (0 + k)]))
          as (c2 & l2 & _ & Hw2).
        rewrite Hw2. unfold after_attempts. cbn. intros [= Hc _]. lia.
      + unfold after_attempts. cbn. intros [= Hc _]. lia. }
  repeat split.
  - rewrite Hw. exists later. unfold w', after_attempts. cbn.
    by rewrite <- app_assoc.
  - rewrite Hw. unfold w', after_attempts. cbn. lia.
  - intros e Hlast Hout.
    rewrite retry_loop_S. unfold attempt_outcome in Hout.
    replace (endpoint_calls w') with (endpoint_calls w + k)%nat by reflexivity.
    rewrite Hout.
    replace (Z.of_nat (0 + k) <? max_retries - 1) with false
      by (symmetry; apply Z.ltb_ge; lia).
    cbn [andb].
    assert (after_attempts w' 1 [] =
            after_attempts w (Z.to_nat max_retries) delays) as ->.
    { unfold w', after_attempts. cbn. rewrite app_nil_r. f_equal. lia. }
    by destruct (is_ModelError e).
Qed.

Lemma transient_failures_backoff_witness :
  inference_handler.invoke_sagemaker_with_retry Demo.throttling_env
    default_config "yolov5-blueprint-detector" Demo.payload 3 Demo.empty_world
  = (Raise Demo.throttled, MkWorld ∅ [] 3 [1%Q; 2%Q] 0 0).
Proof.
  pose proof (transient_failures_backoff Demo.throttling_env default_config
                "yolov5-blueprint-detector" Demo.payload 3 Demo.empty_world)
    as [_ H].
  destruct (H 2%nat) as (_ & _ & Hlast).
  - lia.
  - intros i Hi. reflexivity.
  - rewrite (Hlast Demo.throttled); reflexivity.
Defined.

(* ===================================================================== *)
(** ** Intake validation *)
(* ===================================================================== *)

Section Intake.
Context (E : Env) (C : Config).

(** The handler up to the end of its three checks, as a function of the
    four fields read from the request. *)
Lemma upload_checks event fields w :
  Event.body event = BodyJson (JObj fields) ->
  let field k := match Py.assoc k fields with Some v => v | None => JNull end in
  (Py.truthy (field "fileName") && Py.truthy (field "fileType")
   && Py.truthy (field "fileSize") && Py.truthy (field "sessionId") = false ->
   upload_handler.lambda_handler E C event w
   = (Ok upload_handler.missing_fields, w))
  /\ (Py.truthy (field "fileName") && Py.truthy (field "fileType")
      && Py.truthy (field "fileSize") && Py.truthy (field "sessionId") = true ->
      Py.not_in (field "fileType") upload_handler.allowed_types = true ->
      upload_handler.lambda_handler E C event w
      = (Ok upload_handler.invalid_file_type, w))
  /\ (Py.truthy (field "fileName") && Py.truthy (field "fileType")
      && Py.truthy (field "fileSize") && Py.truthy (field "sessionId") = true ->
      Py.not_in (field "fileType") upload_handler.allowed_types = false ->
      Py.gt_int (field "fileSize") upload_handler.max_size = Ok true ->
      upload_handler.lambda_handler E C event w
      = (Ok upload_handler.file_too_large, w)).
Proof.
  intros Hbody field. subst field. cbn beta.
  unfold upload_handler.lambda_handler, try_except, bind, lift, Py.get,
    Py.get_default, json_loads_body.
  rewrite Hbody.
  repeat split.
  - intros ->. reflexivity.
  - intros -> ->. reflexivity.
  - intros -> -> ->. reflexivity.
Qed.

End Intake.

(** C8. An intake request whose MIME type is outside the allow-list, or
    whose declared size is a number strictly above 10 * 1024 * 1024, is
    answered with status 400 and one of the three validation errors, and
    the world is left exactly as it was: nothing is written to the bucket
    (no Metadata, no Status) and no other effect takes place. *)
Theorem disallowed_type_or_oversize_rejected
    (E : Env) (C : Config) (event : Event.t)
    (fields : list (string * jvalue)) (file_type file_size : jvalue)
    (w : World) :
  Event.body event = BodyJson (JObj fields) ->
  Py.get (JObj fields) "fileType" = Ok file_type ->
  Py.get (JObj fields) "fileSize" = Ok file_size ->
  Py.not_in file_type upload_handler.allowed_types = true
  \/ Py.gt_int file_size (10 * 1024 * 1024) = Ok true ->
  exists response,
    upload_handler.lambda_handler E C event w = (Ok response, w)
    /\ Response.statusCode response = 400
    /\ (response = upload_handler.missing_fields
        \/ response = upload_handler.invalid_file_type
        \/ response = upload_handler.file_too_large)
    /\ objects (snd (upload_handler.lambda_handler E C event w)) = objects w
    /\ put_log (snd (upload_handler.lambda_handler E C event w)) = put_log w.
Proof.
  intros Hbody Htype Hsize Hbad.
  destruct (upload_checks E C event fields w Hbody) as (Hmiss & Htyp & Hbig).
  cbv zeta in Hmiss, Htyp, Hbig.
  unfold Py.get, Py.get_default in Htype, Hsize.
  injection Htype as Htype. injection Hsize as Hsize.
  rewrite Htype, Hsize in *.
  match type of Hmiss with ?c = false -> _ => destruct c eqn:Hall end.
  - destruct (Py.not_in file_type upload_handler.allowed_types) eqn:Hin.
    + exists upload_handler.invalid_file_type.
      rewrite (Htyp eq_refl eq_refl). cbn. auto 10.
    + destruct Hbad as [Hbad|Hbad]; [discriminate|].
      exists upload_handler.file_too_large.
      rewrite (Hbig eq_refl eq_refl Hbad). cbn. auto 10.
  - exists upload_handler.missing_fields.
    rewrite (Hmiss eq_refl). cbn. auto 10.
Qed.

Lemma disallowed_type_or_oversize_rejected_witness :
  exists response,
    upload_handler.lambda_handler Demo.serving_env default_config
      (Demo.upload_request (JInt 11000000)) Demo.empty_world
    = (Ok response, Demo.empty_world)
    /\ Response.statusCode response = 400
    /\ (response = upload_handler.missing_fields
        \/ response = upload_handler.invalid_file_type
        \/ response = upload_handler.file_too_large)
    /\ objects (snd (upload_handler.lambda_handler Demo.serving_env
                       default_config (Demo.upload_request (JInt 11000000))
                       Demo.empty_world)) = ∅
    /\ put_log (snd (upload_handler.lambda_handler Demo.serving_env
                       default_config (Demo.upload_request (JInt 11000000))
                       Demo.empty_world)) = [].
Proof.
  eapply (disallowed_type_or_oversize_rejected Demo.serving_env default_config
            (Demo.upload_request (JInt 11000000)) _ (JStr "image/png")
            (JInt 11000000) Demo.empty_world).
  - reflexivity.
  - reflexivity.
  - reflexivity.
  - right. reflexivity.
Defined.

(** C10. An intake request in which [fileName], [fileType], [fileSize] or
    [sessionId] is falsy (absent, [null], [0], [0.0], [""], [false], [[]]
    or [{}]) is answered with status 400 and the missing-required-fields
    error, and the world is left exactly as it was; so it is for a
    [fileSize] of 0, an empty [fileName] and an empty [sessionId], present
    in the request though they are. *)
Theorem falsy_field_rejected
    (E : Env) (C : Config) (event : Event.t)
    (fields : list (string * jvalue)) (k : string) (v : jvalue) (w : World) :
  Event.body event = BodyJson (JObj fields) ->
  In k ["fileName"; "fileType"; "fileSize"; "sessionId"] ->
  Py.get (JObj fields) k = Ok v ->
  Py.truthy v = false ->
  upload_handler.lambda_handler E C event w
  = (Ok (respond 400
           (ErrorBody "Missing required fields: fileName, fileType, fileSize, sessionId"
                      None)),
     w).
Proof.
  intros Hbody Hk Hget Hfalsy.
  destruct (upload_checks E C event fields w Hbody) as (Hmiss & _).
  cbv zeta in Hmiss. apply Hmiss. clear Hmiss.
  unfold Py.get, Py.get_default in Hget. injection Hget as Hget.
  cbn in Hk.
  destruct Hk as [<-|[<-|[<-|[<-|[]]]]]; rewrite Hget, Hfalsy;
    rewrite ?andb_false_r; reflexivity.
Qed.

Lemma falsy_field_rejected_witness :
  upload_handler.lambda_handler Demo.serving_env default_config
    (Demo.upload_request (JInt 0)) Demo.empty_world
  = (Ok upload_handler.missing_fields, Demo.empty_world)
  /\ upload_handler.lambda_handler Demo.serving_env default_config
       (Event.Make
          (BodyJson (JObj [ ("fileName", JStr ""); ("fileType", JStr "image/png");
                            ("fileSize", JInt 1024); ("sessionId", JStr "s1") ]))
          PathAbsent)
       Demo.empty_world
     = (Ok upload_handler.missing_fields, Demo.empty_world)
  /\ upload_handler.lambda_handler Demo.serving_env default_config
       (Event.Make
          (BodyJson (JObj [ ("fileName", JStr "plan.png");
                            ("fileType", JStr "image/png");
                            ("fileSize", JInt 1024); ("sessionId", JStr "") ]))
          PathAbsent)
       Demo.empty_world
     = (Ok upload_handler.missing_fields, Demo.empty_world).
Proof.
  split; [|split].
  - eapply (falsy_field_rejected Demo.serving_env default_config
              (Demo.upload_request (JInt 0)) _ "fileSize" (JInt 0));
      [reflexivity | cbn; tauto | reflexivity | reflexivity].
  - eapply (falsy_field_rejected Demo.serving_env default_config _ _
              "fileName" (JStr ""));
      [reflexivity | cbn; tauto | reflexivity | reflexivity].
  - eapply (falsy_field_rejected Demo.serving_env default_config _ _
              "sessionId" (JStr ""));
      [reflexivity | cbn; tauto | reflexivity | reflexivity].
Defined.

(* ===================================================================== *)
(** ** Job lookup *)
(* ===================================================================== *)

Lemma find_key_None blueprint_id suffix contents :
  find_key blueprint_id suffix contents = None <->
  ~ exists key, In key contents
                /\ PyStr.contains blueprint_id key = true
                /\ PyStr.endswith key suffix = true.
Proof.
  unfold find_key. split.
  - intros Hnone (key & Hin & Hc & He).
    pose proof (List.find_none _ _ Hnone key Hin) as Hf. cbn in Hf.
    rewrite Hc, He in Hf. discriminate.
  - intros Hno.
    destruct (List.find _ contents) as [key|] eqn:Hfind; [|reflexivity].
    apply List.find_some in Hfind as [Hin Hb].
    apply andb_true_iff in Hb as [Hc He].
    exfalso. apply Hno. eauto.
Qed.

(** Every listed key is a key of the bucket. *)
Lemma listed_in_bucket w key :
  In key (listed w) -> is_Some (objects w !! key).
Proof.
  unfold listed. intros Hin.
  assert (Hin' : In key (List.filter (String.prefix "uploads/")
                                     (s3_client.sorted_keys (objects w)))).
  { rewrite <- (firstn_skipn 100). apply in_or_app. by left. }
  clear Hin. apply filter_In in Hin' as [Hin _].
  unfold s3_client.sorted_keys in Hin.
  apply list_elem_of_In in Hin.
  rewrite merge_sort_Permutation in Hin.
  apply list_elem_of_fmap in Hin as ([k d] & -> & Hkd).
  apply elem_of_map_to_list in Hkd. cbn. eauto.
Qed.

(** A bucket with at most 100 keys under [uploads/] is listed whole. *)
Lemma listed_complete w key :
  (length (List.filter (String.prefix "uploads/")
                       (s3_client.sorted_keys (objects w))) <= 100)%nat ->
  is_Some (objects w !! key) ->
  String.prefix "uploads/" key = true ->
  In key (listed w).
Proof.
  intros Hlen [d Hd] Hpre. unfold listed.
  rewrite firstn_all2 by exact Hlen.
  apply filter_In. split; [|exact Hpre].
  unfold s3_client.sorted_keys.
  apply list_elem_of_In. rewrite merge_sort_Permutation.
  apply list_elem_of_fmap. exists (key, d). split; [reflexivity|].
  by apply elem_of_map_to_list.
Qed.

Lemma status_lookup_unfold blueprint_id w :
  status_handler.lookup blueprint_id w =
  match find_key blueprint_id "status.json" (listed w) with
  | None =>
      match find_key blueprint_id "results.json" (listed w) with
      | Some _ =>
          (Ok (respond 200 (DocumentBody
                 (DocStatus (status_handler.synthesized_complete blueprint_id)))),
           w)
      | None => (Ok status_handler.not_found, w)
      end
  | Some status_key =>
      match objects w !! status_key with
      | Some status => (Ok (respond 200 (DocumentBody status)), w)
      | None => (Ok status_handler.status_not_found, w)
      end
  end.
Proof.
  unfold status_handler.lookup, try_except, bind, s3_client.list_objects_v2,
    s3_client.get_object, ret. fold (listed w).
  destruct (find_key blueprint_id "status.json" (listed w)) as [k|].
  - destruct (objects w !! k); reflexivity.
  - destruct (find_key blueprint_id "results.json" (listed w)); reflexivity.
Qed.

Lemma results_lookup_unfold blueprint_id w :
  results_handler.lookup blueprint_id w =
  match find_key blueprint_id "results.json" (listed w) with
  | None => (Ok results_handler.not_found, w)
  | Some results_key =>
      match objects w !! results_key with
      | Some results => (Ok (respond 200 (DocumentBody results)), w)
      | None => (Ok results_handler.not_found, w)
      end
  end.
Proof.
  unfold results_handler.lookup, try_except, bind, s3_client.list_objects_v2,
    s3_client.get_object, ret. fold (listed w).
  destruct (find_key blueprint_id "results.json" (listed w)) as [k|].
  - destruct (objects w !! k); reflexivity.
  - reflexivity.
Qed.

Lemma status_handler_by_id event blueprint_id w :
  query_by_id event blueprint_id ->
  status_handler.lambda_handler event w = status_handler.lookup blueprint_id w.
Proof.
  intros [Hpath Hne].
  unfold status_handler.lambda_handler, try_except, bind, lift.
  rewrite Hpath.
  destruct (String.eqb_spec blueprint_id ""); [done|].
  rewrite status_lookup_unfold.
  destruct (find_key blueprint_id "status.json" (listed w)) as [k|].
  - destruct (objects w !! k); reflexivity.
  - destruct (find_key blueprint_id "results.json" (listed w)); reflexivity.
Qed.

Lemma results_handler_by_id event blueprint_id w :
  query_by_id event blueprint_id ->
  results_handler.lambda_handler event w = results_handler.lookup blueprint_id w.
Proof.
  intros [Hpath Hne].
  unfold results_handler.lambda_handler, try_except, bind, lift.
  rewrite Hpath.
  destruct (String.eqb_spec blueprint_id ""); [done|].
  rewrite results_lookup_unfold.
  destruct (find_key blueprint_id "results.json" (listed w)) as [k|].
  - destruct (objects w !! k); reflexivity.
  - reflexivity.
Qed.


(** A results query that finds no results document reports not-found. *)
Lemma results_query_not_found event blueprint_id w :
  query_by_id event blueprint_id ->
  ~ found w blueprint_id "results.json" ->
  results_handler.lambda_handler event w = (Ok results_handler.not_found, w).
Proof.
  intros Hq Hno.
  rewrite (results_handler_by_id _ _ _ Hq), results_lookup_unfold.
  apply find_key_None in Hno. by rewrite Hno.
Qed.


(* ===================================================================== *)
(** ** The pipeline coordinator *)
(* ===================================================================== *)

Section Coordinator.
Context (E : Env) (C : Config).

Let loop := inference_handler.retry_loop E C.

(** The invoker reads nothing of the world but the number of calls made
    so far, and changes nothing but that number and the sleep log. *)
Lemma retry_loop_calls_only endpoint_name payload max_retries remaining :
  forall attempt w,
  exists r calls delays,
    (calls <= remaining)%nat /\
    forall w', endpoint_calls w' = endpoint_calls w ->
      loop endpoint_name payload max_retries remaining attempt w'
      = (r, after_attempts w' calls delays).
Proof.
  induction remaining as [|remaining IH]; intros attempt w.
  - exists (Ok None), O, []. split; [lia|]. intros w' _.
    unfold after_attempts. cbn. rewrite Nat.add_0_r, app_nil_r. by destruct w'.
  - destruct (invoke_endpoint E (endpoint_calls w) endpoint_name payload)
      as [r|e] eqn:Hout.
    { exists (Ok (Some r)), 1%nat, []. split; [lia|]. intros w' Hw'.
      unfold loop. rewrite retry_loop_S, Hw', Hout. reflexivity. }
    destruct (is_ModelError e) eqn:Hmodel.
    { exists (Raise e), 1%nat, []. split; [lia|]. intros w' Hw'.
      unfold loop. rewrite retry_loop_S, Hw', Hout, Hmodel. reflexivity. }
    destruct ((Z.of_nat attempt <? max_retries - 1)
              && inference_handler.is_retryable (exn_msg e)) eqn:Hretry.
    2:{ exists (Raise e), 1%nat, []. split; [lia|]. intros w' Hw'.
        unfold loop. rewrite retry_loop_S, Hw', Hout, Hmodel, Hretry.
        reflexivity. }
    destruct (IH (S attempt)
                (after_attempts w 1 [inference_handler.backoff_delay C attempt]))
      as (r & calls & delays & Hle & Hrun).
    exists r, (S calls), (inference_handler.backoff_delay C attempt :: delays).
    split; [lia|]. intros w' Hw'.
    unfold loop. rewrite retry_loop_S, Hw', Hout, Hmodel, Hretry.
    fold loop. rewrite Hrun by (cbn; lia).
    f_equal. unfold after_attempts. cbn. f_equal; [lia|].
    by rewrite <- app_assoc.
Qed.

(** A response the invoker returns is a response of the endpoint. *)
Lemma retry_loop_returns endpoint_name payload max_retries remaining :
  forall attempt w r w',
    loop endpoint_name payload max_retries remaining attempt w
    = (Ok (Some r), w') ->
    exists n, invoke_endpoint E n endpoint_name payload = Ok r.
Proof.
  induction remaining as [|remaining IH]; intros attempt w r w'.
  - cbn. unfold ret. intros [= ]. 
  - unfold loop. rewrite retry_loop_S.
    destruct (invoke_endpoint E (endpoint_calls w) endpoint_name payload)
      as [r0|e] eqn:Hout.
    { intros [= <- _]. eauto. }
    destruct (is_ModelError e); [intros [= ]|].
    destruct (_ && _); [|intros [= ]].
    apply IH.
Qed.

(** Steps 1-2, case by case. *)
Lemma resolve_and_preprocess_eq event w :
  inference_handler.resolve_and_preprocess E C event w =
  match json_loads_body event with
  | Raise e => (Raise e, w)
  | Ok (JObj fields) =>
      let field k := match Py.assoc k fields with Some v => v | None => JNull end in
      let confidence := match Py.assoc "confidence" fields with
                        | Some v => v
                        | None => JFloat (1 # 2)
                        end in
      if negb (Py.truthy (field "blueprintId") && Py.truthy (field "sessionId"))
      then (Ok (inl inference_handler.missing_fields), w)
      else
        match objects w !! inference_handler.metadata_key E (field "sessionId")
                                                          (field "blueprintId") with
        | None => (Ok (inl inference_handler.metadata_not_found), w)
        | Some d =>
            match doc_s3Key d with
            | Some s3_key =>
                if negb (String.eqb s3_key "") then
                  let p := inference_handler.Prepared
                             (field "blueprintId") (field "sessionId")
                             (Payload.Make ("s3://" +:+ BUCKET_NAME C +:+ "/" +:+ s3_key)
                                           confidence)
                             (time_time E (clock w)) in
                  (Ok (inr p), preprocessed E p w)
                else (Raise (Exn ValueError "S3 key not found in metadata"), w)
            | None => (Raise (Exn ValueError "S3 key not found in metadata"), w)
            end
        end
  | Ok body => (Raise (Py.no_attribute body "get"), w)
  end.
Proof.
  unfold inference_handler.resolve_and_preprocess, bind, lift.
  destruct (json_loads_body event) as [body|e]; [|reflexivity].
  destruct body; try reflexivity.
  unfold Py.get, Py.get_default. cbv zeta.
  destruct (negb _); [reflexivity|].
  unfold try_except, bind, s3_client.get_object.
  destruct (objects w !! _) as [d|]; [|reflexivity].
  destruct (doc_s3Key d) as [k|]; [|reflexivity].
  destruct (negb (String.eqb k "")); reflexivity.
Qed.

(** Steps 1-2 either end the run without touching the world, or hand
    over to step 3 in the world [preprocessed]. *)
Lemma resolve_and_preprocess_cases event w :
  (exists r, inference_handler.resolve_and_preprocess E C event w
             = (Ok (inl r), w))
  \/ (exists e, inference_handler.resolve_and_preprocess E C event w
                = (Raise e, w))
  \/ (exists p, inference_handler.resolve_and_preprocess E C event w
                = (Ok (inr p), preprocessed E p w)).
Proof.
  rewrite resolve_and_preprocess_eq.
  destruct (json_loads_body event) as [body|e]; [|eauto].
  destruct body; eauto.
  cbv zeta. destruct (negb _); [eauto|].
  destruct (objects w !! _) as [d|]; [|eauto].
  destruct (doc_s3Key d) as [k|]; [|eauto].
  destruct (negb (String.eqb k "")); eauto.
Qed.

(** Steps 3-5, by the outcome of the invocation. *)
Lemma infer_and_persist_eq p w :
  let b := inference_handler.p_blueprint_id p in
  let skey := inference_handler.status_key E (inference_handler.p_session_id p) b in
  let rkey := inference_handler.results_key E (inference_handler.p_session_id p) b in
  let w1 := put skey (DocStatus (inference_handler.status_inference b (stamp E w)))
                (tick w) in
  inference_handler.infer_and_persist E C p w =
  match inference_handler.invoke_sagemaker_with_retry E C (SAGEMAKER_ENDPOINT C)
          (inference_handler.p_payload p) (MAX_RETRIES C) w1 with
  | (Ok (Some result), w2) =>
      let w3 := put skey (DocStatus (inference_handler.status_postprocess b (stamp E w2)))
                    (tick w2) in
      let formatted :=
        inference_handler.format_results C b
          (time_time E (clock w3) - inference_handler.p_start_time p)%Q
          (stamp E (tick w3)) result in
      let w4 := put rkey (DocResults formatted) (tick (tick w3)) in
      (Ok (respond 200 (InferenceBody "Inference completed successfully" b formatted)),
       put skey (DocStatus (inference_handler.status_complete b (stamp E w4)))
           (tick w4))
  | (Ok None, w2) =>
      let w3 := put skey (DocStatus (inference_handler.status_postprocess b (stamp E w2)))
                    (tick w2) in
      let e := inference_handler.none_has_no_get in
      (Ok (respond 500 (ErrorBody "Failed to invoke SageMaker endpoint"
                                  (Some (exn_msg e)))),
       put skey (DocStatus (inference_handler.status_failed b
                              ("Failed to invoke SageMaker endpoint: " +:+ exn_msg e)
                              (stamp E (tick w3))))
           (tick (tick w3)))
  | (Raise e, w2) =>
      if is_ModelError e then
        (Ok (respond 500 (ErrorBody "Model inference failed" (Some (exn_msg e)))),
         put skey (DocStatus (inference_handler.status_failed b
                                ("Model inference failed: " +:+ exn_msg e)
                                (stamp E w2)))
             (tick w2))
      else
        (Ok (respond 500 (ErrorBody "Failed to invoke SageMaker endpoint"
                                    (Some (exn_msg e)))),
         put skey (DocStatus (inference_handler.status_failed b
                                ("Failed to invoke SageMaker endpoint: " +:+ exn_msg e)
                                (stamp E w2)))
             (tick w2))
  end.
Proof.
  cbv zeta.
  unfold inference_handler.infer_and_persist, try_except, bind, utcnow_Z,
    s3_client.put_object, now, ret, raise, put, tick, stamp.
  cbn [fst snd objects put_log endpoint_calls sleep_log clock uuids].
  destruct (inference_handler.invoke_sagemaker_with_retry _ _ _ _ _ _)
    as [[[result|]|e] w2].
  - reflexivity.
  - reflexivity.
  - destruct (is_ModelError e); reflexivity.
Qed.

End Coordinator.

Section Run.
Context (E : Env) (C : Config).

Lemma lambda_handler_eq event w :
  inference_handler.lambda_handler E C event w =
  match inference_handler.resolve_and_preprocess E C event w with
  | (Ok (inl r), w1) => (Ok r, w1)
  | (Ok (inr p), w1) =>
      match inference_handler.infer_and_persist E C p w1 with
      | (Ok r, w2) => (Ok r, w2)
      | (Raise e, w2) => (Ok (inference_handler.internal_error e), w2)
      end
  | (Raise e, w1) => (Ok (inference_handler.internal_error e), w1)
  end.
Proof.
  unfold inference_handler.lambda_handler, try_except, bind.
  destruct (inference_handler.resolve_and_preprocess E C event w)
    as [[[r|p]|e] w1]; reflexivity.
Qed.

(** The invocation, run in any world with as many calls behind it. *)
Lemma invoke_calls_only endpoint_name payload max_retries w :
  exists r calls delays,
    forall w', endpoint_calls w' = endpoint_calls w ->
      inference_handler.invoke_sagemaker_with_retry E C endpoint_name payload
        max_retries w'
      = (r, after_attempts w' calls delays).
Proof.
  unfold inference_handler.invoke_sagemaker_with_retry.
  destruct (retry_loop_calls_only E C endpoint_name payload max_retries
              (Z.to_nat max_retries) O w) as (r & calls & delays & _ & H).
  eauto.
Qed.

End Run.

(** The bucket and the put log of the worlds that [put], [tick],
    [after_attempts] and [preprocessed] build. *)
Section Worlds.
Context (E : Env).

Lemma objects_put key doc w : objects (put key doc w) = <[key := doc]> (objects w).
Proof. reflexivity. Qed.

Lemma objects_tick w : objects (tick w) = objects w.
Proof. reflexivity. Qed.

Lemma objects_after_attempts w calls delays :
  objects (after_attempts w calls delays) = objects w.
Proof. reflexivity. Qed.

Lemma objects_preprocessed p w :
  objects (preprocessed E p w)
  = <[inference_handler.status_key E (inference_handler.p_session_id p)
                                   (inference_handler.p_blueprint_id p)
      := DocStatus (inference_handler.status_preprocessing
                      (inference_handler.p_blueprint_id p) (stamp E (tick w)))]>
      (objects w).
Proof. reflexivity. Qed.

Lemma put_log_put key doc w :
  put_log (put key doc w) = (put_log w ++ [(key, doc)])%list.
Proof. reflexivity. Qed.

Lemma put_log_tick w : put_log (tick w) = put_log w.
Proof. reflexivity. Qed.

Lemma put_log_after_attempts w calls delays :
  put_log (after_attempts w calls delays) = put_log w.
Proof. reflexivity. Qed.

Lemma put_log_preprocessed p w :
  put_log (preprocessed E p w)
  = (put_log w ++
     [ (inference_handler.status_key E (inference_handler.p_session_id p)
                                     (inference_handler.p_blueprint_id p),
        DocStatus (inference_handler.status_preprocessing
                     (inference_handler.p_blueprint_id p) (stamp E (tick w)))) ])%list.
Proof. reflexivity. Qed.

End Worlds.

Ltac world_simpl :=
  cbn [fst snd];
  repeat first
    [ rewrite objects_put | rewrite objects_tick
    | rewrite objects_after_attempts | rewrite objects_preprocessed
    | rewrite put_log_put | rewrite put_log_tick
    | rewrite put_log_after_attempts | rewrite put_log_preprocessed ].

(** The run of the coordinator, split by the outcome of steps 1-2 and by
    the outcome [r] of the invocation. *)
Ltac run_cases E C event w :=
  rewrite ?(lambda_handler_eq E C event w);
  let p := fresh "p" in
  let Hres := fresh "Hresolve" in
  destruct (resolve_and_preprocess_cases E C event w)
    as [[? Hres]|[[? Hres]|[p Hres]]];
  rewrite ?Hres;
  [ | | rewrite ?(infer_and_persist_eq E C p (preprocessed E p w)); cbv zeta;
        let r := fresh "r" in
        let calls := fresh "calls" in
        let delays := fresh "delays" in
        let Hinv := fresh "Hinvoke" in
        match goal with
        | |- context [inference_handler.invoke_sagemaker_with_retry
                        E C ?ep ?pl ?m ?w1] =>
            destruct (invoke_calls_only E C ep pl m w1)
              as (r & calls & delays & Hinv);
            rewrite ?(Hinv w1 eq_refl);
            destruct r as [[?|]|?]
        end ].

(** Against C3 as stated.  The coordinator fails in step 1 on a job that
    intake created and whose metadata names no artifact: resolving the
    artifact raises, the handler answers 500, and the Status document
    still reads [processing], stage [upload], not [failed]. *)
Lemma status_left_processing_after_failure :
  fst (inference_handler.resolve_and_preprocess Demo.serving_env default_config
         Demo.run_request Demo.uploaded_without_s3Key)
  = Raise (Exn ValueError "S3 key not found in metadata")
  /\ fst (inference_handler.lambda_handler Demo.serving_env default_config
            Demo.run_request Demo.uploaded_without_s3Key)
     = Ok (respond 500 (ErrorBody "Internal server error"
                                  (Some "S3 key not found in metadata")))
  /\ objects (snd (inference_handler.lambda_handler Demo.serving_env
                     default_config Demo.run_request
                     Demo.uploaded_without_s3Key))
       !! "uploads/s1/blueprint-0123456789ab/status.json"
     = Some (DocStatus
               (Status.Make (JStr "blueprint-0123456789ab") "processing" "upload"
                            10 20
                            "Blueprint uploaded, preparing for processing..."
                            (Some "2024-01-01T00:00:01Z"))).
Proof. repeat split; vm_compute; reflexivity. Qed.

(** C3, as the code has it.  A run that ends in steps 1-2, by an
    exception or by an error answer (400, 404), returns that error and
    writes nothing: the world, and with it the Status document of the job,
    is as it was.  A run that gets past step 2 exits with the Status
    document of the job in a terminal state: [completed] with progress
    100, or [failed] with progress 0. *)
Theorem status_after_run
    (E : Env) (C : Config) (event : Event.t) (w : World) :
  let steps_1_2 := fst (inference_handler.resolve_and_preprocess E C event w) in
  let run := inference_handler.lambda_handler E C event w in
  (forall e, steps_1_2 = Raise e ->
     run = (Ok (respond 500 (ErrorBody "Internal server error"
                                       (Some (exn_msg e)))), w))
  /\ (forall r, steps_1_2 = Ok (inl r) -> run = (Ok r, w))
  /\ (forall p, steps_1_2 = Ok (inr p) ->
      exists st,
        objects (snd run)
          !! inference_handler.status_key E (inference_handler.p_session_id p)
                                          (inference_handler.p_blueprint_id p)
        = Some (DocStatus st)
        /\ terminal_status st).
Proof.
  cbv zeta. unfold terminal_status.
  run_cases E C event w; cbn [fst snd].
  - repeat split; intros; try discriminate. congruence.
  - repeat split; intros; try discriminate.
    unfold inference_handler.internal_error. congruence.
  - repeat split; intros q Hq; try discriminate.
    injection Hq as <-. world_simpl.
    rewrite lookup_insert_eq. eexists. split; [reflexivity|]. cbn. auto.
  - repeat split; intros q Hq; try discriminate.
    injection Hq as <-. world_simpl.
    rewrite lookup_insert_eq. eexists. split; [reflexivity|]. cbn. auto.
  - repeat split; intros q Hq; try discriminate.
    injection Hq as <-.
    destruct (is_ModelError e); world_simpl;
      rewrite lookup_insert_eq; eexists; (split; [reflexivity|]); cbn; auto.
Qed.

Lemma status_after_run_witness :
  inference_handler.lambda_handler Demo.serving_env default_config
    Demo.run_request Demo.uploaded_without_s3Key
  = (Ok (respond 500 (ErrorBody "Internal server error"
                                (Some "S3 key not found in metadata"))),
     Demo.uploaded_without_s3Key)
  /\ exists st,
       objects (snd (inference_handler.lambda_handler Demo.failing_env
                       default_config Demo.run_request
                       (Demo.uploaded Demo.failing_env)))
         !! "uploads/s1/blueprint-0123456789ab/status.json"
       = Some (DocStatus st)
       /\ terminal_status st.
Proof.
  split.
  - pose proof (status_after_run Demo.serving_env default_config
                  Demo.run_request Demo.uploaded_without_s3Key)
      as (H & _ & _).
    apply (H (Exn ValueError "S3 key not found in metadata")).
    vm_compute. reflexivity.
  - pose proof (status_after_run Demo.failing_env default_config
                  Demo.run_request (Demo.uploaded Demo.failing_env))
      as (_ & _ & H).
    apply (H (inference_handler.Prepared (JStr Demo.blueprint_id) (JStr "s1")
                                         Demo.payload 2%Q)).
    vm_compute. reflexivity.
Defined.

(* ===================================================================== *)
(** ** The progress of a successful job *)
(* ===================================================================== *)

Section Progress.
Context (E : Env) (C : Config).

(** What a successful intake has done. *)
Lemma upload_success event w r w' :
  upload_handler.lambda_handler E C event w = (Ok r, w') ->
  Response.statusCode r = 200 ->
  exists session_id metadata updated_at url s3_key,
    let blueprint_id := "blueprint-" +:+ PyStr.take 12 (uuid4_hex E (uuids w)) in
    request_field event "sessionId" = Ok session_id
    /\ Py.truthy session_id = true
    /\ r = respond 200 (UploadBody blueprint_id url s3_key
                                    "Presigned URL generated successfully")
    /\ put_log w' =
         (put_log w ++
          [ (inference_handler.metadata_key E session_id (JStr blueprint_id),
             DocMetadata metadata);
            (inference_handler.status_key E session_id (JStr blueprint_id),
             DocStatus (upload_handler.status_upload blueprint_id updated_at)) ])%list
    /\ objects w' =
         <[inference_handler.status_key E session_id (JStr blueprint_id) :=
             DocStatus (upload_handler.status_upload blueprint_id updated_at)]>
           (<[inference_handler.metadata_key E session_id (JStr blueprint_id) :=
                DocMetadata metadata]> (objects w))
    /\ endpoint_calls w' = endpoint_calls w.
Proof.
  unfold upload_handler.lambda_handler, try_except, bind, lift, request_field.
  destruct (json_loads_body event) as [body|e].
  2:{ destruct (is_ClientError e); intros [= <- <-]; discriminate. }
  destruct body;
    try (cbn; intros [= <- <-]; discriminate).
  unfold Py.get, Py.get_default.
  set (file_name := match Py.assoc "fileName" fields with Some v => v | None => JNull end).
  set (file_type := match Py.assoc "fileType" fields with Some v => v | None => JNull end).
  set (file_size := match Py.assoc "fileSize" fields with Some v => v | None => JNull end).
  set (session_id := match Py.assoc "sessionId" fields with Some v => v | None => JNull end).
  destruct (Py.truthy file_name && Py.truthy file_type && Py.truthy file_size
            && Py.truthy session_id) eqn:Hall;
    cbn [negb]; [|intros [= <- <-]; discriminate].
  destruct (Py.not_in file_type upload_handler.allowed_types);
    [intros [= <- <-]; discriminate|].
  destruct (Py.gt_int file_size upload_handler.max_size) as [[|]|e];
    [intros [= <- <-]; discriminate| |
     destruct (is_ClientError e); intros [= <- <-]; discriminate].
  unfold uuid4.
  destruct (Py.split_dot_last file_name) as [ext|e];
    [|destruct (is_ClientError e); intros [= <- <-]; discriminate].
  unfold utcnow_Z, s3_client.put_object, ret.
  cbn [objects put_log endpoint_calls sleep_log clock uuids fst snd].
  intros [= <- <-] _.
  apply andb_true_iff in Hall as [_ Hsession].
  do 5 eexists. cbv zeta.
  split; [reflexivity|]. split; [exact Hsession|].
  split; [reflexivity|].
  cbn [objects put_log endpoint_calls].
  split; [by rewrite <- app_assoc|].
  split; reflexivity.
Qed.

End Progress.

(* ===================================================================== *)
(** ** The keys of a job *)
(* ===================================================================== *)

Lemma rev_app_append s1 : forall s2 acc,
  String.rev_app (s1 +:+ s2) acc = String.rev_app s2 (String.rev_app s1 acc).
Proof. induction s1 as [|c s1 IH]; intros s2 acc; cbn; [reflexivity|apply IH]. Qed.

Section Keys.
Context (E : Env).

Lemma status_key_not_metadata session_id blueprint_id :
  PyStr.endswith (inference_handler.status_key E session_id blueprint_id)
                 "metadata.json" = false.
Proof.
  unfold PyStr.endswith, inference_handler.status_key, String.rev.
  rewrite !rev_app_append. reflexivity.
Qed.

Lemma results_key_not_metadata session_id blueprint_id :
  PyStr.endswith (inference_handler.results_key E session_id blueprint_id)
                 "metadata.json" = false.
Proof.
  unfold PyStr.endswith, inference_handler.results_key, String.rev.
  rewrite !rev_app_append. reflexivity.
Qed.

Lemma status_key_not_results session_id blueprint_id :
  PyStr.endswith (inference_handler.status_key E session_id blueprint_id)
                 "results.json" = false.
Proof.
  unfold PyStr.endswith, inference_handler.status_key, String.rev.
  rewrite !rev_app_append. reflexivity.
Qed.

Lemma metadata_key_is_metadata session_id blueprint_id :
  PyStr.endswith (inference_handler.metadata_key E session_id blueprint_id)
                 "metadata.json" = true.
Proof.
  unfold PyStr.endswith, inference_handler.metadata_key, String.rev.
  rewrite !rev_app_append. reflexivity.
Qed.

Lemma results_key_not_status session_id blueprint_id :
  inference_handler.results_key E session_id blueprint_id
  <> inference_handler.status_key E session_id blueprint_id.
Proof.
  unfold inference_handler.results_key, inference_handler.status_key.
  intros H. do 4 apply (inj (String.append _)) in H. discriminate.
Qed.

Lemma metadata_key_not_status session_id blueprint_id :
  inference_handler.metadata_key E session_id blueprint_id
  <> inference_handler.status_key E session_id blueprint_id.
Proof.
  unfold inference_handler.metadata_key, inference_handler.status_key.
  intros H. do 4 apply (inj (String.append _)) in H. discriminate.
Qed.

(** A key that ends with [suffix] is none of the keys that do not. *)
Lemma endswith_ne key key' suffix :
  PyStr.endswith key suffix = true ->
  PyStr.endswith key' suffix = false ->
  key' <> key.
Proof. intros H1 H2 ->. congruence. Qed.

End Keys.

(* ===================================================================== *)
(** ** What a run writes *)
(* ===================================================================== *)

(** Each write of a list is a Status document under the status key or a
    Results document under the results key. *)
Ltac written_by_job :=
  repeat (apply List.Forall_cons;
          [ cbn [fst snd];
            first [ left; split; [reflexivity|eexists; reflexivity]
                  | right; split; [reflexivity|eexists; reflexivity] ] | ]);
  apply List.Forall_nil.

(** C9. The coordinator never rewrites a Metadata document.  Whatever the
    request and however the run ends, every key that ends with
    [metadata.json] holds after the run what it held before; and all the
    run has put is Status documents under the status key and Results
    documents under the results key of one job, the one the request
    names. *)
Theorem metadata_never_rewritten
    (E : Env) (C : Config) (event : Event.t) (w : World) :
  let w' := snd (inference_handler.lambda_handler E C event w) in
  (forall key, PyStr.endswith key "metadata.json" = true ->
               objects w' !! key = objects w !! key)
  /\ (forall session_id blueprint_id,
        objects w' !! inference_handler.metadata_key E session_id blueprint_id
        = objects w !! inference_handler.metadata_key E session_id blueprint_id)
  /\ exists session_id blueprint_id,
       Forall (fun kd =>
                 (fst kd = inference_handler.status_key E session_id blueprint_id
                  /\ exists st, snd kd = DocStatus st)
                 \/ (fst kd = inference_handler.results_key E session_id blueprint_id
                     /\ exists r, snd kd = DocResults r))
              (written_since w w').
Proof.
  cbv zeta.
  assert (Hgoal :
    (forall key, PyStr.endswith key "metadata.json" = true ->
       objects (snd (inference_handler.lambda_handler E C event w)) !! key
       = objects w !! key)
    /\ exists session_id blueprint_id,
         Forall (fun kd =>
                   (fst kd = inference_handler.status_key E session_id blueprint_id
                    /\ exists st, snd kd = DocStatus st)
                   \/ (fst kd = inference_handler.results_key E session_id blueprint_id
                       /\ exists r, snd kd = DocResults r))
                (written_since w (snd (inference_handler.lambda_handler E C event w)))).
  { unfold written_since.
    run_cases E C event w; cbn [fst snd].
    - split; [reflexivity|]. exists JNull, JNull.
      rewrite skipn_all. constructor.
    - split; [reflexivity|]. exists JNull, JNull.
      rewrite skipn_all. constructor.
    - world_simpl. split.
      + intros key Hkey.
        rewrite !lookup_insert_ne;
          eauto using endswith_ne, status_key_not_metadata,
                      results_key_not_metadata.
      + exists (inference_handler.p_session_id p),
               (inference_handler.p_blueprint_id p).
        rewrite <- !app_assoc, drop_app_length. cbn [app].
        written_by_job.
    - world_simpl. split.
      + intros key Hkey.
        rewrite !lookup_insert_ne;
          eauto using endswith_ne, status_key_not_metadata,
                      results_key_not_metadata.
      + exists (inference_handler.p_session_id p),
               (inference_handler.p_blueprint_id p).
        rewrite <- !app_assoc, drop_app_length. cbn [app].
        written_by_job.
    - destruct (is_ModelError e); world_simpl; (split;
        [ intros key Hkey;
          rewrite !lookup_insert_ne;
            eauto using endswith_ne, status_key_not_metadata,
                        results_key_not_metadata
        | exists (inference_handler.p_session_id p),
                 (inference_handler.p_blueprint_id p);
          rewrite <- !app_assoc, drop_app_length; cbn [app];
          written_by_job ]). }
  destruct Hgoal as [Hkeys Hlog].
  split; [exact Hkeys|]. split; [|exact Hlog].
  intros session_id blueprint_id.
  apply Hkeys, metadata_key_is_metadata.
Qed.

Section Success.
Context (E : Env) (C : Config).

Lemma request_field_JObj event fields k :
  json_loads_body event = Ok (JObj fields) ->
  request_field event k
  = Ok (match Py.assoc k fields with Some v => v | None => JNull end).
Proof. unfold request_field. intros ->. reflexivity. Qed.

(** Steps 1-2 hand over the identifiers of the request. *)
Lemma resolve_and_preprocess_ids event w p w1 :
  inference_handler.resolve_and_preprocess E C event w = (Ok (inr p), w1) ->
  request_field event "blueprintId" = Ok (inference_handler.p_blueprint_id p)
  /\ request_field event "sessionId" = Ok (inference_handler.p_session_id p)
  /\ Py.truthy (inference_handler.p_blueprint_id p) = true
  /\ Py.truthy (inference_handler.p_session_id p) = true
  /\ w1 = preprocessed E p w.
Proof.
  rewrite resolve_and_preprocess_eq.
  destruct (json_loads_body event) as [body|e] eqn:Hbody; [|discriminate].
  destruct body; try discriminate.
  rewrite !(request_field_JObj _ _ _ Hbody). cbv zeta.
  destruct (Py.truthy _ && Py.truthy _) eqn:Hids; [|discriminate].
  apply andb_true_iff in Hids as [Hb Hs]. cbn [negb].
  destruct (objects w !! _) as [d|]; [|discriminate].
  destruct (doc_s3Key d) as [k|]; [|discriminate].
  destruct (negb (String.eqb k "")); [|discriminate].
  intros [= <- <-]. cbn. auto.
Qed.

(** What a successful run has written, and where its results come
    from. *)
Lemma run_success event w r w' :
  inference_handler.lambda_handler E C event w = (Ok r, w') ->
  Response.statusCode r = 200 ->
  exists blueprint_id session_id t1 t2 t3 t4 results,
    request_field event "blueprintId" = Ok blueprint_id
    /\ request_field event "sessionId" = Ok session_id
    /\ r = respond 200 (InferenceBody "Inference completed successfully"
                                      blueprint_id results)
    /\ (exists result n payload processing_time detected_at,
          invoke_endpoint E n (SAGEMAKER_ENDPOINT C) payload = Ok result
          /\ results = inference_handler.format_results C blueprint_id
                         processing_time detected_at result)
    /\ put_log w' =
         (put_log w ++
          [ (inference_handler.status_key E session_id blueprint_id,
             DocStatus (inference_handler.status_preprocessing blueprint_id t1));
            (inference_handler.status_key E session_id blueprint_id,
             DocStatus (inference_handler.status_inference blueprint_id t2));
            (inference_handler.status_key E session_id blueprint_id,
             DocStatus (inference_handler.status_postprocess blueprint_id t3));
            (inference_handler.results_key E session_id blueprint_id,
             DocResults results);
            (inference_handler.status_key E session_id blueprint_id,
             DocStatus (inference_handler.status_complete blueprint_id t4)) ])%list
    /\ objects w' !! inference_handler.results_key E session_id blueprint_id
       = Some (DocResults results)
    /\ objects w' !! inference_handler.status_key E session_id blueprint_id
       = Some (DocStatus (inference_handler.status_complete blueprint_id t4)).
Proof.
  rewrite lambda_handler_eq.
  destruct (inference_handler.resolve_and_preprocess E C event w)
    as [[[r0|p]|e] w1] eqn:Hresolve.
  - intros [= <- <-] Hcode. exfalso.
    rewrite resolve_and_preprocess_eq in Hresolve.
    destruct (json_loads_body event) as [body|e]; [|discriminate].
    destruct body; try discriminate. cbv zeta in Hresolve.
    destruct (negb _); [injection Hresolve as <- _; discriminate|].
    destruct (objects w !! _) as [d|];
      [|injection Hresolve as <- _; discriminate].
    destruct (doc_s3Key d) as [k|]; [|discriminate].
    destruct (negb (String.eqb k "")); discriminate.
  - destruct (resolve_and_preprocess_ids _ _ _ _ Hresolve)
      as (Hb & Hs & _ & _ & ->).
    rewrite infer_and_persist_eq. cbv zeta.
    match goal with
    | |- context [inference_handler.invoke_sagemaker_with_retry
                    E C ?ep ?pl ?m ?w1] =>
        destruct (invoke_calls_only E C ep pl m w1)
          as (res & calls & delays & Hinv);
        pose proof (Hinv w1 eq_refl) as Hrun;
        rewrite Hrun
    end.
    destruct res as [[result|]|e].
    + intros [= <- <-] _.
      unfold inference_handler.invoke_sagemaker_with_retry in Hrun.
      apply retry_loop_returns in Hrun as [n Hn].
      do 7 eexists.
      split; [exact Hb|]. split; [exact Hs|].
      split; [reflexivity|].
      split; [do 5 eexists; split; [exact Hn|reflexivity]|].
      world_simpl.
      split; [by rewrite <- !app_assoc|].
      split.
      * rewrite lookup_insert_ne by apply not_eq_sym, results_key_not_status.
        apply lookup_insert_eq.
      * apply lookup_insert_eq.
    + intros [= <- <-]. discriminate.
    + destruct (is_ModelError e); intros [= <- <-]; discriminate.
  - intros [= <- <-]. discriminate.
Qed.

End Success.

(** C5. For a job that runs to successful completion, the Status documents
    written, from the intake on and in the order of the writes, all go to
    the status key of the job and carry the progress values 10, 25, 50,
    75, 100; the sequence is non-decreasing, so successive reads of the
    Status document during the run see non-decreasing values. *)
Theorem progress_of_successful_job
    (E : Env) (C : Config) (intake trigger : Event.t)
    (w0 w1 w2 : World) (r1 r2 : Response.t)
    (blueprint_id upload_url s3_key message : string) (session_id : jvalue) :
  upload_handler.lambda_handler E C intake w0 = (Ok r1, w1) ->
  r1 = respond 200 (UploadBody blueprint_id upload_url s3_key message) ->
  request_field intake "sessionId" = Ok session_id ->
  request_field trigger "sessionId" = Ok session_id ->
  request_field trigger "blueprintId" = Ok (JStr blueprint_id) ->
  inference_handler.lambda_handler E C trigger w1 = (Ok r2, w2) ->
  Response.statusCode r2 = 200 ->
  status_writes (written_since w0 w2)
  = map (fun progress =>
           (inference_handler.status_key E session_id (JStr blueprint_id),
            progress))
        [10; 25; 50; 75; 100]
  /\ StronglySorted Z.le (map snd (status_writes (written_since w0 w2))).
Proof.
  intros Hup Hr1 Hs1 Hs2 Hb2 Hrun Hcode.
  assert (Hwrites :
    status_writes (written_since w0 w2)
    = map (fun progress =>
             (inference_handler.status_key E session_id (JStr blueprint_id),
              progress))
          [10; 25; 50; 75; 100]).
  { destruct (upload_success E C intake w0 r1 w1 Hup)
      as (s & md & t0 & url & k & Hs & _ & Hresp & Hlog1 & _);
      [by rewrite Hr1|].
    cbv zeta in Hresp, Hlog1.
    rewrite Hs1 in Hs. injection Hs as <-.
    rewrite Hr1 in Hresp. injection Hresp as Hbid _ _.
    rewrite <- Hbid in Hlog1.
    destruct (run_success E C trigger w1 r2 w2 Hrun Hcode)
      as (b & s & t1 & t2 & t3 & t4 & res & Hb & Hs & _ & _ & Hlog2 & _).
    rewrite Hb2 in Hb. injection Hb as <-.
    rewrite Hs2 in Hs. injection Hs as <-.
    unfold written_since. rewrite Hlog2, Hlog1.
    rewrite <- !app_assoc, drop_app_length. reflexivity. }
  split; [exact Hwrites|].
  rewrite Hwrites. cbn.
  repeat (constructor; [|repeat constructor; lia]). constructor.
Qed.

Lemma progress_of_successful_job_witness :
  status_writes (written_since Demo.empty_world Demo.completed)
  = [ ("uploads/s1/blueprint-0123456789ab/status.json", 10);
      ("uploads/s1/blueprint-0123456789ab/status.json", 25);
      ("uploads/s1/blueprint-0123456789ab/status.json", 50);
      ("uploads/s1/blueprint-0123456789ab/status.json", 75);
      ("uploads/s1/blueprint-0123456789ab/status.json", 100) ]
  /\ StronglySorted Z.le
       (map snd (status_writes (written_since Demo.empty_world Demo.completed))).
Proof.
  apply (progress_of_successful_job Demo.serving_env default_config
           (Demo.upload_request (JInt 1024)) Demo.run_request
           Demo.empty_world (Demo.uploaded Demo.serving_env) Demo.completed
           (Demo.response_of
              (upload_handler.lambda_handler Demo.serving_env default_config
                 (Demo.upload_request (JInt 1024)) Demo.empty_world))
           (Demo.response_of
              (inference_handler.lambda_handler Demo.serving_env default_config
                 Demo.run_request (Demo.uploaded Demo.serving_env)))
           Demo.blueprint_id
           "https://innergy-blueprints-dev/uploads/s1/blueprint-0123456789ab/original.png"
           "uploads/s1/blueprint-0123456789ab/original.png"
           "Presigned URL generated successfully"
           (JStr "s1")).
  - vm_compute. reflexivity.
  - vm_compute. reflexivity.
  - reflexivity.
  - reflexivity.
  - reflexivity.
  - vm_compute. reflexivity.
  - vm_compute. reflexivity.
Defined.

(* ===================================================================== *)
(** ** Failure of the inference step *)
(* ===================================================================== *)

(** A key of the bucket is among the keys of its list of bindings. *)
Lemma bucket_key_listed (m : gmap string Document) key d :
  m !! key = Some d -> In key (map fst (map_to_list m)).
Proof.
  intros Hd. apply list_elem_of_In, list_elem_of_fmap. exists (key, d).
  split; [reflexivity|]. by apply elem_of_map_to_list.
Qed.

(** What the scan of a query finds is in the bucket. *)
Lemma found_has_document w blueprint_id suffix :
  found w blueprint_id suffix -> has_document w blueprint_id suffix.
Proof.
  intros (key & Hin & Hc & He). exists key.
  eauto using listed_in_bucket.
Qed.

(** C6. When steps 1-2 have succeeded and the invocation of the endpoint
    fails with [e] (terminally, or with the retries exhausted), the run
    answers 500 with the error and [str(e)]; the Status document of the
    job then reads [status=failed], [stage=failed], [progress=0], with a
    diagnostic message that ends with [str(e)]; no Results document has
    been written and no key but the status key has changed; and a Results
    query for a job that had no Results document in the bucket before the
    run reports not-found. *)
Theorem inference_failure_marks_failed
    (E : Env) (C : Config) (event : Event.t) (w w1 : World)
    (p : inference_handler.prepared) (e : exn) :
  inference_handler.resolve_and_preprocess E C event w = (Ok (inr p), w1) ->
  fst (inference_handler.invoke_sagemaker_with_retry E C (SAGEMAKER_ENDPOINT C)
         (inference_handler.p_payload p) (MAX_RETRIES C) w)
  = Raise e ->
  let run := inference_handler.lambda_handler E C event w in
  let status_key :=
    inference_handler.status_key E (inference_handler.p_session_id p)
                                 (inference_handler.p_blueprint_id p) in
  exists diagnostic updated_at,
    (diagnostic = "Model inference failed"
     \/ diagnostic = "Failed to invoke SageMaker endpoint")
    /\ fst run = Ok (respond 500 (ErrorBody diagnostic (Some (exn_msg e))))
    /\ objects (snd run) !! status_key
       = Some (DocStatus
                 (Status.Make (inference_handler.p_blueprint_id p)
                              "failed" "failed" 0 0
                              (diagnostic +:+ ": " +:+ exn_msg e)
                              (Some updated_at)))
    /\ Forall (fun kd => is_results (snd kd) = false) (written_since w (snd run))
    /\ (forall key, key <> status_key ->
                    objects (snd run) !! key = objects w !! key)
    /\ (forall query blueprint_id,
          query_by_id query blueprint_id ->
          ~ has_document w blueprint_id "results.json" ->
          results_handler.lambda_handler query (snd run)
          = (Ok (respond 404
                   (ErrorBody "Results not found for this blueprint ID" None)),
             snd run)).
Proof.
  intros Hresolve Hfail. cbv zeta.
  destruct (resolve_and_preprocess_ids E C _ _ _ _ Hresolve)
    as (_ & _ & _ & _ & ->).
  set (skey := inference_handler.status_key E (inference_handler.p_session_id p)
                 (inference_handler.p_blueprint_id p)).
  assert (Hmain : exists diagnostic updated_at,
    (diagnostic = "Model inference failed"
     \/ diagnostic = "Failed to invoke SageMaker endpoint")
    /\ fst (inference_handler.lambda_handler E C event w)
       = Ok (respond 500 (ErrorBody diagnostic (Some (exn_msg e))))
    /\ objects (snd (inference_handler.lambda_handler E C event w)) !! skey
       = Some (DocStatus
                 (Status.Make (inference_handler.p_blueprint_id p)
                              "failed" "failed" 0 0
                              (diagnostic +:+ ": " +:+ exn_msg e)
                              (Some updated_at)))
    /\ Forall (fun kd => is_results (snd kd) = false)
              (written_since w (snd (inference_handler.lambda_handler E C event w)))
    /\ (forall key, key <> skey ->
           objects (snd (inference_handler.lambda_handler E C event w)) !! key
           = objects w !! key)).
  { rewrite lambda_handler_eq, Hresolve, infer_and_persist_eq. cbv zeta.
    destruct (invoke_calls_only E C (SAGEMAKER_ENDPOINT C)
                (inference_handler.p_payload p) (MAX_RETRIES C) w)
      as (r & calls & delays & Hinv).
    rewrite (Hinv w eq_refl) in Hfail. cbn in Hfail. subst r.
    rewrite Hinv by reflexivity.
    unfold written_since, inference_handler.status_failed.
    destruct (is_ModelError e); world_simpl; fold skey.
    - exists "Model inference failed". eexists.
      split; [by left|]. split; [reflexivity|].
      split; [apply lookup_insert_eq|].
      split.
      + rewrite <- !app_assoc, drop_app_length. repeat constructor.
      + intros key Hkey. by rewrite !lookup_insert_ne.
    - exists "Failed to invoke SageMaker endpoint". eexists.
      split; [by right|]. split; [reflexivity|].
      split; [apply lookup_insert_eq|].
      split.
      + rewrite <- !app_assoc, drop_app_length. repeat constructor.
      + intros key Hkey. by rewrite !lookup_insert_ne. }
  destruct Hmain as (diagnostic & updated_at & Hd & Hresp & Hstatus & Hlog & Hframe).
  exists diagnostic, updated_at.
  repeat (split; [assumption|]).
  intros query blueprint_id Hq Hnone.
  apply (results_query_not_found query blueprint_id _ Hq).
  intros Hfound. apply Hnone.
  apply found_has_document in Hfound as (key & Hsome & Hc & He).
  exists key. rewrite <- Hframe; [auto|].
  apply not_eq_sym, (endswith_ne _ _ "results.json"); [exact He|].
  apply status_key_not_results.
Qed.

Lemma inference_failure_marks_failed_witness :
  exists diagnostic updated_at,
    (diagnostic = "Model inference failed"
     \/ diagnostic = "Failed to invoke SageMaker endpoint")
    /\ fst (inference_handler.lambda_handler Demo.failing_env default_config
              Demo.run_request (Demo.uploaded Demo.failing_env))
       = Ok (respond 500 (ErrorBody diagnostic (Some (exn_msg Demo.model_error))))
    /\ objects (snd (inference_handler.lambda_handler Demo.failing_env
                       default_config Demo.run_request
                       (Demo.uploaded Demo.failing_env)))
         !! "uploads/s1/blueprint-0123456789ab/status.json"
       = Some (DocStatus
                 (Status.Make (JStr Demo.blueprint_id) "failed" "failed" 0 0
                              (diagnostic +:+ ": " +:+ exn_msg Demo.model_error)
                              (Some updated_at))).
Proof.
  destruct (inference_failure_marks_failed Demo.failing_env default_config
              Demo.run_request (Demo.uploaded Demo.failing_env)
              (snd (inference_handler.resolve_and_preprocess Demo.failing_env
                      default_config Demo.run_request
                      (Demo.uploaded Demo.failing_env)))
              (inference_handler.Prepared
                 (JStr Demo.blueprint_id) (JStr "s1") Demo.payload 2%Q)
              Demo.model_error)
    as (diagnostic & updated_at & Hd & Hresp & Hstatus & _).
  - vm_compute. reflexivity.
  - vm_compute. reflexivity.
  - exists diagnostic, updated_at.
    split; [exact Hd|]. split; [exact Hresp|]. exact Hstatus.
Defined.

(** Scenario C: after the run that the model rejected, the Results query
    for the job reports not-found. *)
Example results_not_found_after_failed_run :
  fst (results_handler.lambda_handler (Demo.query Demo.blueprint_id)
         (snd (inference_handler.lambda_handler Demo.failing_env default_config
                 Demo.run_request (Demo.uploaded Demo.failing_env))))
  = Ok (respond 404 (ErrorBody "Results not found for this blueprint ID" None)).
Proof. vm_compute. reflexivity. Qed.


(* ===================================================================== *)
(** ** The average confidence *)
(* ===================================================================== *)








(** Three detections, two walls and a door, with scores 0.9, 0.8, 0.6:
    the persisted statistics. *)
Example statistics_of_three_detections :
  match objects Demo.completed !! "uploads/s1/blueprint-0123456789ab/results.json" with
  | Some (DocResults results) =>
      Statistics.totalDetections (Results.statistics results) = 3
      /\ Statistics.elementCounts (Results.statistics results)
         = [("wall", 2); ("door", 1)]
      /\ Statistics.avgConfidence (Results.statistics results) = (77 # 100)%Q
  | _ => False
  end.
Proof. vm_compute. auto. Qed.

Lemma metadata_never_rewritten_witness :
  objects Demo.completed !! "uploads/s1/blueprint-0123456789ab/metadata.json"
  = objects (Demo.uploaded Demo.serving_env)
      !! "uploads/s1/blueprint-0123456789ab/metadata.json".
Proof.
  destruct (metadata_never_rewritten Demo.serving_env default_config
              Demo.run_request (Demo.uploaded Demo.serving_env)) as (H & _).
  apply H. vm_compute. reflexivity.
Defined.

(* ===================================================================== *)
(** ** More on the retrying invoker *)
(* ===================================================================== *)

Section InvokerOutcomes.
Context (E : Env) (C : Config).
Context (endpoint_name : string) (payload : Payload.t) (max_retries : Z).

(** With at least one iteration left and the loop counter in step with
    [max_retries], the loop never falls through to [return None]. *)
Lemma retry_loop_not_None remaining : forall attempt w,
  (0 < remaining)%nat ->
  Z.of_nat (attempt + remaining) = max_retries ->
  fst (inference_handler.retry_loop E C endpoint_name payload max_retries
         remaining attempt w) <> Ok None.
Proof.
  induction remaining as [|remaining IH]; intros attempt w Hpos Hsum; [lia|].
  rewrite retry_loop_S.
  destruct (invoke_endpoint E (endpoint_calls w) endpoint_name payload)
    as [r|e]; [discriminate|].
  destruct (is_ModelError e); [discriminate|].
  destruct (Z.of_nat attempt <? max_retries - 1) eqn:Hlt;
    cbn [andb]; [|discriminate].
  destruct (inference_handler.is_retryable (exn_msg e)); [|discriminate].
  apply Z.ltb_lt in Hlt. apply IH; lia.
Qed.

End InvokerOutcomes.

(** X1. The invoker recovers from transient failures: when the first [k]
    attempts fail transiently and attempt [k] (with [k < max_retries])
    answers [r], the invoker returns [r] after [k + 1] calls and the [k]
    delays [RETRY_DELAY * 2^i], [i < k]. *)
Theorem retry_recovers_after_transient_failures
    (E : Env) (C : Config) (endpoint_name : string) (payload : Payload.t)
    (max_retries : Z) (w : World) (k : nat) (r : InferenceResult.t) :
  Z.of_nat k < max_retries ->
  (forall i, (i < k)%nat ->
     transient (attempt_outcome E w endpoint_name payload i) = true) ->
  attempt_outcome E w endpoint_name payload k = Ok r ->
  inference_handler.invoke_sagemaker_with_retry E C endpoint_name payload
    max_retries w
  = (Ok (Some r),
     after_attempts w (k + 1)
       (map (fun i => (RETRY_DELAY C * inject_Z (2 ^ Z.of_nat i))%Q) (seq 0 k))).
Proof.
  intros Hk Hfail Hout.
  unfold inference_handler.invoke_sagemaker_with_retry.
  rewrite (retry_loop_transient E C endpoint_name payload max_retries k);
    [|assumption|lia|lia].
  destruct (Z.to_nat max_retries - k)%nat as [|remaining] eqn:Hrem; [lia|].
  rewrite retry_loop_S.
  unfold attempt_outcome in Hout. cbn [after_attempts endpoint_calls].
  rewrite Hout.
  unfold after_attempts. cbn.
  rewrite app_nil_r, Nat.add_assoc. reflexivity.
Qed.

(** X2. A failure whose message is not one the invoker recognises as
    retryable is raised at once, be it the first attempt or one that
    follows transient failures: no delay and no attempt comes after it. *)
Theorem unrecognised_failure_not_retried
    (E : Env) (C : Config) (endpoint_name : string) (payload : Payload.t)
    (max_retries : Z) (w : World) (k : nat) (e : exn) :
  Z.of_nat k < max_retries ->
  (forall i, (i < k)%nat ->
     transient (attempt_outcome E w endpoint_name payload i) = true) ->
  attempt_outcome E w endpoint_name payload k = Raise e ->
  inference_handler.is_retryable (exn_msg e) = false ->
  inference_handler.invoke_sagemaker_with_retry E C endpoint_name payload
    max_retries w
  = (Raise e,
     after_attempts w (k + 1)
       (map (fun i => (RETRY_DELAY C * inject_Z (2 ^ Z.of_nat i))%Q) (seq 0 k))).
Proof.
  intros Hk Hfail Hout Hmsg.
  unfold inference_handler.invoke_sagemaker_with_retry.
  rewrite (retry_loop_transient E C endpoint_name payload max_retries k);
    [|assumption|lia|lia].
  destruct (Z.to_nat max_retries - k)%nat as [|remaining] eqn:Hrem; [lia|].
  rewrite retry_loop_S.
  unfold attempt_outcome in Hout. cbn [after_attempts endpoint_calls].
  rewrite Hout, Hmsg, andb_false_r.
  unfold after_attempts. cbn.
  rewrite app_nil_r, Nat.add_assoc.
  by destruct (is_ModelError e).
Qed.

(** X3. The invoker returns [None] exactly when [max_retries] allows no
    attempt: for [max_retries <= 0] it returns [None] without calling the
    endpoint or sleeping, and for [max_retries > 0] it returns a response
    or raises, never [None]. *)
Theorem invoker_returns_None_iff_no_attempt
    (E : Env) (C : Config) (endpoint_name : string) (payload : Payload.t)
    (max_retries : Z) (w : World) :
  (max_retries <= 0 ->
   inference_handler.invoke_sagemaker_with_retry E C endpoint_name payload
     max_retries w = (Ok None, w))
  /\ (0 < max_retries ->
      fst (inference_handler.invoke_sagemaker_with_retry E C endpoint_name
             payload max_retries w) <> Ok None).
Proof.
  unfold inference_handler.invoke_sagemaker_with_retry. split.
  - intros Hle. replace (Z.to_nat max_retries) with O by lia. reflexivity.
  - intros Hpos. apply retry_loop_not_None; lia.
Qed.

Lemma retry_recovers_after_transient_failures_witness :
  inference_handler.invoke_sagemaker_with_retry Demo.flaky_env default_config
    "yolov5-blueprint-detector" Demo.payload 3 Demo.empty_world
  = (Ok (Some Demo.answer), MkWorld ∅ [] 3 [1%Q; 2%Q] 0 0).
Proof.
  rewrite (retry_recovers_after_transient_failures Demo.flaky_env
             default_config "yolov5-blueprint-detector" Demo.payload 3
             Demo.empty_world 2 Demo.answer).
  - reflexivity.
  - lia.
  - intros i Hi. destruct i as [|[|i]]; [reflexivity|reflexivity|lia].
  - reflexivity.
Defined.

Lemma unrecognised_failure_not_retried_witness :
  inference_handler.invoke_sagemaker_with_retry Demo.denied_env default_config
    "yolov5-blueprint-detector" Demo.payload 3 Demo.empty_world
  = (Raise Demo.access_denied, MkWorld ∅ [] 2 [1%Q] 0 0).
Proof.
  rewrite (unrecognised_failure_not_retried Demo.denied_env default_config
             "yolov5-blueprint-detector" Demo.payload 3 Demo.empty_world 1
             Demo.access_denied).
  - reflexivity.
  - lia.
  - intros i Hi. assert (i = O) as -> by lia. reflexivity.
  - reflexivity.
  - vm_compute. reflexivity.
Defined.

Lemma invoker_returns_None_iff_no_attempt_witness :
  inference_handler.invoke_sagemaker_with_retry Demo.flaky_env default_config
    "yolov5-blueprint-detector" Demo.payload 0 Demo.empty_world
  = (Ok None, Demo.empty_world)
  /\ fst (inference_handler.invoke_sagemaker_with_retry Demo.flaky_env
            default_config "yolov5-blueprint-detector" Demo.payload 3
            Demo.empty_world) <> Ok None.
Proof.
  split.
  - apply (invoker_returns_None_iff_no_attempt Demo.flaky_env default_config
             "yolov5-blueprint-detector" Demo.payload 0 Demo.empty_world).
    lia.
  - apply (invoker_returns_None_iff_no_attempt Demo.flaky_env default_config
             "yolov5-blueprint-detector" Demo.payload 3 Demo.empty_world).
    lia.
Defined.

(** The delays [d * 2^i], [i < k], add up to [d * (2^k - 1)]. *)
Lemma backoff_total (d : Q) (k : nat) :
  (PyNum.sum (map (fun i => d * inject_Z (2 ^ Z.of_nat i)) (seq 0 k))
   == d * (inject_Z (2 ^ Z.of_nat k) - 1))%Q.
Proof.
  unfold PyNum.sum. induction k as [|k IH].
  - cbn [seq map fold_left]. change (inject_Z (2 ^ Z.of_nat 0)) with 1%Q. ring.
  - rewrite seq_S, map_app, fold_left_app. cbn [map fold_left Nat.add].
    rewrite IH.
    rewrite Nat2Z.inj_succ, Z.pow_succ_r by lia.
    rewrite inject_Z_mult. ring.
Qed.

(** X4. When every allowed attempt fails transiently, the invoker has
    slept [max_retries - 1] times when it gives up, for a total of
    [RETRY_DELAY * (2^(max_retries - 1) - 1)]. *)
Theorem exhaustion_total_backoff
    (E : Env) (C : Config) (endpoint_name : string) (payload : Payload.t)
    (max_retries : Z) (w : World) :
  0 < max_retries ->
  (forall i, (i < Z.to_nat max_retries)%nat ->
     transient (attempt_outcome E w endpoint_name payload i) = true) ->
  exists delays,
    sleep_log (snd (inference_handler.invoke_sagemaker_with_retry E C
                      endpoint_name payload max_retries w))
    = (sleep_log w ++ delays)%list
    /\ length delays = (Z.to_nat max_retries - 1)%nat
    /\ (PyNum.sum delays
        == RETRY_DELAY C * (inject_Z (2 ^ (max_retries - 1)) - 1))%Q.
Proof.
  intros Hpos Hfail.
  set (k := (Z.to_nat max_retries - 1)%nat).
  exists (map (fun i => (RETRY_DELAY C * inject_Z (2 ^ Z.of_nat i))%Q) (seq 0 k)).
  split; [|split].
  - unfold inference_handler.invoke_sagemaker_with_retry.
    rewrite (retry_loop_transient E C endpoint_name payload max_retries k);
      [|intros i Hi; apply Hfail; lia|lia|lia].
    replace (Z.to_nat max_retries - k)%nat with 1%nat by lia.
    rewrite retry_loop_S.
    pose proof (Hfail k ltac:(lia)) as Hlast.
    unfold attempt_outcome, transient in Hlast.
    cbn [after_attempts endpoint_calls].
    destruct (invoke_endpoint E (endpoint_calls w + k) endpoint_name payload)
      as [r|e]; [discriminate|].
    apply andb_true_iff in Hlast as [Hnm _].
    apply negb_true_iff in Hnm. rewrite Hnm.
    replace (Z.of_nat (0 + k) <? max_retries - 1) with false
      by (symmetry; apply Z.ltb_ge; lia).
    cbn. by rewrite app_nil_r.
  - by rewrite length_map, length_seq.
  - rewrite backoff_total. replace (Z.of_nat k) with (max_retries - 1) by lia.
    reflexivity.
Qed.

Lemma exhaustion_total_backoff_witness :
  exists delays,
    sleep_log (snd (inference_handler.invoke_sagemaker_with_retry
                      Demo.throttling_env default_config
                      "yolov5-blueprint-detector" Demo.payload 3
                      Demo.empty_world))
    = ([] ++ delays)%list
    /\ length delays = 2%nat
    /\ (PyNum.sum delays == 1 * (inject_Z (2 ^ (3 - 1)) - 1))%Q.
Proof.
  apply (exhaustion_total_backoff Demo.throttling_env default_config
           "yolov5-blueprint-detector" Demo.payload 3 Demo.empty_world).
  - lia.
  - intros i Hi. reflexivity.
Defined.

(* ===================================================================== *)
(** ** More on the coordinator *)
(* ===================================================================== *)

Section MoreWorlds.
Context (E : Env).

Lemma clock_put key doc w : clock (put key doc w) = clock w.
Proof. reflexivity. Qed.

Lemma clock_tick w : clock (tick w) = S (clock w).
Proof. reflexivity. Qed.

Lemma clock_after_attempts w calls delays :
  clock (after_attempts w calls delays) = clock w.
Proof. reflexivity. Qed.

Lemma clock_preprocessed p w : clock (preprocessed E p w) = S (S (clock w)).
Proof. reflexivity. Qed.

Lemma calls_put key doc w : endpoint_calls (put key doc w) = endpoint_calls w.
Proof. reflexivity. Qed.

Lemma calls_tick w : endpoint_calls (tick w) = endpoint_calls w.
Proof. reflexivity. Qed.

Lemma calls_after_attempts w calls delays :
  endpoint_calls (after_attempts w calls delays) = (endpoint_calls w + calls)%nat.
Proof. reflexivity. Qed.

Lemma calls_preprocessed p w :
  endpoint_calls (preprocessed E p w) = endpoint_calls w.
Proof. reflexivity. Qed.

End MoreWorlds.

Ltac counters_simpl :=
  cbn [fst snd];
  repeat first
    [ rewrite clock_put | rewrite clock_tick | rewrite clock_after_attempts
    | rewrite clock_preprocessed | rewrite calls_put | rewrite calls_tick
    | rewrite calls_after_attempts | rewrite calls_preprocessed ].

Section MoreCoordinator.
Context (E : Env) (C : Config).

(** The invocation with its bound on the calls. *)
Lemma invoke_calls_bounded endpoint_name payload max_retries w :
  exists r calls delays,
    (calls <= Z.to_nat max_retries)%nat /\
    forall w', endpoint_calls w' = endpoint_calls w ->
      inference_handler.invoke_sagemaker_with_retry E C endpoint_name payload
        max_retries w'
      = (r, after_attempts w' calls delays).
Proof.
  unfold inference_handler.invoke_sagemaker_with_retry.
  destruct (retry_loop_calls_only E C endpoint_name payload max_retries
              (Z.to_nat max_retries) O w) as (r & calls & delays & Hle & H).
  eauto 10.
Qed.

(** The first two steps, when the request names both identifiers. *)
Lemma resolve_with_ids event blueprint_id session_id w :
  request_field event "blueprintId" = Ok blueprint_id ->
  request_field event "sessionId" = Ok session_id ->
  Py.truthy blueprint_id = true ->
  Py.truthy session_id = true ->
  exists confidence,
    inference_handler.resolve_and_preprocess E C event w =
    match objects w !! inference_handler.metadata_key E session_id blueprint_id with
    | None => (Ok (inl inference_handler.metadata_not_found), w)
    | Some d =>
        match doc_s3Key d with
        | Some s3_key =>
            if negb (String.eqb s3_key "") then
              let p := inference_handler.Prepared blueprint_id session_id
                         (Payload.Make ("s3://" +:+ BUCKET_NAME C +:+ "/" +:+ s3_key)
                                       confidence)
                         (time_time E (clock w)) in
              (Ok (inr p), preprocessed E p w)
            else (Raise (Exn ValueError "S3 key not found in metadata"), w)
        | None => (Raise (Exn ValueError "S3 key not found in metadata"), w)
        end
    end.
Proof.
  unfold request_field. intros Hb Hs Htb Hts.
  rewrite resolve_and_preprocess_eq.
  destruct (json_loads_body event) as [body|e]; [|discriminate].
  destruct body; try discriminate.
  unfold Py.get, Py.get_default in Hb, Hs.
  injection Hb as Hb. injection Hs as Hs. cbv beta zeta.
  rewrite Hb, Hs, Htb, Hts. cbn [andb negb].
  eexists. reflexivity.
Qed.

End MoreCoordinator.

(** X5. A run trigger in which [blueprintId] or [sessionId] is falsy
    (absent, [null], empty, [0], ...) is answered with status 400 and the
    missing-required-fields error; nothing is read from or written to the
    bucket, the endpoint is not called, the world is as it was. *)
Theorem run_without_ids_rejected
    (E : Env) (C : Config) (event : Event.t) (k : string) (v : jvalue)
    (w : World) :
  In k ["blueprintId"; "sessionId"] ->
  request_field event k = Ok v ->
  Py.truthy v = false ->
  inference_handler.lambda_handler E C event w
  = (Ok (respond 400
           (ErrorBody "Missing required fields: blueprintId, sessionId" None)),
     w).
Proof.
  intros Hk Hget Hfalsy.
  rewrite lambda_handler_eq, resolve_and_preprocess_eq.
  unfold request_field in Hget.
  destruct (json_loads_body event) as [body|e]; [|discriminate].
  destruct body; try discriminate.
  unfold Py.get, Py.get_default in Hget. injection Hget as Hget. cbv beta zeta.
  cbn in Hk.
  destruct Hk as [<-|[<-|[]]]; rewrite Hget, Hfalsy;
    rewrite ?andb_false_r; reflexivity.
Qed.

Lemma run_without_ids_rejected_witness :
  inference_handler.lambda_handler Demo.serving_env default_config
    (Event.Make (BodyJson (JObj [("blueprintId", JStr Demo.blueprint_id);
                                 ("sessionId", JStr "")]))
                PathAbsent)
    (Demo.uploaded Demo.serving_env)
  = (Ok (respond 400
           (ErrorBody "Missing required fields: blueprintId, sessionId" None)),
     Demo.uploaded Demo.serving_env).
Proof.
  apply (run_without_ids_rejected Demo.serving_env default_config _
           "sessionId" (JStr "")).
  - cbn. tauto.
  - reflexivity.
  - reflexivity.
Defined.

(** X6. A run trigger that names a job with no Metadata document is
    answered with status 404, "Blueprint metadata not found"; the Status
    document is not touched, nothing is written and the endpoint is not
    called. *)
Theorem run_without_metadata_not_found
    (E : Env) (C : Config) (event : Event.t) (blueprint_id session_id : jvalue)
    (w : World) :
  request_field event "blueprintId" = Ok blueprint_id ->
  request_field event "sessionId" = Ok session_id ->
  Py.truthy blueprint_id = true ->
  Py.truthy session_id = true ->
  objects w !! inference_handler.metadata_key E session_id blueprint_id = None ->
  inference_handler.lambda_handler E C event w
  = (Ok (respond 404 (ErrorBody "Blueprint metadata not found" None)), w).
Proof.
  intros Hb Hs Htb Hts Hnone.
  destruct (resolve_with_ids E C event _ _ w Hb Hs Htb Hts) as [c Hres].
  rewrite lambda_handler_eq, Hres, Hnone. reflexivity.
Qed.

Lemma run_without_metadata_not_found_witness :
  inference_handler.lambda_handler Demo.serving_env default_config
    Demo.run_request Demo.empty_world
  = (Ok (respond 404 (ErrorBody "Blueprint metadata not found" None)),
     Demo.empty_world).
Proof.
  apply (run_without_metadata_not_found Demo.serving_env default_config
           Demo.run_request (JStr Demo.blueprint_id) (JStr "s1")).
  - reflexivity.
  - reflexivity.
  - reflexivity.
  - reflexivity.
  - vm_compute. reflexivity.
Defined.

Section MoreRuns.
Context (E : Env) (C : Config).

Lemma invoke_no_attempt endpoint_name payload max_retries w :
  max_retries <= 0 ->
  inference_handler.invoke_sagemaker_with_retry E C endpoint_name payload
    max_retries w = (Ok None, w).
Proof.
  intros Hle. unfold inference_handler.invoke_sagemaker_with_retry.
  replace (Z.to_nat max_retries) with O by lia. reflexivity.
Qed.

End MoreRuns.

(** X7. With [MAX_RETRIES <= 0] a run that gets past steps 1-2 calls the
    endpoint not once: the invoker hands back [None], the coordinator
    still writes the [postprocess] status and then fails on
    [result.get].  The answer is 500, "Failed to invoke SageMaker
    endpoint", with the message of the AttributeError, and the Status
    documents written carry the progress values 25, 50, 75, 0. *)
Theorem run_with_no_attempt_allowed
    (E : Env) (C : Config) (event : Event.t) (w w1 : World)
    (p : inference_handler.prepared) :
  inference_handler.resolve_and_preprocess E C event w = (Ok (inr p), w1) ->
  MAX_RETRIES C <= 0 ->
  let run := inference_handler.lambda_handler E C event w in
  fst run
  = Ok (respond 500
          (ErrorBody "Failed to invoke SageMaker endpoint"
                     (Some "'NoneType' object has no attribute 'get'")))
  /\ endpoint_calls (snd run) = endpoint_calls w
  /\ status_writes (written_since w (snd run))
     = map (fun progress =>
              (inference_handler.status_key E (inference_handler.p_session_id p)
                                            (inference_handler.p_blueprint_id p),
               progress))
           [25; 50; 75; 0].
Proof.
  intros Hresolve Hmax. cbv zeta.
  destruct (resolve_and_preprocess_ids E C _ _ _ _ Hresolve)
    as (_ & _ & _ & _ & ->).
  rewrite lambda_handler_eq, Hresolve, infer_and_persist_eq. cbv zeta.
  rewrite (invoke_no_attempt E C _ _ _ _ Hmax).
  split; [reflexivity|]. split.
  - counters_simpl. reflexivity.
  - unfold written_since. world_simpl.
    rewrite <- !app_assoc, drop_app_length. reflexivity.
Qed.

Lemma run_with_no_attempt_allowed_witness :
  fst (inference_handler.lambda_handler Demo.serving_env Demo.no_attempt_config
         Demo.run_request (Demo.uploaded Demo.serving_env))
  = Ok (respond 500
          (ErrorBody "Failed to invoke SageMaker endpoint"
                     (Some "'NoneType' object has no attribute 'get'"))).
Proof.
  destruct (run_with_no_attempt_allowed Demo.serving_env Demo.no_attempt_config
              Demo.run_request (Demo.uploaded Demo.serving_env)
              (snd (inference_handler.resolve_and_preprocess Demo.serving_env
                      Demo.no_attempt_config Demo.run_request
                      (Demo.uploaded Demo.serving_env)))
              (inference_handler.Prepared
                 (JStr Demo.blueprint_id) (JStr "s1") Demo.payload 2%Q))
    as (H & _).
  - vm_compute. reflexivity.
  - cbn. lia.
  - exact H.
Defined.

(** X8. The request the coordinator sends to the endpoint: the artifact is
    named by [s3://BUCKET_NAME/] followed by the [s3Key] of the job's
    Metadata document, and the confidence threshold is the value of the
    request as it came, whatever it is ([null], a string, a number outside
    [0, 1]); it is 0.5 only when the request has no [confidence] key. *)
Theorem payload_carries_request_confidence
    (E : Env) (C : Config) (event : Event.t) (w w1 : World)
    (p : inference_handler.prepared) :
  inference_handler.resolve_and_preprocess E C event w = (Ok (inr p), w1) ->
  exists fields d s3_key,
    json_loads_body event = Ok (JObj fields)
    /\ objects w !! inference_handler.metadata_key E
                      (inference_handler.p_session_id p)
                      (inference_handler.p_blueprint_id p) = Some d
    /\ doc_s3Key d = Some s3_key
    /\ inference_handler.p_payload p
       = Payload.Make ("s3://" +:+ BUCKET_NAME C +:+ "/" +:+ s3_key)
                      (match Py.assoc "confidence" fields with
                       | Some v => v
                       | None => JFloat (1 # 2)
                       end).
Proof.
  rewrite resolve_and_preprocess_eq.
  destruct (json_loads_body event) as [body|e]; [|discriminate].
  destruct body; try discriminate. cbv beta zeta.
  destruct (negb (Py.truthy _ && Py.truthy _)); [discriminate|].
  destruct (objects w !! _) as [d|] eqn:Hd; [|discriminate].
  destruct (doc_s3Key d) as [k|] eqn:Hk; [|discriminate].
  destruct (negb (String.eqb k "")); [|discriminate].
  intros [= <- _]. cbn.
  exists fields, d, k. auto.
Qed.

Lemma payload_carries_request_confidence_witness :
  exists fields d s3_key,
    json_loads_body Demo.run_request = Ok (JObj fields)
    /\ objects (Demo.uploaded Demo.serving_env)
         !! inference_handler.metadata_key Demo.serving_env
              (JStr "s1") (JStr Demo.blueprint_id) = Some d
    /\ doc_s3Key d = Some s3_key
    /\ Demo.payload
       = Payload.Make ("s3://" +:+ BUCKET_NAME default_config +:+ "/" +:+ s3_key)
                      (match Py.assoc "confidence" fields with
                       | Some v => v
                       | None => JFloat (1 # 2)
                       end).
Proof.
  apply (payload_carries_request_confidence Demo.serving_env default_config
           Demo.run_request (Demo.uploaded Demo.serving_env)
           (snd (inference_handler.resolve_and_preprocess Demo.serving_env
                   default_config Demo.run_request
                   (Demo.uploaded Demo.serving_env)))
           (inference_handler.Prepared
              (JStr Demo.blueprint_id) (JStr "s1") Demo.payload 2%Q)).
  vm_compute. reflexivity.
Defined.

(** X9. A run calls the endpoint at most [MAX_RETRIES] times, whatever the
    request and whatever the endpoint does. *)
Theorem run_calls_bounded
    (E : Env) (C : Config) (event : Event.t) (w : World) :
  let w' := snd (inference_handler.lambda_handler E C event w) in
  (endpoint_calls w <= endpoint_calls w')%nat
  /\ (endpoint_calls w' <= endpoint_calls w + Z.to_nat (MAX_RETRIES C))%nat.
Proof.
  cbv zeta. rewrite lambda_handler_eq.
  destruct (resolve_and_preprocess_cases E C event w)
    as [[r Hres]|[[e Hres]|[p Hres]]]; rewrite Hres; cbn [fst snd]; [lia|lia|].
  rewrite infer_and_persist_eq. cbv zeta.
  match goal with
  | |- context [inference_handler.invoke_sagemaker_with_retry E C ?ep ?pl ?m ?w1] =>
      destruct (invoke_calls_bounded E C ep pl m w1)
        as (r & calls & delays & Hle & Hinv);
      rewrite (Hinv w1 eq_refl)
  end.
  destruct r as [[res|]|e]; [| |destruct (is_ModelError e)];
    counters_simpl; lia.
Qed.

(** X10. The coordinator reads nothing of the bucket but the Metadata
    document: in two worlds that agree on the Metadata documents, on the
    clock and on the calls made so far, the same trigger gets the same
    answer.  A Status or Results document already there (a job that has
    completed or failed before) changes nothing to the run. *)
Theorem run_reads_only_metadata
    (E : Env) (C : Config) (event : Event.t) (w w' : World) :
  (forall session_id blueprint_id,
     objects w !! inference_handler.metadata_key E session_id blueprint_id
     = objects w' !! inference_handler.metadata_key E session_id blueprint_id) ->
  clock w = clock w' ->
  endpoint_calls w = endpoint_calls w' ->
  fst (inference_handler.lambda_handler E C event w)
  = fst (inference_handler.lambda_handler E C event w').
Proof.
  intros Hmeta Hclock Hcalls.
  rewrite !lambda_handler_eq, !resolve_and_preprocess_eq.
  destruct (json_loads_body event) as [body|e]; [|reflexivity].
  destruct body; try reflexivity. cbv beta zeta.
  destruct (negb (Py.truthy _ && Py.truthy _)); [reflexivity|].
  rewrite <- Hmeta, <- Hclock.
  destruct (objects w !! _) as [d|]; [|reflexivity].
  destruct (doc_s3Key d) as [k|]; [|reflexivity].
  destruct (negb (String.eqb k "")); [|reflexivity].
  rewrite !infer_and_persist_eq. cbv zeta.
  match goal with
  | |- context [inference_handler.invoke_sagemaker_with_retry E C ?ep ?pl ?m
                  (put ?k1 ?d1 (tick (preprocessed E ?p w)))] =>
      destruct (invoke_calls_only E C ep pl m
                  (put k1 d1 (tick (preprocessed E p w))))
        as (r & calls & delays & Hinv);
      rewrite (Hinv _ eq_refl);
      rewrite (Hinv (put k1 (DocStatus (inference_handler.status_inference
                                          (inference_handler.p_blueprint_id p)
                                          (stamp E (preprocessed E p w'))))
                         (tick (preprocessed E p w'))))
        by (counters_simpl; congruence)
  end.
  destruct r as [[res|]|e]; [| |destruct (is_ModelError e)];
    cbn [fst snd]; try reflexivity.
  unfold stamp. counters_simpl. rewrite Hclock. reflexivity.
Qed.

Lemma run_reads_only_metadata_witness :
  fst (inference_handler.lambda_handler Demo.serving_env default_config
         Demo.run_request (Demo.uploaded Demo.serving_env))
  = fst (inference_handler.lambda_handler Demo.serving_env default_config
           Demo.run_request
           (MkWorld (objects Demo.completed) [] 0 [] 2 0)).
Proof.
  apply (run_reads_only_metadata Demo.serving_env default_config
           Demo.run_request (Demo.uploaded Demo.serving_env)
           (MkWorld (objects Demo.completed) [] 0 [] 2 0)).
  - intros session_id blueprint_id.
    pose proof (metadata_key_is_metadata Demo.serving_env session_id blueprint_id)
      as Hkey.
    revert Hkey.
    generalize (inference_handler.metadata_key Demo.serving_env session_id
                  blueprint_id).
    intros key Hkey. cbn [objects]. symmetry.
    unfold Demo.completed.
    rewrite lambda_handler_eq.
    destruct (resolve_and_preprocess_cases Demo.serving_env default_config
                Demo.run_request (Demo.uploaded Demo.serving_env))
      as [[r Hres]|[[e Hres]|[p Hres]]]; rewrite Hres; cbn [fst snd];
      [reflexivity|reflexivity|].
    rewrite infer_and_persist_eq. cbv zeta.
    match goal with
    | |- context [inference_handler.invoke_sagemaker_with_retry ?E ?C ?ep ?pl ?m ?w1] =>
        destruct (invoke_calls_only E C ep pl m w1)
          as (r & calls & delays & Hinv);
        rewrite (Hinv w1 eq_refl)
    end.
    destruct r as [[res|]|e]; [| |destruct (is_ModelError e)];
      world_simpl;
      rewrite !lookup_insert_ne;
        eauto using endswith_ne, status_key_not_metadata,
                    results_key_not_metadata.
  - vm_compute. reflexivity.
  - vm_compute. reflexivity.
Defined.



(* ===================================================================== *)
(** ** The statistics of the Results document *)
(* ===================================================================== *)

Lemma counted_cons c k n rest :
  counted ((k, n) :: rest) c = if String.eqb c k then n else counted rest c.
Proof. unfold counted. cbn. by destruct (String.eqb c k). Qed.

Lemma count_class_keys k counts c :
  In c (map fst (inference_handler.count_class k counts))
  <-> c = k \/ In c (map fst counts).
Proof.
  induction counts as [|[k' n] rest IH]; cbn.
  - intuition.
  - destruct (String.eqb_spec k k') as [->|Hne]; cbn.
    + intuition.
    + rewrite IH. intuition.
Qed.

Lemma count_class_NoDup k counts :
  NoDup (map fst counts) ->
  NoDup (map fst (inference_handler.count_class k counts)).
Proof.
  induction counts as [|[k' n] rest IH]; cbn; intros Hnd.
  - repeat constructor. apply not_elem_of_nil.
  - apply NoDup_cons in Hnd as [Hnotin Hnd].
    destruct (String.eqb_spec k k') as [->|Hne]; cbn.
    + apply NoDup_cons. auto.
    + apply NoDup_cons. split; [|auto].
      rewrite list_elem_of_In, count_class_keys.
      rewrite list_elem_of_In in Hnotin. intros [->|Hin]; auto.
Qed.

Lemma count_class_counted k counts c :
  counted (inference_handler.count_class k counts) c
  = counted counts c + (if String.eqb c k then 1 else 0).
Proof.
  induction counts as [|[k' n] rest IH]; cbn [inference_handler.count_class].
  - rewrite counted_cons. unfold counted. cbn.
    destruct (String.eqb c k); reflexivity.
  - destruct (String.eqb_spec k k') as [->|Hne].
    + rewrite !counted_cons. destruct (String.eqb c k'); lia.
    + rewrite !counted_cons, IH.
      destruct (String.eqb_spec c k') as [->|Hne'].
      * destruct (String.eqb_spec k' k); [congruence|lia].
      * reflexivity.
Qed.

Lemma count_class_total k counts :
  total_counted (inference_handler.count_class k counts)
  = total_counted counts + 1.
Proof.
  unfold total_counted.
  induction counts as [|[k' n] rest IH]; cbn; [reflexivity|].
  destruct (String.eqb k k'); cbn; lia.
Qed.

Lemma count_class_positive k counts :
  Forall (fun kn => 0 < snd kn) counts ->
  Forall (fun kn => 0 < snd kn) (inference_handler.count_class k counts).
Proof.
  induction counts as [|[k' n] rest IH]; cbn; intros Hpos.
  - repeat constructor.
  - apply List.Forall_cons_iff in Hpos as [Hn Hrest]. cbn in Hn.
    destruct (String.eqb k k'); constructor; cbn; auto; lia.
Qed.

(** The loop over the detections, from any dict of counts. *)
Lemma class_counts_fold detections : forall counts,
  NoDup (map fst counts) ->
  Forall (fun kn => 0 < snd kn) counts ->
  let counts' :=
    fold_left (fun counts d =>
                 inference_handler.count_class (inference_handler.element_class d)
                                               counts)
              detections counts in
  NoDup (map fst counts')
  /\ Forall (fun kn => 0 < snd kn) counts'
  /\ total_counted counts' = total_counted counts + Z.of_nat (length detections)
  /\ forall c,
       counted counts' c
       = counted counts c
         + Z.of_nat (count_occ string_dec
                       (map inference_handler.element_class detections) c).
Proof.
  induction detections as [|d ds IH]; intros counts Hnd Hpos; cbn [fold_left].
  - cbn. repeat split; auto; intros; lia.
  - destruct (IH (inference_handler.count_class
                    (inference_handler.element_class d) counts))
      as (Hnd' & Hpos' & Htot & Hcount);
      [by apply count_class_NoDup | by apply count_class_positive |].
    cbv zeta. repeat split; auto.
    + rewrite Htot, count_class_total. cbn [length]. lia.
    + intros c. rewrite Hcount, count_class_counted. cbn [map count_occ].
      destruct (string_dec (inference_handler.element_class d) c) as [->|Hne].
      * rewrite String.eqb_refl. lia.
      * destruct (String.eqb_spec c (inference_handler.element_class d));
          [congruence|lia].
Qed.

(** X12. The per-class counts of the coordinator: each label occurs once
    among the keys, with the number of detections that carry it (a
    detection without [class] counts under ["unknown"]); no key has a zero
    count; and the counts add up to the number of detections. *)
Theorem element_counts_count_classes (detections : list Detection.t) :
  let counts := inference_handler.class_counts_of detections in
  NoDup (map fst counts)
  /\ Forall (fun kn => 0 < snd kn) counts
  /\ total_counted counts = Z.of_nat (length detections)
  /\ forall c,
       counted counts c
       = Z.of_nat (count_occ string_dec
                     (map inference_handler.element_class detections) c).
Proof.
  cbv zeta. unfold inference_handler.class_counts_of.
  destruct (class_counts_fold detections []) as (Hnd & Hpos & Htot & Hcount).
  - constructor.
  - constructor.
  - repeat split; auto.
Qed.

(** X13. The Results document of a successful run is consistent:
    [totalDetections] is the number of its detections, the values of
    [elementCounts] add up to it, the processing steps are the fixed three,
    and the document stored is the one returned to the caller. *)
Theorem results_statistics_consistent
    (E : Env) (C : Config) (event : Event.t) (w w' : World) (r : Response.t) :
  inference_handler.lambda_handler E C event w = (Ok r, w') ->
  Response.statusCode r = 200 ->
  exists blueprint_id session_id results,
    Response.body r = InferenceBody "Inference completed successfully"
                                    blueprint_id results
    /\ objects w' !! inference_handler.results_key E session_id blueprint_id
       = Some (DocResults results)
    /\ Results.blueprintId results = blueprint_id
    /\ Results.modelVersion results = MODEL_VERSION C
    /\ Statistics.totalDetections (Results.statistics results)
       = Z.of_nat (length (Results.detections results))
    /\ total_counted (Statistics.elementCounts (Results.statistics results))
       = Statistics.totalDetections (Results.statistics results)
    /\ Statistics.processingSteps (Results.statistics results)
       = ["upload"; "inference"; "postprocess"].
Proof.
  intros Hrun Hcode.
  destruct (run_success E C event w r w' Hrun Hcode)
    as (b & s & t1 & t2 & t3 & t4 & results & _ & _ & -> & Hfrom & _ & Hstored & _).
  destruct Hfrom as (result & n & payload & pt & dt & _ & ->).
  exists b, s, (inference_handler.format_results C b pt dt result).
  split; [reflexivity|]. split; [exact Hstored|].
  unfold inference_handler.format_results. cbn.
  repeat split.
  destruct (class_counts_fold
              (inference_handler.or_default (InferenceResult.detections result) [])
              []) as (_ & _ & Htot & _); [constructor|constructor|].
  exact Htot.
Qed.

Lemma results_statistics_consistent_witness :
  exists blueprint_id session_id results,
    Response.body
      (Demo.response_of
         (inference_handler.lambda_handler Demo.serving_env default_config
            Demo.run_request (Demo.uploaded Demo.serving_env)))
    = InferenceBody "Inference completed successfully" blueprint_id results
    /\ objects Demo.completed
         !! inference_handler.results_key Demo.serving_env session_id blueprint_id
       = Some (DocResults results)
    /\ Results.blueprintId results = blueprint_id
    /\ Results.modelVersion results = MODEL_VERSION default_config
    /\ Statistics.totalDetections (Results.statistics results)
       = Z.of_nat (length (Results.detections results))
    /\ total_counted (Statistics.elementCounts (Results.statistics results))
       = Statistics.totalDetections (Results.statistics results)
    /\ Statistics.processingSteps (Results.statistics results)
       = ["upload"; "inference"; "postprocess"].
Proof.
  apply (results_statistics_consistent Demo.serving_env default_config
           Demo.run_request (Demo.uploaded Demo.serving_env) Demo.completed
           (Demo.response_of
              (inference_handler.lambda_handler Demo.serving_env default_config
                 Demo.run_request (Demo.uploaded Demo.serving_env)))).
  - vm_compute. reflexivity.
  - vm_compute. reflexivity.
Defined.

(* ===================================================================== *)
(** ** More on strings *)
(* ===================================================================== *)

Lemma append_cons x (a b : string) : String x a +:+ b = String x (a +:+ b).
Proof. reflexivity. Qed.

Lemma append_assoc (a b c : string) : (a +:+ b) +:+ c = a +:+ (b +:+ c).
Proof.
  induction a as [|x a IH]; [reflexivity|].
  rewrite !append_cons. by rewrite IH.
Qed.

Lemma prefix_append (s t : string) : String.prefix s (s +:+ t) = true.
Proof.
  induction s as [|x s IH]; [by destruct t|].
  rewrite append_cons. cbn [String.prefix].
  destruct (Ascii.ascii_dec x x); [exact IH|congruence].
Qed.

Lemma contains_unfold needle hay :
  PyStr.contains needle hay
  = String.prefix needle hay
    || match hay with
       | EmptyString => false
       | String _ rest => PyStr.contains needle rest
       end.
Proof. destruct hay; reflexivity. Qed.

Lemma contains_here needle post : PyStr.contains needle (needle +:+ post) = true.
Proof. by rewrite contains_unfold, prefix_append. Qed.

Lemma contains_append_r needle pre rest :
  PyStr.contains needle rest = true ->
  PyStr.contains needle (pre +:+ rest) = true.
Proof.
  intros H. induction pre as [|x pre IH]; [exact H|].
  rewrite append_cons, contains_unfold, IH. apply orb_true_r.
Qed.

(** [needle in pre + needle + post] *)
Lemma contains_middle needle pre post :
  PyStr.contains needle (pre +:+ needle +:+ post) = true.
Proof. apply contains_append_r, contains_here. Qed.

Lemma append_empty_r (s : string) : s +:+ "" = s.
Proof. induction s as [|x s IH]; [reflexivity|]. by rewrite append_cons, IH. Qed.

Lemma rev_app_spec (a : string) : forall b,
  String.rev_app a b = String.rev_app a "" +:+ b.
Proof.
  induction a as [|x a IH]; intros b; cbn [String.rev_app]; [reflexivity|].
  rewrite (IH (String x b)), (IH (String x "")), append_assoc. reflexivity.
Qed.

(** A string without the separator is its own last component. *)
Lemma split_last_aux_without sep s : forall acc,
  PyStr.contains (String sep "") s = false ->
  PyStr.split_last_aux sep s acc = String.rev acc +:+ s.
Proof.
  induction s as [|c s IH]; intros acc Hno; cbn [PyStr.split_last_aux].
  - by rewrite append_empty_r.
  - rewrite contains_unfold in Hno. apply orb_false_iff in Hno as [Hhead Hrest].
    cbn [String.prefix] in Hhead.
    destruct (Ascii.eqb_spec c sep) as [->|Hne].
    + destruct (Ascii.ascii_dec sep sep); [|congruence].
      by destruct s.
    + rewrite IH by exact Hrest.
      unfold String.rev. cbn [String.rev_app].
      rewrite (rev_app_spec acc (String c "")), append_assoc. reflexivity.
Qed.

(** What precedes the last separator is dropped. *)
Lemma split_last_aux_after sep a b : forall acc,
  PyStr.split_last_aux sep (a +:+ String sep b) acc
  = PyStr.split_last_aux sep b "".
Proof.
  induction a as [|c a IH]; intros acc.
  - change ("" +:+ String sep b) with (String sep b).
    cbn [PyStr.split_last_aux]. by rewrite Ascii.eqb_refl.
  - rewrite append_cons. cbn [PyStr.split_last_aux].
    destruct (Ascii.eqb c sep); apply IH.
Qed.

(** X14. The extension intake derives from a file name,
    [file_name.split('.')[-1]]: what follows the last dot; and the whole
    name when it has no dot, so that [README] is stored as
    [original.README]; and the empty string when the name ends with a
    dot. *)
Theorem file_extension_is_last_component (stem rest : string) :
  PyStr.contains "." rest = false ->
  Py.split_dot_last (JStr (stem +:+ "." +:+ rest)) = Ok rest
  /\ Py.split_dot_last (JStr rest) = Ok rest
  /\ Py.split_dot_last (JStr (stem +:+ ".")) = Ok "".
Proof.
  intros Hno. unfold Py.split_dot_last, PyStr.split_last.
  repeat split; f_equal.
  - change (stem +:+ "." +:+ rest) with (stem +:+ String "."%char rest).
    rewrite split_last_aux_after. by rewrite split_last_aux_without.
  - by rewrite split_last_aux_without.
  - change (stem +:+ ".") with (stem +:+ String "."%char "").
    rewrite split_last_aux_after. reflexivity.
Qed.

Lemma file_extension_is_last_component_witness :
  Py.split_dot_last (JStr "floor.plan.v2.png") = Ok "png"
  /\ Py.split_dot_last (JStr "png") = Ok "png"
  /\ Py.split_dot_last (JStr "floor.plan.v2.") = Ok "".
Proof.
  apply (file_extension_is_last_component "floor.plan.v2" "png").
  reflexivity.
Defined.

(* ===================================================================== *)
(** ** More on intake *)
(* ===================================================================== *)

Lemma request_field_inv event k v :
  request_field event k = Ok v ->
  exists fields,
    json_loads_body event = Ok (JObj fields)
    /\ match Py.assoc k fields with Some v' => v' | None => JNull end = v.
Proof.
  unfold request_field.
  destruct (json_loads_body event) as [body|e]; [|discriminate].
  destruct body; try discriminate.
  unfold Py.get, Py.get_default. intros [= H]. eauto.
Qed.

Lemma request_field_assoc event fields k v :
  json_loads_body event = Ok (JObj fields) ->
  request_field event k = Ok v ->
  match Py.assoc k fields with Some v' => v' | None => JNull end = v.
Proof.
  intros Hbody Hk. destruct (request_field_inv _ _ _ Hk) as (f & Hf & Hv).
  rewrite Hbody in Hf. injection Hf as <-. exact Hv.
Qed.

Section MoreIntake.
Context (E : Env) (C : Config).

Lemma objects_drawn w : objects (drawn w) = objects w.
Proof. reflexivity. Qed.

Lemma put_log_drawn w : put_log (drawn w) = put_log w.
Proof. reflexivity. Qed.

(** Intake, case by case, on a request whose body is an object. *)
Lemma upload_handler_eq event fields w :
  json_loads_body event = Ok (JObj fields) ->
  let field k := match Py.assoc k fields with Some v => v | None => JNull end in
  let failed e :=
    respond 500 (ErrorBody (if is_ClientError e
                            then "Failed to generate upload URL"
                            else "Internal server error")
                           (Some (exn_msg e))) in
  upload_handler.lambda_handler E C event w =
  if negb (Py.truthy (field "fileName") && Py.truthy (field "fileType")
           && Py.truthy (field "fileSize") && Py.truthy (field "sessionId"))
  then (Ok upload_handler.missing_fields, w)
  else if Py.not_in (field "fileType") upload_handler.allowed_types
  then (Ok upload_handler.invalid_file_type, w)
  else
    match Py.gt_int (field "fileSize") upload_handler.max_size with
    | Raise e => (Ok (failed e), w)
    | Ok true => (Ok upload_handler.file_too_large, w)
    | Ok false =>
        match Py.split_dot_last (field "fileName") with
        | Raise e => (Ok (failed e), drawn w)
        | Ok file_extension =>
            let blueprint_id :=
              "blueprint-" +:+ PyStr.take 12 (uuid4_hex E (uuids w)) in
            let s3_key := "uploads/" +:+ py_str E (field "sessionId") +:+ "/"
                            +:+ blueprint_id +:+ "/original." +:+ file_extension in
            let metadata :=
              Metadata.Make blueprint_id (field "sessionId") (field "fileName")
                            (stamp E (drawn w)) (field "fileSize")
                            file_extension (Some s3_key) in
            let w2 := put (inference_handler.metadata_key E (field "sessionId")
                                                          (JStr blueprint_id))
                          (DocMetadata metadata) (tick (drawn w)) in
            (Ok (respond 200
                   (UploadBody blueprint_id
                      (generate_presigned_url E (BUCKET_NAME C) s3_key
                                              (field "fileType") 300)
                      s3_key "Presigned URL generated successfully")),
             put (inference_handler.status_key E (field "sessionId")
                                               (JStr blueprint_id))
                 (DocStatus (upload_handler.status_upload blueprint_id
                                                          (stamp E w2)))
                 (tick w2))
        end
    end.
Proof.
  intros Hbody. cbv beta zeta.
  unfold upload_handler.lambda_handler, try_except, bind, lift.
  rewrite Hbody. unfold Py.get, Py.get_default.
  destruct (negb _); [reflexivity|].
  destruct (Py.not_in _ _); [reflexivity|].
  destruct (Py.gt_int _ _) as [[|]|e];
    [reflexivity| |by destruct (is_ClientError e)].
  unfold uuid4. fold (drawn w).
  destruct (Py.split_dot_last _) as [ext|e];
    [|by destruct (is_ClientError e)].
  reflexivity.
Qed.

(** What a successful intake has stored. *)
Lemma upload_success_stored event w r w' :
  upload_handler.lambda_handler E C event w = (Ok r, w') ->
  Response.statusCode r = 200 ->
  exists session_id blueprint_id url s3_key metadata updated_at,
    request_field event "sessionId" = Ok session_id
    /\ Py.truthy session_id = true
    /\ blueprint_id = "blueprint-" +:+ PyStr.take 12 (uuid4_hex E (uuids w))
    /\ r = respond 200 (UploadBody blueprint_id url s3_key
                                   "Presigned URL generated successfully")
    /\ objects w' =
         <[inference_handler.status_key E session_id (JStr blueprint_id) :=
             DocStatus (upload_handler.status_upload blueprint_id updated_at)]>
           (<[inference_handler.metadata_key E session_id (JStr blueprint_id) :=
                DocMetadata metadata]> (objects w))
    /\ Metadata.s3Key metadata = Some s3_key
    /\ String.eqb s3_key "" = false.
Proof.
  intros Hrun Hcode.
  destruct (json_loads_body event) as [body|e] eqn:Hbody.
  2:{ revert Hrun.
      unfold upload_handler.lambda_handler, try_except, bind, lift.
      rewrite Hbody. cbn. destruct (is_ClientError e); cbn;
        intros [= <- <-]; discriminate. }
  destruct body as [| | | | | |fields].
  1-6: revert Hrun;
       unfold upload_handler.lambda_handler, try_except, bind, lift;
       rewrite Hbody; cbn; intros [= <- <-]; discriminate.
  rewrite (upload_handler_eq event fields w Hbody) in Hrun.
  cbv beta zeta in Hrun.
  destruct (Py.truthy _ && Py.truthy _ && Py.truthy _ && Py.truthy _) eqn:Hall;
    cbn [negb] in Hrun; [|injection Hrun as <- <-; discriminate].
  destruct (Py.not_in _ _); [injection Hrun as <- <-; discriminate|].
  destruct (Py.gt_int _ _) as [[|]|e];
    [injection Hrun as <- <-; discriminate| |
     injection Hrun as <- <-; by destruct (is_ClientError e)].
  destruct (Py.split_dot_last _) as [ext|e];
    [|injection Hrun as <- <-; by destruct (is_ClientError e)].
  injection Hrun as <- <-.
  apply andb_true_iff in Hall as [_ Hsession].
  do 6 eexists.
  split; [by apply request_field_JObj|].
  split; [exact Hsession|].
  split; [reflexivity|].
  split; [reflexivity|].
  split; [reflexivity|].
  split; [reflexivity|].
  reflexivity.
Qed.

End MoreIntake.

(** X15. Intake accepts a request that passes the three checks: a
    non-empty file name, an allowed type, a non-zero integer size of at
    most 10 * 1024 * 1024 (the cap itself is accepted; so is a negative
    size) and a truthy session.  It answers 200 with the identifier
    [blueprint-] followed by the first 12 characters of the uuid, the
    signed URL (valid 300 seconds) and the key
    [uploads/<session>/<id>/original.<extension>]; it writes exactly two
    documents, the Metadata (which records that key) and the Status
    [processing], stage [upload], progress 10; and it changes no other
    key. *)
Theorem intake_accepts_valid_request
    (E : Env) (C : Config) (event : Event.t) (w : World)
    (file_name file_type : string) (file_size : Z) (session_id : jvalue) :
  request_field event "fileName" = Ok (JStr file_name) ->
  file_name <> "" ->
  request_field event "fileType" = Ok (JStr file_type) ->
  In file_type ["image/png"; "image/jpeg"; "image/jpg"; "application/pdf"] ->
  request_field event "fileSize" = Ok (JInt file_size) ->
  file_size <> 0 ->
  file_size <= 10 * 1024 * 1024 ->
  request_field event "sessionId" = Ok session_id ->
  Py.truthy session_id = true ->
  let blueprint_id := "blueprint-" +:+ PyStr.take 12 (uuid4_hex E (uuids w)) in
  let extension := PyStr.split_last "." file_name in
  let s3_key := "uploads/" +:+ py_str E session_id +:+ "/" +:+ blueprint_id
                  +:+ "/original." +:+ extension in
  let metadata_key :=
    inference_handler.metadata_key E session_id (JStr blueprint_id) in
  let status_key :=
    inference_handler.status_key E session_id (JStr blueprint_id) in
  let run := upload_handler.lambda_handler E C event w in
  exists uploaded_at updated_at,
    fst run
    = Ok (respond 200
            (UploadBody blueprint_id
               (generate_presigned_url E (BUCKET_NAME C) s3_key (JStr file_type) 300)
               s3_key "Presigned URL generated successfully"))
    /\ written_since w (snd run)
       = [ (metadata_key,
            DocMetadata (Metadata.Make blueprint_id session_id (JStr file_name)
                                       uploaded_at (JInt file_size) extension
                                       (Some s3_key)));
           (status_key,
            DocStatus (Status.Make (JStr blueprint_id) "processing" "upload" 10 20
                                   "Blueprint uploaded, preparing for processing..."
                                   (Some updated_at))) ]
    /\ (forall key, key <> metadata_key -> key <> status_key ->
                    objects (snd run) !! key = objects w !! key).
Proof.
  intros Hname Hne Htype Hallowed Hsize Hnz Hcap Hsession Htruthy.
  destruct (request_field_inv _ _ _ Hname) as (fields & Hbody & Hn).
  pose proof (request_field_assoc _ _ _ _ Hbody Htype) as Ht.
  pose proof (request_field_assoc _ _ _ _ Hbody Hsize) as Hs.
  pose proof (request_field_assoc _ _ _ _ Hbody Hsession) as Hi.
  cbv zeta.
  rewrite (upload_handler_eq E C event fields w Hbody). cbv beta zeta.
  rewrite Hn, Ht, Hs, Hi, Htruthy.
  assert (Py.truthy (JStr file_name) = true) as ->.
  { cbn. by destruct (String.eqb_spec file_name ""). }
  assert (Py.truthy (JInt file_size) = true) as ->.
  { cbn. by destruct (Z.eqb_spec file_size 0). }
  assert (Py.truthy (JStr file_type) = true
          /\ Py.not_in (JStr file_type) upload_handler.allowed_types = false)
    as [-> ->].
  { cbn in Hallowed.
    destruct Hallowed as [<-|[<-|[<-|[<-|[]]]]]; split; reflexivity. }
  cbn [andb negb Py.gt_int].
  replace (upload_handler.max_size <? file_size) with false
    by (symmetry; apply Z.ltb_ge; unfold upload_handler.max_size; lia).
  cbn [Py.split_dot_last].
  do 2 eexists. split; [reflexivity|]. split.
  - unfold written_since. world_simpl. rewrite put_log_drawn.
    rewrite <- !app_assoc, drop_app_length. reflexivity.
  - intros key Hm Hs'. world_simpl. rewrite objects_drawn.
    by rewrite !lookup_insert_ne.
Qed.

Lemma intake_accepts_valid_request_witness :
  exists uploaded_at updated_at,
    fst (upload_handler.lambda_handler Demo.serving_env default_config
           (Demo.upload_request (JInt (10 * 1024 * 1024))) Demo.empty_world)
    = Ok (respond 200
            (UploadBody "blueprint-0123456789ab"
               "https://innergy-blueprints-dev/uploads/s1/blueprint-0123456789ab/original.png"
               "uploads/s1/blueprint-0123456789ab/original.png"
               "Presigned URL generated successfully"))
    /\ written_since Demo.empty_world
         (snd (upload_handler.lambda_handler Demo.serving_env default_config
                 (Demo.upload_request (JInt (10 * 1024 * 1024)))
                 Demo.empty_world))
       = [ ("uploads/s1/blueprint-0123456789ab/metadata.json",
            DocMetadata (Metadata.Make "blueprint-0123456789ab" (JStr "s1")
                           (JStr "plan.png") uploaded_at
                           (JInt (10 * 1024 * 1024)) "png"
                           (Some "uploads/s1/blueprint-0123456789ab/original.png")));
           ("uploads/s1/blueprint-0123456789ab/status.json",
            DocStatus (Status.Make (JStr "blueprint-0123456789ab") "processing"
                         "upload" 10 20
                         "Blueprint uploaded, preparing for processing..."
                         (Some updated_at))) ].
Proof.
  destruct (intake_accepts_valid_request Demo.serving_env default_config
              (Demo.upload_request (JInt (10 * 1024 * 1024))) Demo.empty_world
              "plan.png" "image/png" (10 * 1024 * 1024) (JStr "s1"))
    as (uploaded_at & updated_at & Hresp & Hlog & _).
  - reflexivity.
  - discriminate.
  - reflexivity.
  - cbn. tauto.
  - reflexivity.
  - lia.
  - lia.
  - reflexivity.
  - reflexivity.
  - exists uploaded_at, updated_at. split; [exact Hresp|exact Hlog].
Defined.

(** X16. A field of the wrong type that passes the truthiness check makes
    intake answer 500, "Internal server error", not 400: a [fileSize]
    that cannot be compared with a number (a string such as ["1024"], a
    list, an object) stops at the size check and leaves the world as it
    was; a [fileName] that is not a string stops at [split], after the
    uuid was drawn, and nothing is written either. *)
Theorem intake_ill_typed_field_500
    (E : Env) (C : Config) (event : Event.t) (w : World)
    (file_name file_type file_size session_id : jvalue) :
  request_field event "fileName" = Ok file_name ->
  request_field event "fileType" = Ok file_type ->
  request_field event "fileSize" = Ok file_size ->
  request_field event "sessionId" = Ok session_id ->
  Py.truthy file_name = true ->
  Py.truthy file_size = true ->
  Py.truthy session_id = true ->
  Py.truthy file_type = true ->
  Py.not_in file_type upload_handler.allowed_types = false ->
  (forall e,
     Py.gt_int file_size upload_handler.max_size = Raise e ->
     upload_handler.lambda_handler E C event w
     = (Ok (respond 500
              (ErrorBody "Internal server error"
                 (Some ("'>' not supported between instances of '"
                        +:+ Py.type_name file_size +:+ "' and 'int'")))),
        w))
  /\ (Py.gt_int file_size upload_handler.max_size = Ok false ->
      (forall s, file_name <> JStr s) ->
      upload_handler.lambda_handler E C event w
      = (Ok (respond 500
               (ErrorBody "Internal server error"
                  (Some ("'" +:+ Py.type_name file_name
                         +:+ "' object has no attribute 'split'")))),
         drawn w)).
Proof.
  intros Hname Htype Hsize Hsession Htn Hts Hti Htt Hallowed.
  destruct (request_field_inv _ _ _ Hname) as (fields & Hbody & Hn).
  pose proof (request_field_assoc _ _ _ _ Hbody Htype) as Ht.
  pose proof (request_field_assoc _ _ _ _ Hbody Hsize) as Hs.
  pose proof (request_field_assoc _ _ _ _ Hbody Hsession) as Hi.
  rewrite (upload_handler_eq E C event fields w Hbody). cbv beta zeta.
  rewrite Hn, Ht, Hs, Hi, Htn, Hts, Hti, Htt, Hallowed. cbn [andb negb].
  split.
  - intros e He. rewrite He.
    destruct file_size; try discriminate; injection He as <-; reflexivity.
  - intros Hle Hnot. rewrite Hle.
    destruct file_name; try reflexivity.
    exfalso. by eapply Hnot.
Qed.

Lemma intake_ill_typed_field_500_witness :
  upload_handler.lambda_handler Demo.serving_env default_config
    (Demo.upload_request (JStr "1024")) Demo.empty_world
  = (Ok (respond 500
           (ErrorBody "Internal server error"
              (Some "'>' not supported between instances of 'str' and 'int'"))),
     Demo.empty_world).
Proof.
  destruct (intake_ill_typed_field_500 Demo.serving_env default_config
              (Demo.upload_request (JStr "1024")) Demo.empty_world
              (JStr "plan.png") (JStr "image/png") (JStr "1024") (JStr "s1"))
    as [H _]; [reflexivity .. |].
  apply (H (Exn TypeError
              "'>' not supported between instances of 'str' and 'int'")).
  reflexivity.
Defined.

(* ===================================================================== *)
(** ** From intake to the run *)
(* ===================================================================== *)

(** X17. Intake and the coordinator agree on where the metadata of a job
    lives.  After an intake answered 200 with [blueprintId] and [s3Key],
    a run trigger that carries this identifier and the session of the
    upload gets past steps 1-2 (no 400, no 404): the payload names the
    artifact [s3://<bucket>/<s3Key>] of the intake answer, and the run
    answers 200 or 500. *)
Theorem intake_then_trigger_resolves
    (E : Env) (C : Config) (upload trigger : Event.t) (w w' : World)
    (blueprint_id url s3_key message : string) (session_id : jvalue) :
  upload_handler.lambda_handler E C upload w
  = (Ok (respond 200 (UploadBody blueprint_id url s3_key message)), w') ->
  request_field upload "sessionId" = Ok session_id ->
  request_field trigger "blueprintId" = Ok (JStr blueprint_id) ->
  request_field trigger "sessionId" = Ok session_id ->
  exists confidence,
    let p := inference_handler.Prepared (JStr blueprint_id) session_id
               (Payload.Make ("s3://" +:+ BUCKET_NAME C +:+ "/" +:+ s3_key)
                             confidence)
               (time_time E (clock w')) in
    inference_handler.resolve_and_preprocess E C trigger w'
    = (Ok (inr p), preprocessed E p w')
    /\ exists r,
         fst (inference_handler.lambda_handler E C trigger w') = Ok r
         /\ (Response.statusCode r = 200 \/ Response.statusCode r = 500).
Proof.
  intros Hup Hsession Hb Hs.
  destruct (upload_success_stored E C upload w _ w' Hup eq_refl)
    as (session_id' & b & url' & s3_key' & metadata & updated_at
        & Hsession' & Htruthy & Hid & Hr & Hobjects & Hmeta & Hnonempty).
  rewrite Hsession in Hsession'. injection Hsession' as <-.
  injection Hr as -> -> -> ->.
  assert (Htb : Py.truthy (JStr b) = true) by (rewrite Hid; reflexivity).
  destruct (resolve_with_ids E C trigger (JStr b) session_id w' Hb Hs Htb Htruthy)
    as (confidence & Hresolve).
  rewrite Hobjects in Hresolve.
  rewrite lookup_insert_ne in Hresolve
    by (intros Heq; symmetry in Heq; by apply metadata_key_not_status in Heq).
  rewrite lookup_insert_eq in Hresolve. cbn [doc_s3Key] in Hresolve.
  rewrite Hmeta, Hnonempty in Hresolve. cbn [negb] in Hresolve.
  exists confidence. cbv zeta. split; [exact Hresolve|].
  rewrite lambda_handler_eq, Hresolve, infer_and_persist_eq. cbv zeta.
  destruct (inference_handler.invoke_sagemaker_with_retry _ _ _ _ _ _)
    as [[[result|]|e] w2]; cbn [fst].
  - eexists. split; [reflexivity|]. by left.
  - eexists. split; [reflexivity|]. by right.
  - destruct (is_ModelError e); eexists; (split; [reflexivity|]); by right.
Qed.

Lemma intake_then_trigger_resolves_witness :
  exists confidence,
    let p := inference_handler.Prepared (JStr "blueprint-0123456789ab") (JStr "s1")
               (Payload.Make
                  ("s3://" +:+ BUCKET_NAME default_config +:+ "/"
                   +:+ "uploads/s1/blueprint-0123456789ab/original.png")
                  confidence)
               (time_time Demo.serving_env (clock (Demo.uploaded Demo.serving_env))) in
    inference_handler.resolve_and_preprocess Demo.serving_env default_config
      Demo.run_request (Demo.uploaded Demo.serving_env)
    = (Ok (inr p), preprocessed Demo.serving_env p (Demo.uploaded Demo.serving_env))
    /\ exists r,
         fst (inference_handler.lambda_handler Demo.serving_env default_config
                Demo.run_request (Demo.uploaded Demo.serving_env)) = Ok r
         /\ (Response.statusCode r = 200 \/ Response.statusCode r = 500).
Proof.
  apply (intake_then_trigger_resolves Demo.serving_env default_config
           (Demo.upload_request (JInt 1024)) Demo.run_request
           Demo.empty_world (Demo.uploaded Demo.serving_env)
           "blueprint-0123456789ab"
           "https://innergy-blueprints-dev/uploads/s1/blueprint-0123456789ab/original.png"
           "uploads/s1/blueprint-0123456789ab/original.png"
           "Presigned URL generated successfully" (JStr "s1")).
  - vm_compute. reflexivity.
  - reflexivity.
  - reflexivity.
  - reflexivity.
Defined.

(* ===================================================================== *)
(** ** From the writers to the queries *)
(* ===================================================================== *)

(** The scan returns the one listed key that matches. *)
Lemma find_key_unique blueprint_id suffix contents key :
  In key contents ->
  PyStr.contains blueprint_id key = true ->
  PyStr.endswith key suffix = true ->
  (forall key', In key' contents ->
                PyStr.contains blueprint_id key' = true ->
                PyStr.endswith key' suffix = true -> key' = key) ->
  find_key blueprint_id suffix contents = Some key.
Proof.
  intros Hin Hc He Hunique. unfold find_key.
  destruct (List.find _ contents) as [key'|] eqn:Hfind.
  - apply List.find_some in Hfind as [Hin' Hp].
    apply andb_true_iff in Hp as [Hc' He'].
    f_equal. by apply Hunique.
  - apply List.find_none with (x := key) in Hfind; [|exact Hin].
    cbv beta in Hfind. by rewrite Hc, He in Hfind.
Qed.

(** The same, for a bucket whose listing fits the first page. *)
Lemma find_key_stored w blueprint_id suffix key :
  listed_whole w ->
  is_Some (objects w !! key) ->
  String.prefix "uploads/" key = true ->
  PyStr.contains blueprint_id key = true ->
  PyStr.endswith key suffix = true ->
  (forall key', is_Some (objects w !! key') ->
                PyStr.contains blueprint_id key' = true ->
                PyStr.endswith key' suffix = true -> key' = key) ->
  find_key blueprint_id suffix (listed w) = Some key.
Proof.
  intros Hwhole Hsome Hpre Hc He Hunique.
  apply find_key_unique; auto using listed_complete.
  intros key' Hin. apply Hunique. by apply listed_in_bucket.
Qed.

Section JobKeys.
Context (E : Env).

Lemma status_key_is_status session_id blueprint_id :
  PyStr.endswith (inference_handler.status_key E session_id blueprint_id)
                 "status.json" = true.
Proof.
  unfold PyStr.endswith, inference_handler.status_key, String.rev.
  rewrite !rev_app_append. reflexivity.
Qed.

Lemma results_key_is_results session_id blueprint_id :
  PyStr.endswith (inference_handler.results_key E session_id blueprint_id)
                 "results.json" = true.
Proof.
  unfold PyStr.endswith, inference_handler.results_key, String.rev.
  rewrite !rev_app_append. reflexivity.
Qed.

Lemma metadata_key_not_status_suffix session_id blueprint_id :
  PyStr.endswith (inference_handler.metadata_key E session_id blueprint_id)
                 "status.json" = false.
Proof.
  unfold PyStr.endswith, inference_handler.metadata_key, String.rev.
  rewrite !rev_app_append. reflexivity.
Qed.

Lemma metadata_key_not_results session_id blueprint_id :
  PyStr.endswith (inference_handler.metadata_key E session_id blueprint_id)
                 "results.json" = false.
Proof.
  unfold PyStr.endswith, inference_handler.metadata_key, String.rev.
  rewrite !rev_app_append. reflexivity.
Qed.

Lemma results_key_not_status_suffix session_id blueprint_id :
  PyStr.endswith (inference_handler.results_key E session_id blueprint_id)
                 "status.json" = false.
Proof.
  unfold PyStr.endswith, inference_handler.results_key, String.rev.
  rewrite !rev_app_append. reflexivity.
Qed.

Lemma status_key_under_uploads session_id blueprint_id :
  String.prefix "uploads/"
    (inference_handler.status_key E session_id blueprint_id) = true.
Proof. apply prefix_append. Qed.

Lemma results_key_under_uploads session_id blueprint_id :
  String.prefix "uploads/"
    (inference_handler.results_key E session_id blueprint_id) = true.
Proof. apply prefix_append. Qed.

Lemma status_key_contains session_id blueprint_id :
  PyStr.contains blueprint_id
    (inference_handler.status_key E session_id (JStr blueprint_id)) = true.
Proof.
  unfold inference_handler.status_key. cbn [py_str].
  do 3 apply contains_append_r. apply contains_here.
Qed.

Lemma results_key_contains session_id blueprint_id :
  PyStr.contains blueprint_id
    (inference_handler.results_key E session_id (JStr blueprint_id)) = true.
Proof.
  unfold inference_handler.results_key. cbn [py_str].
  do 3 apply contains_append_r. apply contains_here.
Qed.

End JobKeys.

Section RunFrame.
Context (E : Env) (C : Config).

(** A run changes no key but the status key and the results key of the
    job its request names. *)
Lemma run_frame event w blueprint_id session_id key :
  request_field event "blueprintId" = Ok blueprint_id ->
  request_field event "sessionId" = Ok session_id ->
  key <> inference_handler.status_key E session_id blueprint_id ->
  key <> inference_handler.results_key E session_id blueprint_id ->
  objects (snd (inference_handler.lambda_handler E C event w)) !! key
  = objects w !! key.
Proof.
  intros Hb Hs Hnots Hnotr.
  rewrite lambda_handler_eq.
  destruct (inference_handler.resolve_and_preprocess E C event w)
    as [[[r0|p]|e] w1] eqn:Hresolve.
  - destruct (resolve_and_preprocess_cases E C event w)
      as [[? H]|[[? H]|[? H]]]; rewrite H in Hresolve;
      first [discriminate | injection Hresolve as _ <-; reflexivity].
  - destruct (resolve_and_preprocess_ids E C _ _ _ _ Hresolve)
      as (Hb' & Hs' & _ & _ & ->).
    rewrite Hb in Hb'. rewrite Hs in Hs'.
    injection Hb' as Hb'. injection Hs' as Hs'.
    rewrite infer_and_persist_eq. cbv zeta. rewrite <- Hb', <- Hs'.
    match goal with
    | |- context [inference_handler.invoke_sagemaker_with_retry
                    E C ?ep ?pl ?m ?w1] =>
        destruct (invoke_calls_only E C ep pl m w1)
          as (res & calls & delays & Hinv);
        rewrite (Hinv w1 eq_refl)
    end.
    destruct res as [[result|]|e]; [| |destruct (is_ModelError e)];
      world_simpl; rewrite <- ?Hb', <- ?Hs';
      by rewrite ?lookup_insert_ne.
  - destruct (resolve_and_preprocess_cases E C event w)
      as [[? H]|[[? H]|[? H]]]; rewrite H in Hresolve;
      first [discriminate | injection Hresolve as _ <-; reflexivity].
Qed.

End RunFrame.

(** X18. A job is visible to the queries as soon as intake has answered.
    After an intake answered 200 with [blueprintId], in a bucket where no
    earlier key contains that identifier and whose listing under
    [uploads/] fits the first page of 100 keys, a status query for the
    identifier returns the Status document intake wrote ([processing],
    stage [upload], progress 10), and a results query answers 404:
    there are no results yet. *)
Theorem intake_then_status_query
    (E : Env) (C : Config) (upload query : Event.t) (w w' : World)
    (blueprint_id url s3_key message : string) :
  upload_handler.lambda_handler E C upload w
  = (Ok (respond 200 (UploadBody blueprint_id url s3_key message)), w') ->
  (forall key, is_Some (objects w !! key) ->
               PyStr.contains blueprint_id key = false) ->
  listed_whole w' ->
  query_by_id query blueprint_id ->
  (exists updated_at,
     status_handler.lambda_handler query w'
     = (Ok (respond 200
              (DocumentBody
                 (DocStatus
                    (Status.Make (JStr blueprint_id) "processing" "upload" 10 20
                                 "Blueprint uploaded, preparing for processing..."
                                 (Some updated_at))))),
        w'))
  /\ results_handler.lambda_handler query w'
     = (Ok (respond 404 (ErrorBody "Results not found for this blueprint ID" None)),
        w').
Proof.
  intros Hup Hfresh Hwhole Hquery.
  destruct (upload_success_stored E C upload w _ w' Hup eq_refl)
    as (session_id & b & url' & s3_key' & metadata & updated_at
        & _ & _ & _ & Hr & Hobjects & _ & _).
  injection Hr as -> _ _ _.
  set (skey := inference_handler.status_key E session_id (JStr b)) in *.
  set (mkey := inference_handler.metadata_key E session_id (JStr b)) in *.
  assert (Hothers : forall key,
            is_Some (objects w' !! key) -> PyStr.contains b key = true ->
            key = skey \/ key = mkey).
  { intros key Hsome Hc.
    destruct (decide (key = skey)) as [|Hs]; [by left|].
    destruct (decide (key = mkey)) as [|Hm]; [by right|].
    rewrite Hobjects, !lookup_insert_ne in Hsome by done.
    apply Hfresh in Hsome. congruence. }
  split.
  - exists updated_at.
    rewrite (status_handler_by_id _ _ _ Hquery), status_lookup_unfold.
    rewrite (find_key_stored w' b "status.json" skey).
    + rewrite Hobjects, lookup_insert_eq. reflexivity.
    + exact Hwhole.
    + rewrite Hobjects, lookup_insert_eq. by eexists.
    + apply status_key_under_uploads.
    + apply status_key_contains.
    + apply status_key_is_status.
    + intros key Hsome Hc He.
      destruct (Hothers key Hsome Hc) as [->| ->]; [reflexivity|].
      unfold mkey in He. by rewrite metadata_key_not_status_suffix in He.
  - rewrite (results_handler_by_id _ _ _ Hquery), results_lookup_unfold.
    assert (find_key b "results.json" (listed w') = None) as ->; [|reflexivity].
    apply find_key_None. intros (key & Hin & Hc & He).
    apply listed_in_bucket in Hin.
    destruct (Hothers key Hin Hc) as [->| ->].
    + unfold skey in He. by rewrite status_key_not_results in He.
    + unfold mkey in He. by rewrite metadata_key_not_results in He.
Qed.

Lemma intake_then_status_query_witness :
  (exists updated_at,
     status_handler.lambda_handler (Demo.query "blueprint-0123456789ab")
       (Demo.uploaded Demo.serving_env)
     = (Ok (respond 200
              (DocumentBody
                 (DocStatus
                    (Status.Make (JStr "blueprint-0123456789ab") "processing"
                                 "upload" 10 20
                                 "Blueprint uploaded, preparing for processing..."
                                 (Some updated_at))))),
        Demo.uploaded Demo.serving_env))
  /\ results_handler.lambda_handler (Demo.query "blueprint-0123456789ab")
       (Demo.uploaded Demo.serving_env)
     = (Ok (respond 404 (ErrorBody "Results not found for this blueprint ID" None)),
        Demo.uploaded Demo.serving_env).
Proof.
  apply (intake_then_status_query Demo.serving_env default_config
           (Demo.upload_request (JInt 1024))
           (Demo.query "blueprint-0123456789ab")
           Demo.empty_world (Demo.uploaded Demo.serving_env)
           "blueprint-0123456789ab"
           "https://innergy-blueprints-dev/uploads/s1/blueprint-0123456789ab/original.png"
           "uploads/s1/blueprint-0123456789ab/original.png"
           "Presigned URL generated successfully").
  - vm_compute. reflexivity.
  - intros key Hsome. exfalso.
    change (objects Demo.empty_world) with (∅ : gmap string Document) in Hsome.
    rewrite lookup_empty in Hsome. by destruct Hsome.
  - unfold listed_whole. vm_compute. lia.
  - split; [reflexivity|discriminate].
Defined.

(** X19. The queries return what a successful run wrote.  After a run
    answered 200 for the job [blueprint_id], in a bucket whose listing
    under [uploads/] fits the first page and where no document of another
    job matches the identifier, a results query for the identifier
    returns exactly the Results document of the run's answer, and a
    status query returns the Status [completed], stage [complete],
    progress 100. *)
Theorem run_then_queries
    (E : Env) (C : Config) (trigger query : Event.t) (w w' : World)
    (r : Response.t) (blueprint_id : string) (session_id : jvalue) :
  inference_handler.lambda_handler E C trigger w = (Ok r, w') ->
  Response.statusCode r = 200 ->
  request_field trigger "blueprintId" = Ok (JStr blueprint_id) ->
  request_field trigger "sessionId" = Ok session_id ->
  (forall key, is_Some (objects w !! key) ->
               PyStr.contains blueprint_id key = true ->
               (PyStr.endswith key "status.json" = true ->
                key = inference_handler.status_key E session_id (JStr blueprint_id))
               /\ (PyStr.endswith key "results.json" = true ->
                   key = inference_handler.results_key E session_id
                           (JStr blueprint_id))) ->
  listed_whole w' ->
  query_by_id query blueprint_id ->
  exists results updated_at,
    r = respond 200 (InferenceBody "Inference completed successfully"
                                   (JStr blueprint_id) results)
    /\ results_handler.lambda_handler query w'
       = (Ok (respond 200 (DocumentBody (DocResults results))), w')
    /\ status_handler.lambda_handler query w'
       = (Ok (respond 200
                (DocumentBody
                   (DocStatus
                      (Status.Make (JStr blueprint_id) "completed" "complete"
                                   100 0 "Processing completed successfully"
                                   (Some updated_at))))),
          w').
Proof.
  intros Hrun Hcode Hblueprint Hsession Hunique Hwhole Hquery.
  destruct (run_success E C trigger w r w' Hrun Hcode)
    as (b & s & t1 & t2 & t3 & t4 & results & Hb & Hs & Hr & _ & _
        & Hresults & Hstatus).
  rewrite Hsession in Hs. injection Hs as <-.
  rewrite Hblueprint in Hb. injection Hb as <-.
  set (skey := inference_handler.status_key E session_id (JStr blueprint_id)) in *.
  set (rkey := inference_handler.results_key E session_id (JStr blueprint_id)) in *.
  assert (Hframe : forall key, key <> skey -> key <> rkey ->
                               objects w' !! key = objects w !! key).
  { intros key Hnots Hnotr.
    pose proof (run_frame E C trigger w _ _ key Hblueprint Hsession Hnots Hnotr)
      as H.
    by rewrite Hrun in H. }
  assert (Hothers : forall key,
            is_Some (objects w' !! key) -> PyStr.contains blueprint_id key = true ->
            (PyStr.endswith key "status.json" = true -> key = skey)
            /\ (PyStr.endswith key "results.json" = true -> key = rkey)).
  { intros key Hsome Hc.
    destruct (decide (key = skey)) as [->|Hnots].
    { split; [done|]. unfold skey. by rewrite status_key_not_results. }
    destruct (decide (key = rkey)) as [->|Hnotr].
    { split; [|done]. unfold rkey. by rewrite results_key_not_status_suffix. }
    rewrite Hframe in Hsome by done. by apply Hunique. }
  exists results, t4. split; [exact Hr|]. split.
  - rewrite (results_handler_by_id _ _ _ Hquery), results_lookup_unfold.
    rewrite (find_key_stored w' blueprint_id "results.json" rkey).
    + by rewrite Hresults.
    + exact Hwhole.
    + by rewrite Hresults.
    + apply results_key_under_uploads.
    + apply results_key_contains.
    + apply results_key_is_results.
    + intros key Hsome Hc. apply (Hothers key Hsome Hc).
  - rewrite (status_handler_by_id _ _ _ Hquery), status_lookup_unfold.
    rewrite (find_key_stored w' blueprint_id "status.json" skey).
    + by rewrite Hstatus.
    + exact Hwhole.
    + by rewrite Hstatus.
    + apply status_key_under_uploads.
    + apply status_key_contains.
    + apply status_key_is_status.
    + intros key Hsome Hc. apply (Hothers key Hsome Hc).
Qed.


Lemma run_then_queries_witness :
  exists results updated_at,
    Demo.response_of
      (inference_handler.lambda_handler Demo.serving_env default_config
         Demo.run_request (Demo.uploaded Demo.serving_env))
    = respond 200 (InferenceBody "Inference completed successfully"
                                 (JStr "blueprint-0123456789ab") results)
    /\ results_handler.lambda_handler (Demo.query "blueprint-0123456789ab")
         Demo.completed
       = (Ok (respond 200 (DocumentBody (DocResults results))), Demo.completed)
    /\ status_handler.lambda_handler (Demo.query "blueprint-0123456789ab")
         Demo.completed
       = (Ok (respond 200
                (DocumentBody
                   (DocStatus
                      (Status.Make (JStr "blueprint-0123456789ab") "completed"
                                   "complete" 100 0
                                   "Processing completed successfully"
                                   (Some updated_at))))),
          Demo.completed).
Proof.
  apply (run_then_queries Demo.serving_env default_config Demo.run_request
           (Demo.query "blueprint-0123456789ab")
           (Demo.uploaded Demo.serving_env) Demo.completed
           (Demo.response_of
              (inference_handler.lambda_handler Demo.serving_env default_config
                 Demo.run_request (Demo.uploaded Demo.serving_env)))
           "blueprint-0123456789ab" (JStr "s1")).
  - vm_compute. reflexivity.
  - vm_compute. reflexivity.
  - reflexivity.
  - reflexivity.
  - intros key [d Hd] _. apply bucket_key_listed in Hd.
    assert (Hkeys : map fst (map_to_list (objects (Demo.uploaded Demo.serving_env)))
                    = [ "uploads/s1/blueprint-0123456789ab/status.json";
                        "uploads/s1/blueprint-0123456789ab/metadata.json" ])
      by (vm_compute; reflexivity).
    rewrite Hkeys in Hd.
    destruct Hd as [Hk|[Hk|[]]]; rewrite <- Hk; split;
      vm_compute; intros He; first [discriminate He | reflexivity].
  - unfold listed_whole. vm_compute. lia.
  - split; [reflexivity|discriminate].
Defined.

(* ===================================================================== *)
(** ** The query handlers on their own *)
(* ===================================================================== *)

(** The two query handlers, by the identifier of the path. *)
Lemma status_handler_eq event w :
  status_handler.lambda_handler event w =
  match path_blueprint_id event with
  | Raise e =>
      (Ok (respond 500 (ErrorBody "Internal server error" (Some (exn_msg e)))), w)
  | Ok None => (Ok missing_blueprint_id, w)
  | Ok (Some blueprint_id) =>
      if String.eqb blueprint_id "" then (Ok missing_blueprint_id, w)
      else status_handler.lookup blueprint_id w
  end.
Proof.
  unfold status_handler.lambda_handler, try_except, bind, lift.
  destruct (path_blueprint_id event) as [[blueprint_id|]|e]; try reflexivity.
  destruct (String.eqb blueprint_id ""); [reflexivity|].
  rewrite status_lookup_unfold.
  destruct (find_key _ "status.json" _) as [key|].
  - by destruct (objects w !! key).
  - by destruct (find_key _ "results.json" _).
Qed.

Lemma results_handler_eq event w :
  results_handler.lambda_handler event w =
  match path_blueprint_id event with
  | Raise e =>
      (Ok (respond 500 (ErrorBody "Internal server error" (Some (exn_msg e)))), w)
  | Ok None => (Ok missing_blueprint_id, w)
  | Ok (Some blueprint_id) =>
      if String.eqb blueprint_id "" then (Ok missing_blueprint_id, w)
      else results_handler.lookup blueprint_id w
  end.
Proof.
  unfold results_handler.lambda_handler, try_except, bind, lift.
  destruct (path_blueprint_id event) as [[blueprint_id|]|e]; try reflexivity.
  destruct (String.eqb blueprint_id ""); [reflexivity|].
  rewrite results_lookup_unfold.
  destruct (find_key _ "results.json" _) as [key|]; [|reflexivity].
  by destruct (objects w !! key).
Qed.

(** X20. The query handlers only read.  A status query and a results
    query leave the world exactly as it was (no put, no endpoint call, no
    sleep, no clock or uuid drawn), whatever the request, and their answer
    depends on nothing of the world but the contents of the bucket. *)
Theorem queries_read_only (event : Event.t) (w w' : World) :
  snd (status_handler.lambda_handler event w) = w
  /\ snd (results_handler.lambda_handler event w) = w
  /\ (objects w = objects w' ->
      fst (status_handler.lambda_handler event w)
      = fst (status_handler.lambda_handler event w')
      /\ fst (results_handler.lambda_handler event w)
         = fst (results_handler.lambda_handler event w')).
Proof.
  rewrite !status_handler_eq, !results_handler_eq.
  destruct (path_blueprint_id event) as [[blueprint_id|]|e]; cbn [fst snd];
    try (repeat split; reflexivity).
  destruct (String.eqb blueprint_id ""); [repeat split; reflexivity|].
  rewrite !status_lookup_unfold, !results_lookup_unfold.
  unfold listed.
  split; [|split].
  - destruct (find_key _ "status.json" _) as [key|].
    + by destruct (objects w !! key).
    + by destruct (find_key _ "results.json" _).
  - destruct (find_key _ "results.json" _) as [key|]; [|reflexivity].
    by destruct (objects w !! key).
  - intros <-. split.
    + destruct (find_key _ "status.json" _) as [key|].
      * by destruct (objects w !! key).
      * by destruct (find_key _ "results.json" _).
    + destruct (find_key _ "results.json" _) as [key|]; [|reflexivity].
      by destruct (objects w !! key).
Qed.

Lemma queries_read_only_witness :
  fst (status_handler.lambda_handler (Demo.query "blueprint-0123456789ab")
         Demo.completed)
  = fst (status_handler.lambda_handler (Demo.query "blueprint-0123456789ab")
           (drawn Demo.completed))
  /\ fst (results_handler.lambda_handler (Demo.query "blueprint-0123456789ab")
            Demo.completed)
     = fst (results_handler.lambda_handler (Demo.query "blueprint-0123456789ab")
              (drawn Demo.completed)).
Proof.
  pose proof (queries_read_only (Demo.query "blueprint-0123456789ab")
                Demo.completed (drawn Demo.completed)) as (_ & _ & H).
  exact (H (eq_sym (objects_drawn Demo.completed))).
Defined.

(** X21. A query without a job identifier.  When the event has no
    [pathParameters], or they hold no [blueprintId] or an empty one, both
    query handlers answer 400, "Missing blueprintId parameter", without
    listing the bucket.  When [pathParameters] is present and null, the
    lookup of the identifier itself fails and both answer 500 with the
    details ['NoneType' object has no attribute 'get']. *)
Theorem query_without_id (event : Event.t) (w : World) :
  (Event.pathParameters event = PathAbsent
   \/ (exists fields, Event.pathParameters event = PathDict fields
                      /\ (forall id, In ("blueprintId", id) fields -> id = "")) ->
   status_handler.lambda_handler event w
   = (Ok (respond 400 (ErrorBody "Missing blueprintId parameter" None)), w)
   /\ results_handler.lambda_handler event w
      = (Ok (respond 400 (ErrorBody "Missing blueprintId parameter" None)), w))
  /\ (Event.pathParameters event = PathNull ->
      status_handler.lambda_handler event w
      = (Ok (respond 500
               (ErrorBody "Internal server error"
                  (Some "'NoneType' object has no attribute 'get'"))), w)
      /\ results_handler.lambda_handler event w
         = (Ok (respond 500
                  (ErrorBody "Internal server error"
                     (Some "'NoneType' object has no attribute 'get'"))), w)).
Proof.
  rewrite status_handler_eq, results_handler_eq. unfold path_blueprint_id.
  split.
  - intros [->|(fields & -> & Hempty)]; [by split|].
    destruct (List.find _ fields) as [[k id]|] eqn:Hfind; [|by split].
    apply List.find_some in Hfind as [Hin Hk].
    cbn [fst] in Hk. apply String.eqb_eq in Hk as <-.
    cbn [fmap option_fmap option_map snd].
    rewrite (Hempty id Hin). by split.
  - intros ->. by split.
Qed.

Lemma query_without_id_witness :
  (status_handler.lambda_handler
     (Event.Make BodyAbsent (PathDict [("blueprintId", "")]))
     Demo.completed
   = (Ok (respond 400 (ErrorBody "Missing blueprintId parameter" None)),
      Demo.completed)
   /\ results_handler.lambda_handler
        (Event.Make BodyAbsent (PathDict [("blueprintId", "")]))
        Demo.completed
      = (Ok (respond 400 (ErrorBody "Missing blueprintId parameter" None)),
         Demo.completed))
  /\ (status_handler.lambda_handler (Event.Make BodyAbsent PathNull)
        Demo.completed
      = (Ok (respond 500
               (ErrorBody "Internal server error"
                  (Some "'NoneType' object has no attribute 'get'"))),
         Demo.completed)
      /\ results_handler.lambda_handler (Event.Make BodyAbsent PathNull)
           Demo.completed
         = (Ok (respond 500
                  (ErrorBody "Internal server error"
                     (Some "'NoneType' object has no attribute 'get'"))),
            Demo.completed)).
Proof.
  split.
  - pose proof (query_without_id
                  (Event.Make BodyAbsent (PathDict [("blueprintId", "")]))
                  Demo.completed) as [H _].
    apply H. right. exists [("blueprintId", "")].
    split; [reflexivity|].
    intros id [Hid|[]]. by injection Hid as <-.
  - pose proof (query_without_id (Event.Make BodyAbsent PathNull)
                  Demo.completed) as [_ H].
    apply H. reflexivity.
Defined.

(** X22. The scan matches the identifier as a substring of the key.
    In a bucket whose listing under [uploads/] fits the first page and
    that holds one Status document, under the status key of job
    [blueprint_id] of session [session_id], a status query for any
    non-empty string that occurs in that key (the identifier, a part of
    it, the session, [uploads]) returns that Status document. *)
Theorem status_query_matches_substring
    (E : Env) (query : Event.t) (w : World) (part blueprint_id : string)
    (session_id : jvalue) (status : Document) :
  let status_key :=
    inference_handler.status_key E session_id (JStr blueprint_id) in
  objects w !! status_key = Some status ->
  (forall key, is_Some (objects w !! key) ->
               PyStr.endswith key "status.json" = true -> key = status_key) ->
  listed_whole w ->
  query_by_id query part ->
  PyStr.contains part status_key = true ->
  status_handler.lambda_handler query w
  = (Ok (respond 200 (DocumentBody status)), w).
Proof.
  intros status_key Hstored Hunique Hwhole Hquery Hpart.
  rewrite (status_handler_by_id _ _ _ Hquery), status_lookup_unfold.
  rewrite (find_key_stored w part "status.json" status_key).
  - by rewrite Hstored.
  - exact Hwhole.
  - by rewrite Hstored.
  - apply status_key_under_uploads.
  - exact Hpart.
  - apply status_key_is_status.
  - intros key Hsome _. by apply Hunique.
Qed.

Lemma status_query_matches_substring_witness :
  status_handler.lambda_handler (Demo.query "s1") (Demo.uploaded Demo.serving_env)
  = (Ok (respond 200
           (DocumentBody
              (DocStatus
                 (Status.Make (JStr "blueprint-0123456789ab") "processing"
                              "upload" 10 20
                              "Blueprint uploaded, preparing for processing..."
                              (Some "2024-01-01T00:00:01Z"))))),
     Demo.uploaded Demo.serving_env).
Proof.
  apply (status_query_matches_substring Demo.serving_env (Demo.query "s1")
           (Demo.uploaded Demo.serving_env) "s1" "blueprint-0123456789ab"
           (JStr "s1")).
  - vm_compute. reflexivity.
  - intros key [d Hd]. apply bucket_key_listed in Hd.
    assert (Hkeys : map fst (map_to_list (objects (Demo.uploaded Demo.serving_env)))
                    = [ "uploads/s1/blueprint-0123456789ab/status.json";
                        "uploads/s1/blueprint-0123456789ab/metadata.json" ])
      by (vm_compute; reflexivity).
    rewrite Hkeys in Hd.
    destruct Hd as [Hk|[Hk|[]]]; rewrite <- Hk;
      vm_compute; intros He; first [discriminate He | reflexivity].
  - unfold listed_whole. vm_compute. lia.
  - split; [reflexivity|discriminate].
  - vm_compute. reflexivity.
Defined.

(* ===================================================================== *)
(** ** The inference script *)
(* ===================================================================== *)

(** The loop over the rows, from any list of detections made so far. *)
Lemma detections_loop rows : forall detections,
  fold_left
    (fun detections row =>
       (detections ++ [inference.detection_of_row (length detections) row])%list)
    rows detections
  = (detections
     ++ imap (fun i row =>
                inference.detection_of_row (length detections + i) row) rows)%list.
Proof.
  induction rows as [|row rows IH]; intros detections; cbn [fold_left imap].
  - by rewrite app_nil_r.
  - rewrite IH, <- app_assoc. cbn [app]. rewrite Nat.add_0_r.
    do 2 f_equal. apply imap_ext. intros i r _. cbn.
    rewrite length_app. cbn [length]. f_equal. lia.
Qed.

Lemma detections_of_imap rows :
  inference.detections_of rows = imap inference.detection_of_row rows.
Proof. unfold inference.detections_of. by rewrite detections_loop. Qed.

(** What [predict_fn] returns when it returns: the detections of the rows
    of the forward pass, on the threshold of the call. *)
Lemma predict_fn_rows L input_data model result :
  fst (inference.predict_fn L input_data model) = Ok result ->
  exists rows,
    InferenceResult.detections result = Some (inference.detections_of rows)
    /\ InferenceResult.totalRooms result = Some (Z.of_nat (length rows))
    /\ InferenceResult.avgConfidence result
       = Some (inference.avg_confidence (inference.detections_of rows))
    /\ exists threshold image,
         rows = inference.forward model threshold image.
Proof.
  unfold inference.predict_fn.
  destruct (match inference.i_s3_uri input_data,
                  inference.i_image_bytes input_data with
            | Some uri, _ => inference.image_from_s3 L uri
            | None, Some bytes => inference.image_from_bytes L bytes
            | None, None => _
            end) as [image|e]; [|discriminate].
  cbn [fst]. intros [= <-]. eexists. cbn.
  split; [reflexivity|]. split.
  - by rewrite detections_of_imap, length_imap.
  - split; [reflexivity|].
    destruct (inference.i_confidence input_data); cbn; eauto.
Qed.



(** X24. The threshold of a request stays in the model.  [predict_fn]
    stores the [confidence] of the request in the model before it loads
    the image, so it stays there also when the call fails; a later request
    without [confidence] is then served on the threshold of the earlier
    request, not on the default 0.5 the model was loaded with. *)
Theorem threshold_carries_over
    (L : inference.Loader) (first second : inference.InputData)
    (model : inference.Model) (threshold : jvalue) (uri : string)
    (image : inference.Image) :
  inference.i_confidence first = Some threshold ->
  inference.i_confidence second = None ->
  inference.i_s3_uri second = Some uri ->
  inference.image_from_s3 L uri = Ok image ->
  let model' := snd (inference.predict_fn L first model) in
  inference.conf model' = threshold
  /\ fst (inference.predict_fn L second model')
     = Ok (inference.format_output
             (inference.detections_of (inference.forward model threshold image))
             image)
  /\ inference.conf (snd (inference.predict_fn L second model')) = threshold.
Proof.
  intros Hfirst Hsecond Huri Himage model'.
  assert (Hmodel : model' = inference.MkModel threshold (inference.forward model)).
  { unfold model', inference.predict_fn. rewrite Hfirst.
    by destruct (match inference.i_s3_uri first,
                       inference.i_image_bytes first with
                 | Some uri, _ => inference.image_from_s3 L uri
                 | None, Some bytes => inference.image_from_bytes L bytes
                 | None, None => _
                 end). }
  rewrite Hmodel. unfold inference.predict_fn.
  rewrite Hsecond, Huri, Himage. cbn. auto.
Qed.

Lemma threshold_carries_over_witness :
  let model' :=
    snd (inference.predict_fn Demo.loader
           (inference.MkInput (Some (JFloat (9 # 10))) None None) Demo.model) in
  inference.conf model' = JFloat (9 # 10)
  /\ fst (inference.predict_fn Demo.loader
            (inference.MkInput None (Some "s3://b/k") None) model')
     = Ok (inference.format_output
             (inference.detections_of
                (inference.forward Demo.model (JFloat (9 # 10)) Demo.image))
             Demo.image)
  /\ inference.conf
       (snd (inference.predict_fn Demo.loader
               (inference.MkInput None (Some "s3://b/k") None) model'))
     = JFloat (9 # 10).
Proof.
  apply (threshold_carries_over Demo.loader
           (inference.MkInput (Some (JFloat (9 # 10))) None None)
           (inference.MkInput None (Some "s3://b/k") None)
           Demo.model (JFloat (9 # 10)) "s3://b/k" Demo.image);
    reflexivity.
Defined.


(* ===================================================================== *)
(** ** Averages and rounding *)
(* ===================================================================== *)





(** Rounding to the nearest integer moves a number by at most a half. *)
Lemma round_half_even_near (q : Q) :
  (q - (1 # 2) <= inject_Z (PyNum.round_half_even q) <= q + (1 # 2))%Q.
Proof.
  unfold PyNum.round_half_even.
  pose proof (Qfloor_le q) as Hle. pose proof (Qlt_floor q) as Hlt.
  rewrite inject_Z_plus in Hlt. change (inject_Z 1) with 1%Q in Hlt.
  destruct (Qcompare_spec (q - inject_Z (Qfloor q)) (1 # 2)) as [Heq|Hc|Hc].
  - destruct (Z.even (Qfloor q)).
    + split; lra.
    + rewrite inject_Z_plus. change (inject_Z 1) with 1%Q. split; lra.
  - split; lra.
  - rewrite inject_Z_plus. change (inject_Z 1) with 1%Q. split; lra.
Qed.



Lemma round2_value (q : Q) :
  (PyNum.round2 q == inject_Z (PyNum.round_half_even (q * 100)) / 100)%Q.
Proof. unfold PyNum.round2. apply Qred_correct. Qed.

(** X25. What [round(x, 2)] does to the two numbers the coordinator
    rounds, with Python floats read as exact rationals: the stored
    [avgConfidence] and [processingTime] are whole numbers of hundredths
    and differ from the average the endpoint reported (0 when it reported
    none) and from the elapsed time by at most 0.005. *)
Theorem stored_numbers_rounded_to_hundredths
    (C : Config) (blueprint_id : jvalue) (processing_time : Q)
    (detected_at : string) (result : InferenceResult.t) :
  let results := inference_handler.format_results C blueprint_id
                   processing_time detected_at result in
  let reported :=
    match InferenceResult.avgConfidence result with
    | Some a => a
    | None => 0%Q
    end in
  let stored := Statistics.avgConfidence (Results.statistics results) in
  ((exists n : Z, stored == inject_Z n / 100)
   /\ reported - (1 # 200) <= stored <= reported + (1 # 200)
   /\ (exists n : Z, Results.processingTime results == inject_Z n / 100)
   /\ processing_time - (1 # 200) <= Results.processingTime results
      <= processing_time + (1 # 200))%Q.
Proof.
  cbv zeta. unfold inference_handler.format_results. cbn.
  unfold inference_handler.or_default.
  set (reported := match InferenceResult.avgConfidence result with
                   | Some a => a
                   | None => 0%Q
                   end).
  pose proof (round_half_even_near (reported * 100)) as Ha.
  pose proof (round_half_even_near (processing_time * 100)) as Ht.
  pose proof (round2_value reported) as Hra.
  pose proof (round2_value processing_time) as Hrt.
  split; [eexists; exact Hra|].
  split.
  { rewrite Hra. split.
    - apply Qle_shift_div_l; [reflexivity|]. lra.
    - apply Qle_shift_div_r; [reflexivity|]. lra. }
  split; [eexists; exact Hrt|].
  rewrite Hrt. split.
  - apply Qle_shift_div_l; [reflexivity|]. lra.
  - apply Qle_shift_div_r; [reflexivity|]. lra.
Qed.



(* ===================================================================== *)
(** ** The script behind the coordinator *)
(* ===================================================================== *)

Lemma room_ids_from rows : forall k,
  map Detection.roomId
      (imap (fun i row => inference.detection_of_row (k + i) row) rows)
  = map (fun i => Z.of_nat i + 1) (seq k (length rows)).
Proof.
  induction rows as [|row rows IH]; intros k; cbn; [reflexivity|].
  rewrite Nat.add_0_r. f_equal.
  rewrite <- IH. f_equal. apply imap_ext. intros i r _. cbn.
  do 2 f_equal. lia.
Qed.

Lemma room_ids rows :
  map Detection.roomId (inference.detections_of rows)
  = map (fun i => Z.of_nat i + 1) (seq 0 (length rows)).
Proof. rewrite detections_of_imap. apply (room_ids_from rows 0). Qed.

(** X27. When the endpoint runs the inference script of the repository,
    the Results document of a successful run numbers its detections
    1, 2, ..., n in their order, and its statistics agree on their number:
    [totalRooms], which the coordinator copies from the endpoint, equals
    [totalDetections], which it counts itself; the image dimensions are
    present. *)
Theorem served_run_numbers_rooms
    (E : Env) (C : Config) (L : inference.Loader) (event : Event.t)
    (w w' : World) (r : Response.t) :
  inference.serves E L ->
  inference_handler.lambda_handler E C event w = (Ok r, w') ->
  Response.statusCode r = 200 ->
  exists blueprint_id results,
    r = respond 200 (InferenceBody "Inference completed successfully"
                                   blueprint_id results)
    /\ map Detection.roomId (Results.detections results)
       = map (fun i => Z.of_nat i + 1)
             (seq 0 (length (Results.detections results)))
    /\ Statistics.totalRooms (Results.statistics results)
       = Z.of_nat (length (Results.detections results))
    /\ Statistics.totalDetections (Results.statistics results)
       = Statistics.totalRooms (Results.statistics results)
    /\ is_Some (Results.dimensions results).
Proof.
  intros Hserves Hrun Hcode.
  destruct (run_success E C event w r w' Hrun Hcode)
    as (b & s & t1 & t2 & t3 & t4 & results & _ & _ & Hr & Hfrom & _).
  destruct Hfrom as (result & n & payload & pt & dt & Hcall & ->).
  destruct (Hserves _ _ _ _ Hcall) as [model Hpredict].
  destruct (predict_fn_rows _ _ _ _ Hpredict)
    as (rows & Hdets & Hrooms & _ & _).
  exists b. eexists. split; [exact Hr|].
  unfold inference_handler.format_results. cbn.
  rewrite Hdets, Hrooms. cbn [inference_handler.or_default].
  rewrite room_ids, detections_of_imap, length_imap.
  repeat split.
  unfold inference.predict_fn in Hpredict.
  destruct (match inference.i_s3_uri (inference.input_of_payload payload),
                  inference.i_image_bytes (inference.input_of_payload payload) with
            | Some uri, _ => inference.image_from_s3 L uri
            | None, Some bytes => inference.image_from_bytes L bytes
            | None, None => _
            end) as [image|e]; [|discriminate].
  cbn [fst] in Hpredict. injection Hpredict as <-. cbn. by eexists.
Qed.

Lemma served_run_numbers_rooms_witness :
  exists blueprint_id results,
    Demo.response_of
      (inference_handler.lambda_handler Demo.serving_env default_config
         Demo.run_request (Demo.uploaded Demo.serving_env))
    = respond 200 (InferenceBody "Inference completed successfully"
                                 blueprint_id results)
    /\ map Detection.roomId (Results.detections results)
       = map (fun i => Z.of_nat i + 1)
             (seq 0 (length (Results.detections results)))
    /\ Statistics.totalRooms (Results.statistics results)
       = Z.of_nat (length (Results.detections results))
    /\ Statistics.totalDetections (Results.statistics results)
       = Statistics.totalRooms (Results.statistics results)
    /\ is_Some (Results.dimensions results).
Proof.
  apply (served_run_numbers_rooms Demo.serving_env default_config
           Demo.loader Demo.run_request (Demo.uploaded Demo.serving_env)
           Demo.completed
           (Demo.response_of
              (inference_handler.lambda_handler Demo.serving_env default_config
                 Demo.run_request (Demo.uploaded Demo.serving_env)))).
  - intros n endpoint_name payload r H. exists Demo.model. exact H.
  - vm_compute. reflexivity.
  - vm_compute. reflexivity.
Defined.
